(** * german-phrase-game: the spaced-repetition scheduler

  A shallow embedding of the scheduling core of the application
  (server/learning/srs.ts, server/taskScheduler.ts, the review queries of
  server/routers/learning.ts and server/db.ts, and the record-answer
  mutation of server/routers.ts), followed by the properties of it that
  the specification states.

  Conventions of the embedding.
  - The columns of the MySQL tables are [int] columns and are integers
    ([Z]); sums, differences and comparisons of such integers are exact in
    JavaScript and are done in [Z].
  - A JavaScript [number] that need not be an integer is taken in two
    ways.  Where a result depends on the rounding of an intermediate
    value, it is an IEEE 754 double (module [F64], on the primitive
    floats): the functions of [Srs64], the intervals of [recordAnswer] and
    [updateUserProgress], the accuracy of [recordStudySession].  Module
    [Srs], [getStats] and [updateLearningAnalytics] take it as an exact
    rational ([Q]); what is proved of them are bounds, orders and the
    cases in which every intermediate value is an integer.
  - A [Date] is its epoch time in milliseconds ([Z]); a time further than
    8.64e15 ms from the epoch is no time of a [Date] ([Js.validTime]).
    Calendar arithmetic ([setDate], [setHours(0,0,0,0)]) is that of a
    server in UTC: no clock changes, a day being 86400000 ms.
  - [getDb] is an [async] function.  A function that binds
    [await getDb()] runs its statements on the handle; one that binds
    [getDb()] holds a Promise, and its first statement throws
    ([Db.call]).
  - The tables are lists of rows in insertion order, and strings are
    compared character by character, as by a binary collation.  An insert
    into a table of the task scheduler, and the one of
    [updateUserProgress], refuses an id longer than the 64 characters of
    the key column, as MySQL does in its strict mode ([Db.insertKeyed]);
    the ids of [recordAnswer] (32 characters) and of
    [updateLearningAnalytics] are taken to fit.
  - The columns of the tables here take every integer and every time, and
    a key any number of times.  MySQL takes the 32-bit integers in an
    [int] column ([Db.intColumn]), the times from 1970 to 2038 in a
    [timestamp] column ([Db.timestampColumn]) and a key once; that a call
    writes only such values is a hypothesis where a theorem names it:
    [Notions.clock], [Notions.roomy], [Notions.completionAccepted],
    [Notions.sessionAccepted].
  - Each operation reads the clock once. *)

From Stdlib Require Import Floats.
From Stdlib Require Import ZArith QArith Qround Lia Lqa List String Bool.
From Stdlib Require Import DecimalString.
From Stdlib Require Import Sorting.Sorted Sorting.Permutation.
Import ListNotations.

Set Implicit Arguments.

(* ================================================================== *)
(** * Part I: the program *)
(* ================================================================== *)

(** ** JavaScript numbers and dates *)

Module Js.

Local Open Scope Q_scope.

(** [a < b] on numbers. *)
Definition ltb (a b : Q) : bool := negb (Qle_bool b a).

(** [Math.round]: the nearest integer, a tie going up. *)
Definition Math_round (x : Q) : Z := Qfloor (x + (1 # 2)).

(** [Math.min] and [Math.max]. *)
Definition Math_min (a b : Q) : Q := if Qle_bool a b then a else b.
Definition Math_max (a b : Q) : Q := if Qle_bool a b then b else a.

(** [a / b], when it is a finite number: a zero divisor gives [NaN] or
    an infinity. *)
Definition div (a b : Q) : option Q :=
  if Qeq_bool b 0 then None else Some (a / b).

(** A thrown [Error] or [TypeError], with its message. *)
Inductive exn : Type :=
| Error (message : string)
| TypeError (message : string).

(** An integer in a template literal: its decimal digits. *)
Definition toString (n : Z) : string := NilZero.string_of_int (Z.to_int n).

(** [Math.ceil] *)
Definition Math_ceil (x : Q) : Z := Qceiling x.

Local Open Scope Z_scope.

Definition msPerDay : Z := 24 * 60 * 60 * 1000.

(** [d.setDate(d.getDate() + n)] *)
Definition addDays (d n : Z) : Z := d + n * msPerDay.

(** [d.setHours(0, 0, 0, 0)] *)
Definition startOfDay (d : Z) : Z := d - d mod msPerDay.

(** The times of a [Date]: at most 8.64e15 ms on either side of the epoch.
    Date arithmetic that leaves this range gives an invalid [Date]. *)
Definition maxTime : Z := 8640000000000000.

Definition validTime (t : Z) : Prop := - maxTime <= t <= maxTime.

(** A time that is the time of a [Date], as is the midnight before it. *)
Definition validDate (d : Z) : Prop := validTime d /\ validTime (startOfDay d).

End Js.

(** ** IEEE 754 doubles *)

Module F64.

Local Open Scope float_scope.

(** An integer as a [number]: the nearest double. *)
Definition ofZ (z : Z) : float :=
  SF2Prim (binary_normalize prec emax z 0 false).

(** [Math.round] of a finite number, as an integer: the nearest integer, a
    tie going up, which is the floor of [x + 1/2] on the exact value
    [m * 2^e] of [x].  The numbers this program rounds are products and
    quotients of [int] columns and are finite; on [NaN] and the
    infinities, which are no integer, the result here is 0. *)
Definition Math_round (x : float) : Z :=
  match Prim2SF x with
  | S754_finite s m e =>
      let v := if s then Z.neg m else Z.pos m in
      if (0 <=? e)%Z then (v * 2 ^ e)%Z
      else ((2 * v + 2 ^ (- e)) / 2 ^ (1 - e))%Z
  | _ => 0%Z
  end.

(** [Math.min] *)
Definition Math_min (a b : float) : float :=
  if is_nan a || is_nan b then nan
  else if a <? b then a
  else if b <? a then b
  else if get_sign a then a else b.

End F64.

Arguments F64.ofZ : simpl never.
Arguments F64.Math_round : simpl never.
Arguments F64.Math_min : simpl never.

(** ** server/learning/srs.ts, on integers and exact rationals *)

Module Srs.

Import Js.

Record SRSState : Type := mkSRSState {
  interval : Z;      (* days until next review *)
  easeFactor : Z;    (* ease factor, multiplied by 1000 *)
  repetitions : Z;   (* number of successful repetitions *)
  nextReviewAt : Z
}.

Inductive WordStatus : Type := new | learning | mastered.

Local Open Scope Q_scope.

(** The SM-2 increment of the ease factor, in thousandths:
    [(0.1 - (5 - quality) * (0.08 + (5 - quality) * 0.02)) * 1000]. *)
Definition easeDelta (quality : Q) : Q :=
  ((1 # 10) - (5 - quality) * ((8 # 100) + (5 - quality) * (2 # 100))) * 1000.

(** [calculateNextReview(state, quality)]; [today] is the [new Date()]
    the function takes. *)
Definition calculateNextReview (today : Z) (state : SRSState) (quality : Q)
  : exn + SRSState :=
  if ltb quality 0 || ltb 5 quality then
    inl (Error "Quality must be between 0 and 5")
  else
    let newEaseFactor := inject_Z (easeFactor state) + easeDelta quality in
    let newEaseFactor :=
      if ltb newEaseFactor 1300 then 1300 else newEaseFactor in
    let '(newRepetitions, newInterval) :=
      if ltb quality 3 then (0%Z, 1%Z)
      else
        let newRepetitions := (repetitions state + 1)%Z in
        (newRepetitions,
         if (newRepetitions =? 1)%Z then 1%Z
         else if (newRepetitions =? 2)%Z then 3%Z
         else Math_round (inject_Z (interval state) * (newEaseFactor / 1000)))
    in
    inr {| interval := newInterval;
           easeFactor := Math_round newEaseFactor;
           repetitions := newRepetitions;
           nextReviewAt := addDays today newInterval |}.

(** [calculateMasteryPercentage(state)] *)
Definition calculateMasteryPercentage (state : SRSState) : Z :=
  let repetitionScore :=
    Math_min (inject_Z (repetitions state) / 10) 1 * 50 in
  let easeFactorScore :=
    Math_min ((inject_Z (easeFactor state) - 1300) / 1700) 1 * 50 in
  Math_round (repetitionScore + easeFactorScore).

(** [getWordStatus(state)] *)
Definition getWordStatus (state : SRSState) : WordStatus :=
  if (repetitions state =? 0)%Z then new
  else if (repetitions state <? 5)%Z || (easeFactor state <? 2000)%Z
       then learning
       else mastered.

(** [initializeSRSState()] *)
Definition initializeSRSState (today : Z) : SRSState :=
  {| interval := 1;
     easeFactor := 2500;
     repetitions := 0;
     nextReviewAt := addDays today 1 |}.

(** [shouldReviewToday(nextReviewAt)]; [now] is the [new Date()] the
    function takes. *)
Definition shouldReviewToday (now : Z) (reviewAt : Z) : bool :=
  let today := startOfDay now in
  let reviewDate := startOfDay reviewAt in
  (reviewDate <=? today)%Z.

(** [daysUntilReview(nextReviewAt)] *)
Definition daysUntilReview (now : Z) (reviewAt : Z) : Z :=
  let today := startOfDay now in
  let reviewDate := startOfDay reviewAt in
  let diffTime := (reviewDate - today)%Z in
  Math_ceil (inject_Z diffTime / inject_Z (1000 * 60 * 60 * 24)).

(** [batchProcessReviews(reviews)]: [reviews.map] of [calculateNextReview],
    which ends at the first review that throws. *)
Fixpoint batchProcessReviews (today : Z) (reviews : list (SRSState * Q))
  : exn + list SRSState :=
  match reviews with
  | [] => inr []
  | (state, quality) :: reviews' =>
      match calculateNextReview today state quality with
      | inl e => inl e
      | inr next =>
          match batchProcessReviews today reviews' with
          | inl e => inl e
          | inr nexts => inr (next :: nexts)
          end
      end
  end.

End Srs.

(** ** server/learning/srs.ts, on doubles *)

Module Srs64.

Import Js Srs.
Local Open Scope float_scope.
#[local] Set Warnings "-inexact-float".

(** [(0.1 - (5 - quality) * (0.08 + (5 - quality) * 0.02)) * 1000] *)
Definition easeDelta (quality : float) : float :=
  (0.1 - (5 - quality) * (0.08 + (5 - quality) * 0.02)) * 1000.

(** [calculateNextReview(state, quality)], the state being a row of [int]
    columns and the quality any [number]. *)
Definition calculateNextReview (today : Z) (state : SRSState) (quality : float)
  : exn + SRSState :=
  if (quality <? 0) || (5 <? quality) then
    inl (Error "Quality must be between 0 and 5")
  else
    let newEaseFactor := F64.ofZ (easeFactor state) + easeDelta quality in
    let newEaseFactor :=
      if newEaseFactor <? 1300 then 1300 else newEaseFactor in
    let '(newRepetitions, newInterval) :=
      if quality <? 3 then (0%Z, 1%Z)
      else
        let newRepetitions := (repetitions state + 1)%Z in
        (newRepetitions,
         if (newRepetitions =? 1)%Z then 1%Z
         else if (newRepetitions =? 2)%Z then 3%Z
         else F64.Math_round
                (F64.ofZ (interval state) * (newEaseFactor / 1000)))
    in
    inr {| interval := newInterval;
           easeFactor := F64.Math_round newEaseFactor;
           repetitions := newRepetitions;
           nextReviewAt := addDays today newInterval |}.

(** [calculateMasteryPercentage(state)] *)
Definition calculateMasteryPercentage (state : SRSState) : Z :=
  let repetitionScore :=
    F64.Math_min (F64.ofZ (repetitions state) / 10) 1 * 50 in
  let easeFactorScore :=
    F64.Math_min ((F64.ofZ (easeFactor state) - 1300) / 1700) 1 * 50 in
  F64.Math_round (repetitionScore + easeFactorScore).

End Srs64.

(** ** drizzle/schema.ts *)

Module TaskType.
Inductive t : Type :=
  new | review_1 | review_3 | review_10 | review_21 | review_50 | exam.

Definition eqb (a b : t) : bool :=
  match a, b with
  | new, new | review_1, review_1 | review_3, review_3
  | review_10, review_10 | review_21, review_21 | review_50, review_50
  | exam, exam => true
  | _, _ => false
  end.

(** The MySQL enum type [taskType]: the text of a member. *)
Definition toString (a : t) : string :=
  match a with
  | new => "new" | review_1 => "review_1" | review_3 => "review_3"
  | review_10 => "review_10" | review_21 => "review_21"
  | review_50 => "review_50" | exam => "exam"
  end.
(** The index of a member of the enum type, by which MySQL orders the
    column. *)
Definition index (a : t) : Z :=
  match a with
  | new => 1 | review_1 => 2 | review_3 => 3 | review_10 => 4
  | review_21 => 5 | review_50 => 6 | exam => 7
  end.
End TaskType.

Module TaskStatus.
Inductive t : Type := pending | completed | skipped.
End TaskStatus.

Module LearningPace.
Inductive t : Type := slow | normal | fast.
End LearningPace.

Module Difficulty.
Inductive t : Type := easy | intermediate | hard.
End Difficulty.

Module Phrase.
Record t : Type := mk {
  id : string;
  german : string;
  english : string;
  pronunciation : string;
  difficulty : Difficulty.t;
  category : string;
  createdAt : option Z
}.
End Phrase.

Module UserProgress.
Record t : Type := mk {
  id : string;
  userId : string;
  phraseId : string;
  interval : Z;
  easeFactor : Z;
  repetitions : Z;
  correctCount : Z;
  incorrectCount : Z;
  lastReviewedAt : option Z;
  nextReviewAt : Z;
  status : Srs.WordStatus;
  createdAt : option Z;
  updatedAt : option Z
}.
End UserProgress.

Module DailyTask.
Record t : Type := mk {
  id : string;
  userId : string;
  phraseId : string;
  scheduledDate : Z;
  taskType : TaskType.t;
  daysFromLearning : Z;
  status : TaskStatus.t;
  completedAt : option Z;
  isCorrect : option Z;       (* null = not done, 1 = correct, 0 = incorrect *)
  timeSpentSeconds : option Z;
  createdAt : option Z;
  updatedAt : option Z
}.
End DailyTask.

Module StudySession.
Record t : Type := mk {
  id : string;
  userId : string;
  sessionDate : Z;
  startTime : Z;
  endTime : option Z;
  phrasesStudied : Z;
  correctAnswers : Z;
  incorrectAnswers : Z;
  accuracy : Z;
  streakContinued : Z;
  createdAt : option Z
}.
End StudySession.

Module LearningAnalytics.
Record t : Type := mk {
  id : string;
  userId : string;
  avgPhrasesPerDay : Z;
  bestStudyTime : option string;
  studyStreak : Z;
  longestStudyStreak : Z;
  optimalDailyLoad : Z;
  learningPace : LearningPace.t;
  avgRetention : Z;
  weakCategories : option string;
  strongCategories : option string;
  lastAnalyzedAt : option Z;
  createdAt : option Z;
  updatedAt : option Z
}.
End LearningAnalytics.

(** ** The database: the five tables, and the statements of the query builder *)

Module Db.

Record DB : Type := mkDB {
  t_phrases : list Phrase.t;
  t_userProgress : list UserProgress.t;
  t_dailyTasks : list DailyTask.t;
  t_studySessions : list StudySession.t;
  t_learningAnalytics : list LearningAnalytics.t
}.

(** A table of rows [R]: how to read it from the database and how to
    write it back. *)
Record Table (R : Type) : Type := mkTable {
  rows : DB -> list R;
  setRows : list R -> DB -> DB
}.

Definition phrases : Table Phrase.t :=
  mkTable t_phrases
    (fun l db => mkDB l (t_userProgress db) (t_dailyTasks db)
                      (t_studySessions db) (t_learningAnalytics db)).
Definition userProgress : Table UserProgress.t :=
  mkTable t_userProgress
    (fun l db => mkDB (t_phrases db) l (t_dailyTasks db)
                      (t_studySessions db) (t_learningAnalytics db)).
Definition dailyTasks : Table DailyTask.t :=
  mkTable t_dailyTasks
    (fun l db => mkDB (t_phrases db) (t_userProgress db) l
                      (t_studySessions db) (t_learningAnalytics db)).
Definition studySessions : Table StudySession.t :=
  mkTable t_studySessions
    (fun l db => mkDB (t_phrases db) (t_userProgress db) (t_dailyTasks db)
                      l (t_learningAnalytics db)).
Definition learningAnalytics : Table LearningAnalytics.t :=
  mkTable t_learningAnalytics
    (fun l db => mkDB (t_phrases db) (t_userProgress db) (t_dailyTasks db)
                      (t_studySessions db) l).

(** A computation that awaits statements on the database. *)
Definition M (A : Type) : Type := DB -> A * DB.

Definition ret {A} (a : A) : M A := fun db => (a, db).
Definition bind {A B} (m : M A) (k : A -> M B) : M B :=
  fun db => let (a, db') := m db in k a db'.

(** [db.select().from(table).where(cond)] *)
Definition select {R} (table : Table R) (cond : R -> bool) : M (list R) :=
  fun db => (filter cond (rows table db), db).

(** [db.update(table).set(...).where(cond)] *)
Definition update {R} (table : Table R) (set : R -> R) (cond : R -> bool)
  : M unit :=
  fun db =>
    (tt, setRows table
           (map (fun r => if cond r then set r else r) (rows table db)) db).

(** [db.insert(table).values(values)] *)
Definition insert {R} (table : Table R) (values : list R) : M unit :=
  fun db => (tt, setRows table (rows table db ++ values) db).

(** The length of the primary keys: [varchar("id", { length: 64 })]. *)
Definition idLength : nat := 64.

(** The values of an [int] column: the 32-bit integers. *)
Definition intColumn (n : Z) : Prop := (- 2 ^ 31 <= n < 2 ^ 31)%Z.

(** The times of a [timestamp] column, in milliseconds: from
    1970-01-01 00:00:01 to 2038-01-19 03:14:07 UTC. *)
Definition timestampColumn (t : Z) : Prop := (1000 <= t <= 2147483647000)%Z.

(** [db.insert(table).values(values)], with the check of the key column.
    MySQL in strict mode, its default, refuses a value that is longer than
    its column: the statement fails and inserts none of its rows. *)
Definition insertKeyed {R} (table : Table R) (id : R -> string)
    (values : list R) : M (Js.exn + unit) :=
  fun db =>
    if forallb (fun r => (String.length (id r) <=? idLength)%nat) values
    then (inr tt, setRows table (rows table db ++ values) db)
    else (inl (Js.Error "Data too long for column 'id'"), db).

(** Steps that can throw: [k] runs when [m] has not thrown. *)
Definition bindE {A B} (m : M (Js.exn + A)) (k : A -> M (Js.exn + B))
  : M (Js.exn + B) :=
  fun db =>
    match m db with
    | (inl e, db') => (inl e, db')
    | (inr a, db') => k a db'
    end.

(** A step that does not throw. *)
Definition lift {A} (m : M A) : M (Js.exn + A) :=
  fun db => let (a, db') := m db in (inr a, db').

(** [try { body } catch (error) { console.error(...) }]: what [body] wrote
    before it threw stays written. *)
Definition tryCatch (body : M (Js.exn + unit)) : M unit :=
  fun db => (tt, snd (body db)).

(** What a binding of [getDb] holds. *)
Inductive Connection : Type :=
| Drizzle             (* [await getDb()]: the drizzle handle *)
| PromiseOfDrizzle.   (* [getDb()]: the Promise of it *)

(** The call [getDb()] of an [async function getDb()]. *)
Definition getDb : Connection := PromiseOfDrizzle.

(** [db.select(...)], [db.update(...)] or [db.insert(...)], the [method],
    followed by the rest of the [statement].  A Promise has no such
    property: calling it throws a [TypeError] and no statement is sent. *)
Definition call {A} (db : Connection) (method : string) (statement : M A)
  : M (Js.exn + A) :=
  match db with
  | Drizzle => lift statement
  | PromiseOfDrizzle =>
      ret (inl (Js.TypeError ("db." ++ method ++ " is not a function")))
  end.

(** [.limit(n)] *)
Definition limit {R} (n : nat) (l : list R) : list R := firstn n l.

(** [a.innerJoin(b, on)] *)
Definition innerJoin {R S} (a : list R) (b : list S) (on : R -> S -> bool)
  : list (R * S) :=
  flat_map (fun r => map (pair r) (filter (on r) b)) a.

(** [.orderBy(...)]: rows in the order [leb], rows that compare equal
    staying in their order. *)
Fixpoint insertBy {R} (leb : R -> R -> bool) (x : R) (l : list R) : list R :=
  match l with
  | [] => [x]
  | y :: l' => if leb x y then x :: l else y :: insertBy leb x l'
  end.

Definition orderBy {R} (leb : R -> R -> bool) (l : list R) : list R :=
  fold_right (insertBy leb) [] l.

(** [asc(column)] and [desc(column)] *)
Definition asc {R} (column : R -> Z) : R -> R -> bool :=
  fun a b => (column a <=? column b)%Z.
Definition desc {R} (column : R -> Z) : R -> R -> bool :=
  fun a b => (column b <=? column a)%Z.

(** [for (const x of l) { await body(x) }]: the loop ends when a round
    throws. *)
Fixpoint forEach {A} (l : list A) (body : A -> M (Js.exn + unit))
  : M (Js.exn + unit) :=
  match l with
  | [] => ret (inr tt)
  | x :: l' => bindE (body x) (fun _ => forEach l' body)
  end.

(** [a.leftJoin(b, on)]: a row of [a] without a match in [b] is kept, with
    nulls for the columns of [b]. *)
Definition leftJoin {R S} (a : list R) (b : list S) (on : R -> S -> bool)
  : list (R * option S) :=
  flat_map (fun r =>
              match filter (on r) b with
              | [] => [(r, None)]
              | matches => map (fun s => (r, Some s)) matches
              end) a.

(** [l.map((item, index) => f(item, index))] *)
Fixpoint mapIndexed {A B} (f : A -> Z -> B) (index : Z) (l : list A) : list B :=
  match l with
  | [] => []
  | x :: l' => f x index :: mapIndexed f (index + 1)%Z l'
  end.

End Db.

Declare Scope db_scope.
Delimit Scope db_scope with db.
Notation "x <- m ;; k" := (Db.bind m (fun x => k))
(at level 61, m at next level, right associativity) : db_scope.
Notation "m ;; k" := (Db.bind m (fun _ => k))
(at level 61, right associativity) : db_scope.
Notation "x <-? m ;; k" := (Db.bindE m (fun x => k))
(at level 61, m at next level, right associativity) : db_scope.
Notation "m ;;? k" := (Db.bindE m (fun _ => k))
(at level 61, right associativity) : db_scope.

(** ** server/taskScheduler.ts *)

Module TaskScheduler.

Import Js Db.
Local Open Scope Z_scope.
Local Open Scope string_scope.
Local Open Scope db_scope.

(** The review ladder of [scheduleNextReviews]: [{ days, type }]. *)
Definition reviewSchedules : list (Z * TaskType.t) :=
  [ (1, TaskType.review_1);
    (3, TaskType.review_3);
    (10, TaskType.review_10);
    (21, TaskType.review_21);
    (50, TaskType.review_50) ].

(** The body of the loop of [scheduleNextReviews], for one [schedule]. *)
Definition scheduleReview (now : Z) (userId phraseId : string)
  (schedule : Z * TaskType.t) : M (exn + unit) :=
let scheduledDate := startOfDay (addDays now (fst schedule)) in
(* Check if task already exists *)
existing <- select dailyTasks (fun t =>
              (DailyTask.userId t =? userId)
              && (DailyTask.phraseId t =? phraseId)
              && TaskType.eqb (DailyTask.taskType t) (snd schedule)) ;;
let existing := limit 1 existing in
if (List.length existing =? 0)%nat then
  insertKeyed dailyTasks DailyTask.id
    [ {| DailyTask.id :=
           "task_" ++ userId ++ "_" ++ phraseId ++ "_"
           ++ TaskType.toString (snd schedule) ++ "_" ++ toString now;
         DailyTask.userId := userId;
         DailyTask.phraseId := phraseId;
         DailyTask.scheduledDate := scheduledDate;
         DailyTask.taskType := snd schedule;
         DailyTask.daysFromLearning := fst schedule;
         DailyTask.status := TaskStatus.pending;
         DailyTask.completedAt := None;
         DailyTask.isCorrect := None;
         DailyTask.timeSpentSeconds := None;
         DailyTask.createdAt := Some now;
         DailyTask.updatedAt := Some now |} ]
else ret (inr tt).

(** [scheduleNextReviews(userId, phraseId)] *)
Definition scheduleNextReviews (now : Z) (userId phraseId : string) : M unit :=
tryCatch (forEach reviewSchedules (scheduleReview now userId phraseId)).

(** [completeDailyTask(userId, taskId, phraseId, isCorrect, timeSpentSeconds)] *)
Definition completeDailyTask (now : Z) (userId taskId phraseId : string)
    (isCorrect : bool) (timeSpentSeconds : Z) : M unit :=
  tryCatch (
  (* Mark task as completed *)
  update dailyTasks
    (fun t =>
       {| DailyTask.id := DailyTask.id t;
          DailyTask.userId := DailyTask.userId t;
          DailyTask.phraseId := DailyTask.phraseId t;
          DailyTask.scheduledDate := DailyTask.scheduledDate t;
          DailyTask.taskType := DailyTask.taskType t;
          DailyTask.daysFromLearning := DailyTask.daysFromLearning t;
          DailyTask.status := TaskStatus.completed;
          DailyTask.completedAt := Some now;
          DailyTask.isCorrect := Some (if isCorrect then 1 else 0);
          DailyTask.timeSpentSeconds := Some timeSpentSeconds;
          DailyTask.createdAt := DailyTask.createdAt t;
          DailyTask.updatedAt := Some now |})
    (fun t => DailyTask.id t =? taskId) ;;
  (* Update user progress *)
  progress <- select userProgress (fun p =>
                (UserProgress.userId p =? userId)
                && (UserProgress.phraseId p =? phraseId)) ;;
  let progress := limit 1 progress in
  match progress with
  | [] =>
      (* Create new progress record *)
      insertKeyed userProgress UserProgress.id
        [ {| UserProgress.id :=
               "progress_" ++ userId ++ "_" ++ phraseId ++ "_" ++ toString now;
             UserProgress.userId := userId;
             UserProgress.phraseId := phraseId;
             UserProgress.interval := 1;
             UserProgress.easeFactor := 2500;
             UserProgress.repetitions := 0;
             UserProgress.correctCount := if isCorrect then 1 else 0;
             UserProgress.incorrectCount := if isCorrect then 0 else 1;
             UserProgress.lastReviewedAt := None;
             UserProgress.nextReviewAt := now + 1 * 24 * 60 * 60 * 1000;
             UserProgress.status := Srs.learning;
             UserProgress.createdAt := Some now;
             UserProgress.updatedAt := Some now |} ]
  | p :: _ =>
      (* Update existing progress *)
      lift (update userProgress
        (fun r =>
           {| UserProgress.id := UserProgress.id r;
              UserProgress.userId := UserProgress.userId r;
              UserProgress.phraseId := UserProgress.phraseId r;
              UserProgress.interval := UserProgress.interval r;
              UserProgress.easeFactor := UserProgress.easeFactor r;
              UserProgress.repetitions := UserProgress.repetitions p + 1;
              UserProgress.correctCount :=
                UserProgress.correctCount p + (if isCorrect then 1 else 0);
              UserProgress.incorrectCount :=
                UserProgress.incorrectCount p + (if isCorrect then 0 else 1);
              UserProgress.lastReviewedAt := Some now;
              UserProgress.nextReviewAt := UserProgress.nextReviewAt r;
              UserProgress.status := UserProgress.status r;
              UserProgress.createdAt := UserProgress.createdAt r;
              UserProgress.updatedAt := Some now |})
        (fun r => UserProgress.id r =? UserProgress.id p))
  end ;;?
  (* Schedule next reviews based on spaced repetition *)
  if isCorrect then lift (scheduleNextReviews now userId phraseId)
  else ret (inr tt)).

(** [updateLearningAnalytics(userId)].  With sessions in the window and no
    phrase studied in them, [avgAccuracy] is not a finite number
    ([None]): the statement that carries it is rejected and the [catch]
    block leaves the table as it was. *)
Definition updateLearningAnalytics (now : Z) (userId : string) : M unit :=
  (* Get last 30 days of study sessions *)
  let thirtyDaysAgo := addDays now (-30) in
  sessions <- select studySessions (fun s =>
                (StudySession.userId s =? userId)
                && (thirtyDaysAgo <=? StudySession.sessionDate s)%Z) ;;
  if (List.length sessions =? 0)%nat then ret tt
  else
    (* Calculate metrics *)
    let totalPhrases :=
      fold_left (fun sum s => sum + StudySession.phrasesStudied s) sessions 0 in
    let totalCorrect :=
      fold_left (fun sum s => sum + StudySession.correctAnswers s) sessions 0 in
    let avgAccuracy : option Z :=
      option_map (fun q => Math_round (q * 100)%Q)
                 (div (inject_Z totalCorrect) (inject_Z totalPhrases)) in
    let avgPhrasesPerDay := Math_round (inject_Z totalPhrases / 30)%Q in
    (* Determine learning pace *)
    let learningPace := LearningPace.normal in
    let learningPace :=
      if (avgPhrasesPerDay <? 15)%Z then LearningPace.slow else learningPace in
    let learningPace :=
      if (30 <? avgPhrasesPerDay)%Z then LearningPace.fast else learningPace in
    (* Update or create analytics record *)
    existing <- select learningAnalytics (fun a =>
                  LearningAnalytics.userId a =? userId) ;;
    let existing := limit 1 existing in
    match avgAccuracy with
    | None => ret tt
    | Some avgAccuracy =>
        if (0 <? List.length existing)%nat then
          update learningAnalytics
            (fun a =>
               {| LearningAnalytics.id := LearningAnalytics.id a;
                  LearningAnalytics.userId := LearningAnalytics.userId a;
                  LearningAnalytics.avgPhrasesPerDay := avgPhrasesPerDay;
                  LearningAnalytics.bestStudyTime :=
                    LearningAnalytics.bestStudyTime a;
                  LearningAnalytics.studyStreak :=
                    LearningAnalytics.studyStreak a;
                  LearningAnalytics.longestStudyStreak :=
                    LearningAnalytics.longestStudyStreak a;
                  LearningAnalytics.optimalDailyLoad :=
                    LearningAnalytics.optimalDailyLoad a;
                  LearningAnalytics.learningPace := learningPace;
                  LearningAnalytics.avgRetention := avgAccuracy;
                  LearningAnalytics.weakCategories :=
                    LearningAnalytics.weakCategories a;
                  LearningAnalytics.strongCategories :=
                    LearningAnalytics.strongCategories a;
                  LearningAnalytics.lastAnalyzedAt := Some now;
                  LearningAnalytics.createdAt :=
                    LearningAnalytics.createdAt a;
                  LearningAnalytics.updatedAt := Some now |})
            (fun a => LearningAnalytics.userId a =? userId)
        else
          insert learningAnalytics
            [ {| LearningAnalytics.id :=
                   "analytics_" ++ userId ++ "_" ++ toString now;
                 LearningAnalytics.userId := userId;
                 LearningAnalytics.avgPhrasesPerDay := avgPhrasesPerDay;
                 LearningAnalytics.bestStudyTime := None;
                 LearningAnalytics.studyStreak := 0;
                 LearningAnalytics.longestStudyStreak := 0;
                 LearningAnalytics.optimalDailyLoad := avgPhrasesPerDay;
                 LearningAnalytics.learningPace := learningPace;
                 LearningAnalytics.avgRetention := avgAccuracy;
                 LearningAnalytics.weakCategories := None;
                 LearningAnalytics.strongCategories := None;
                 LearningAnalytics.lastAnalyzedAt := Some now;
                 LearningAnalytics.createdAt := Some now;
                 LearningAnalytics.updatedAt := Some now |} ]
    end.

(** [getLearningAnalytics(userId)] *)
Definition getLearningAnalytics (userId : string)
  : M (option LearningAnalytics.t) :=
  result <- select learningAnalytics (fun a =>
              LearningAnalytics.userId a =? userId) ;;
  let result := limit 1 result in
  ret (match result with r :: _ => Some r | [] => None end).

(** [initializeDailyTasks(userId, dailyLoad = 20)]; [rand] is the order
    that [ORDER BY RAND()] gives to the selected rows. *)
Definition initializeDailyTasks (rand : list string -> list string) (now : Z)
    (userId : string) (dailyLoad : nat) : M unit :=
  fun db =>
    (* Get random phrases that user hasn't learned yet *)
    let joined :=
      leftJoin (rows phrases db) (rows userProgress db)
        (fun ph p => Phrase.id ph =? UserProgress.phraseId p) in
    let candidates :=
      filter (fun r => match snd r with
                       | None => true
                       | Some p => negb (UserProgress.userId p =? userId)
                       end) joined in
    let unlearned := limit dailyLoad (rand (map (fun r => Phrase.id (fst r))
                                                candidates)) in
    if (List.length unlearned =? 0)%nat then (tt, db)
    else tryCatch (
      (* Create daily tasks for today *)
      let today := startOfDay now in
      let tasksToCreate :=
        mapIndexed (fun item index =>
                      {| DailyTask.id :=
                           "task_" ++ userId ++ "_" ++ toString now ++ "_"
                           ++ toString index;
                         DailyTask.userId := userId;
                         DailyTask.phraseId := item;
                         DailyTask.scheduledDate := today;
                         DailyTask.taskType := TaskType.new;
                         DailyTask.daysFromLearning := 0;
                         DailyTask.status := TaskStatus.pending;
                         DailyTask.completedAt := None;
                         DailyTask.isCorrect := None;
                         DailyTask.timeSpentSeconds := None;
                         DailyTask.createdAt := Some now;
                         DailyTask.updatedAt := Some now |})
                   0 unlearned in
      insertKeyed dailyTasks DailyTask.id tasksToCreate) db.

(** [getTodaysTasks(userId)] *)
Definition getTodaysTasks (now : Z) (userId : string)
  : M (list (DailyTask.t * Phrase.t)) :=
  fun db =>
    let today := startOfDay now in
    let tomorrow := addDays today 1 in
    let joined :=
      innerJoin (rows dailyTasks db) (rows phrases db)
        (fun t ph => DailyTask.phraseId t =? Phrase.id ph) in
    let tasks :=
      orderBy (asc (fun r => TaskType.index (DailyTask.taskType (fst r))))
        (filter (fun r =>
                   (DailyTask.userId (fst r) =? userId)
                   && (today <=? DailyTask.scheduledDate (fst r))%Z
                   && (DailyTask.scheduledDate (fst r) <=? tomorrow)%Z)
                joined) in
    (tasks, db).

(** [getTodaysTaskCount(userId)] *)
Definition getTodaysTaskCount (now : Z) (userId : string) : M Z :=
  let today := startOfDay now in
  let tomorrow := addDays today 1 in
  result <- select dailyTasks (fun t =>
              (DailyTask.userId t =? userId)
              && (match DailyTask.status t with
                  | TaskStatus.pending => true
                  | _ => false
                  end)
              && (today <=? DailyTask.scheduledDate t)%Z
              && (DailyTask.scheduledDate t <=? tomorrow)%Z) ;;
  ret (Z.of_nat (List.length result)).

(** [recordStudySession(userId, phrasesStudied, correctAnswers,
    incorrectAnswers)] *)
Definition recordStudySession (now : Z) (userId : string)
    (phrasesStudied correctAnswers incorrectAnswers : Z) : M unit :=
  let accuracy :=
    if (0 <? phrasesStudied)%Z
    then F64.Math_round
           (F64.ofZ correctAnswers / F64.ofZ phrasesStudied * 100)%float
    else 0 in
  tryCatch (
  insertKeyed studySessions StudySession.id
    [ {| StudySession.id := "session_" ++ userId ++ "_" ++ toString now;
         StudySession.userId := userId;
         StudySession.sessionDate := now;
         StudySession.startTime := now;
         StudySession.endTime := Some now;
         StudySession.phrasesStudied := phrasesStudied;
         StudySession.correctAnswers := correctAnswers;
         StudySession.incorrectAnswers := incorrectAnswers;
         StudySession.accuracy := accuracy;
         StudySession.streakContinued := 1;
         StudySession.createdAt := Some now |} ] ;;?
  (* Update learning analytics *)
  lift (updateLearningAnalytics now userId)).

End TaskScheduler.

(** ** server/db.ts *)

Module ServerDb.

Import Js Db.
Local Open Scope Z_scope.
Local Open Scope string_scope.

(** [getUserProgress(userId, phraseId)] *)
Definition getUserProgress (userId phraseId : string)
  : M (option UserProgress.t) :=
  fun db =>
    let result :=
      Db.limit 1
        (filter (fun p => (UserProgress.userId p =? userId)
                          && (UserProgress.phraseId p =? phraseId))
                (rows userProgress db)) in
    (match result with r :: _ => Some r | [] => None end, db).

(** [getPhrasesForReview(userId, limit = 20)] *)
Definition getPhrasesForReview (now : Z) (userId : string) (limit : nat)
  : M (list (UserProgress.t * Phrase.t)) :=
  fun db =>
    let joined :=
      innerJoin (rows userProgress db) (rows phrases db)
        (fun p ph => UserProgress.phraseId p =? Phrase.id ph) in
    let due :=
      filter (fun r => (UserProgress.userId (fst r) =? userId)
                       && (UserProgress.nextReviewAt (fst r) <=? now)%Z)
             joined in
    let results :=
      Db.limit limit
        (orderBy (asc (fun r => UserProgress.nextReviewAt (fst r))) due) in
    (results, db).

(** [updateUserProgress(userId, phraseId, isCorrect)]; the function has
    no [try]: what a statement throws, it throws. *)
Definition updateUserProgress (now : Z) (userId phraseId : string)
    (isCorrect : bool) : M (exn + unit) :=
  fun db =>
    match fst (getUserProgress userId phraseId db) with
    | None =>
        (* Create new progress record *)
        insertKeyed userProgress UserProgress.id
          [ {| UserProgress.id :=
                 userId ++ "-" ++ phraseId ++ "-" ++ toString now;
               UserProgress.userId := userId;
               UserProgress.phraseId := phraseId;
               UserProgress.interval := 1;
               UserProgress.easeFactor := 2500;
               UserProgress.repetitions := 0;
               UserProgress.correctCount := if isCorrect then 1 else 0;
               UserProgress.incorrectCount := if isCorrect then 0 else 1;
               UserProgress.lastReviewedAt := None;
               UserProgress.nextReviewAt := now + 24 * 60 * 60 * 1000;
               UserProgress.status := Srs.learning;
               UserProgress.createdAt := Some now;
               UserProgress.updatedAt := Some now |} ] db
    | Some progress =>
        (* Update existing progress using SM-2 algorithm *)
        let quality := if isCorrect then 4 else 1 in
        let newEaseFactor :=
          UserProgress.easeFactor progress + (20 * quality - 50) in
        let newEaseFactor :=
          if (newEaseFactor <? 1300)%Z then 1300 else newEaseFactor in
        let newInterval :=
          if (UserProgress.repetitions progress =? 0)%Z then 1
          else if (UserProgress.repetitions progress =? 1)%Z then 3
          else F64.Math_round (F64.ofZ (UserProgress.interval progress)
                               * (F64.ofZ newEaseFactor / 1000))%float in
        let nextReviewAt := now + newInterval * 24 * 60 * 60 * 1000 in
        let newStatus :=
          if (30 <? newInterval)%Z then Srs.mastered else Srs.learning in
        lift (update userProgress
          (fun r =>
             {| UserProgress.id := UserProgress.id r;
                UserProgress.userId := UserProgress.userId r;
                UserProgress.phraseId := UserProgress.phraseId r;
                UserProgress.interval := newInterval;
                UserProgress.easeFactor := newEaseFactor;
                UserProgress.repetitions :=
                  UserProgress.repetitions progress + 1;
                UserProgress.correctCount :=
                  UserProgress.correctCount progress
                  + (if isCorrect then 1 else 0);
                UserProgress.incorrectCount :=
                  UserProgress.incorrectCount progress
                  + (if isCorrect then 0 else 1);
                UserProgress.lastReviewedAt := Some now;
                UserProgress.nextReviewAt := nextReviewAt;
                UserProgress.status := newStatus;
                UserProgress.createdAt := UserProgress.createdAt r;
                UserProgress.updatedAt := Some now |})
          (fun r => (UserProgress.userId r =? userId)
                    && (UserProgress.phraseId r =? phraseId)))
          db
    end.

End ServerDb.

(** ** server/routers/learning.ts *)

Module LearningRouter.

Import Js Db.
Local Open Scope Z_scope.
Local Open Scope string_scope.
Local Open Scope db_scope.

(** A row of the [getWordsForReview] selection. *)
Record WordForReview : Type := mkWordForReview {
  id : string;
  phraseId : string;
  german : string;
  english : string;
  pronunciation : string;
  difficulty : Difficulty.t;
  interval : Z;
  easeFactor : Z;
  repetitions : Z;
  nextReviewAt : Z
}.

(** The statement of [getWordsForReview]:
    [select({...}).from(userProgress).innerJoin(...).where(...)
     .orderBy(desc(userProgress.nextReviewAt)).limit(20)]. *)
Definition wordsForReview (now : Z) (userId : string)
  : M (list WordForReview) :=
  fun db =>
    let joined :=
      innerJoin (rows userProgress db) (rows phrases db)
        (fun p ph => UserProgress.phraseId p =? Phrase.id ph) in
    let due :=
      filter (fun r => (UserProgress.userId (fst r) =? userId)
                       && (UserProgress.nextReviewAt (fst r) <=? now)%Z)
             joined in
    let wordsForReview :=
      map (fun r =>
             {| id := UserProgress.id (fst r);
                phraseId := UserProgress.phraseId (fst r);
                german := Phrase.german (snd r);
                english := Phrase.english (snd r);
                pronunciation := Phrase.pronunciation (snd r);
                difficulty := Phrase.difficulty (snd r);
                interval := UserProgress.interval (fst r);
                easeFactor := UserProgress.easeFactor (fst r);
                repetitions := UserProgress.repetitions (fst r);
                nextReviewAt := UserProgress.nextReviewAt (fst r) |})
          (limit 20
             (orderBy (desc (fun r => UserProgress.nextReviewAt (fst r)))
                      due)) in
    (wordsForReview, db).

(** [getWordsForReview], for the user of the request context.  It binds
    [getDb()] without [await]. *)
Definition getWordsForReview (now : Z) (userId : string)
  : M (exn + list WordForReview) :=
  let db := getDb in
  call db "select" (wordsForReview now userId).

(** The input of [submitReview] and the check the procedure makes of it
    before the mutation runs: [quality: z.number().min(0).max(5)]. *)
Record SubmitReviewInput : Type := mkSubmitReviewInput {
  userProgressId : string;
  quality : Q;
  timeSpentSeconds : option Q
}.

Definition submitReviewInputOk (input : SubmitReviewInput) : bool :=
  Qle_bool 0 (quality input) && Qle_bool (quality input) 5.

Record SubmitReviewOutput : Type := mkSubmitReviewOutput {
  success : bool;
  newState : Srs.SRSState;
  masteryPercentage : Z;
  status : Srs.WordStatus
}.

(** The mutation of [submitReview].  It binds [getDb()] without
    [await]. *)
Definition submitReview (now : Z) (userId : string) (input : SubmitReviewInput)
  : M (exn + SubmitReviewOutput) :=
  let db := getDb in
  (* Get current progress record *)
  found <-? call db "select"
              (select userProgress (fun p =>
                 (UserProgress.id p =? userProgressId input)
                 && (UserProgress.userId p =? userId))) ;;
  match found with
  | [] => ret (inl (Error "Progress record not found"))
  | progressRecord :: _ =>
      (* Calculate new SRS state *)
      let currentState :=
        {| Srs.interval := UserProgress.interval progressRecord;
           Srs.easeFactor := UserProgress.easeFactor progressRecord;
           Srs.repetitions := UserProgress.repetitions progressRecord;
           Srs.nextReviewAt := UserProgress.nextReviewAt progressRecord |} in
      match Srs.calculateNextReview now currentState (quality input) with
      | inl e => ret (inl e)
      | inr newState =>
          let newStatus := Srs.getWordStatus newState in
          (* Update progress record *)
          call db "update" (update userProgress
            (fun r =>
               {| UserProgress.id := UserProgress.id r;
                  UserProgress.userId := UserProgress.userId r;
                  UserProgress.phraseId := UserProgress.phraseId r;
                  UserProgress.interval := Srs.interval newState;
                  UserProgress.easeFactor := Srs.easeFactor newState;
                  UserProgress.repetitions := Srs.repetitions newState;
                  UserProgress.correctCount :=
                    if Qle_bool 3 (quality input)
                    then UserProgress.correctCount progressRecord + 1
                    else UserProgress.correctCount progressRecord;
                  UserProgress.incorrectCount :=
                    if ltb (quality input) 3
                    then UserProgress.incorrectCount progressRecord + 1
                    else UserProgress.incorrectCount progressRecord;
                  UserProgress.lastReviewedAt := Some now;
                  UserProgress.nextReviewAt := Srs.nextReviewAt newState;
                  UserProgress.status := newStatus;
                  UserProgress.createdAt := UserProgress.createdAt r;
                  UserProgress.updatedAt := Some now |})
            (fun r => UserProgress.id r =? userProgressId input)) ;;?
          (* Update user stats *)
          let masteryPercentage := Srs.calculateMasteryPercentage newState in
          ret (inr {| success := true;
                      newState := newState;
                      masteryPercentage := masteryPercentage;
                      status := newStatus |})
      end
  end.

(** The procedure: the input check, then the mutation. *)
Definition submitReviewProcedure (now : Z) (userId : string)
    (input : SubmitReviewInput) : M (exn + SubmitReviewOutput) :=
  if submitReviewInputOk input then submitReview now userId input
  else ret (inl (Error "BAD_REQUEST")).

(** [getLearningAnalytics], for the user of the request context; [uuid]
    is the [uuidv4()] of a record it creates.  It binds [getDb()] without
    [await]. *)
Definition getLearningAnalytics (now : Z) (uuid : string) (userId : string)
  : M (exn + LearningAnalytics.t) :=
  let db := getDb in
  found <-? call db "select"
              (select learningAnalytics (fun a =>
                 LearningAnalytics.userId a =? userId)) ;;
  match found with
  | analytics :: _ => ret (inr analytics)
  | [] =>
      (* Create default analytics if not exists *)
      let newAnalytics :=
        {| LearningAnalytics.id := uuid;
           LearningAnalytics.userId := userId;
           LearningAnalytics.avgPhrasesPerDay := 0;
           LearningAnalytics.bestStudyTime := Some "morning";
           LearningAnalytics.studyStreak := 0;
           LearningAnalytics.longestStudyStreak := 0;
           LearningAnalytics.optimalDailyLoad := 20;
           LearningAnalytics.learningPace := LearningPace.normal;
           LearningAnalytics.avgRetention := 0;
           LearningAnalytics.weakCategories := Some "[]";
           LearningAnalytics.strongCategories := Some "[]";
           LearningAnalytics.lastAnalyzedAt := Some now;
           LearningAnalytics.createdAt := Some now;
           LearningAnalytics.updatedAt := Some now |} in
      call db "insert" (insert learningAnalytics [newAnalytics]) ;;?
      ret (inr newAnalytics)
  end.

End LearningRouter.

(** ** server/routers.ts *)

Module AppRouter.

Import Js Db.
Local Open Scope Z_scope.
Local Open Scope string_scope.
Local Open Scope db_scope.

(** [learning.recordAnswer({ phraseId, isCorrect })], for the user of the
    request context; [rnd] is the random suffix of a new row's id. *)
Definition recordAnswer (now : Z) (rnd : string) (userId phraseId : string)
    (isCorrect : bool) : M bool :=
  (* Get or create progress *)
  existing <- select userProgress (fun p =>
                (UserProgress.userId p =? userId)
                && (UserProgress.phraseId p =? phraseId)) ;;
  let existing := limit 1 existing in
  match existing with
  | p :: _ =>
      let repetitions := UserProgress.repetitions p in
      let easeFactor := UserProgress.easeFactor p in
      let interval := UserProgress.interval p in
      (* SM-2 Algorithm *)
      let '(repetitions, interval, easeFactor) :=
        if isCorrect then
          let repetitions := repetitions + 1 in
          let interval :=
            if (repetitions =? 1)%Z then 1
            else if (repetitions =? 2)%Z then 3
            else F64.Math_round
                   (F64.ofZ interval * (F64.ofZ easeFactor / 1000))%float in
          (repetitions, interval, Z.max 1300 (easeFactor + 100 * (5 - 3)))
        else
          (0, 1, Z.max 1300 (easeFactor + 100 * (2 - 3))) in
      let nextReviewAt := now + interval * 24 * 60 * 60 * 1000 in
      update userProgress
        (fun r =>
           {| UserProgress.id := UserProgress.id r;
              UserProgress.userId := UserProgress.userId r;
              UserProgress.phraseId := UserProgress.phraseId r;
              UserProgress.interval := interval;
              UserProgress.easeFactor := easeFactor;
              UserProgress.repetitions := repetitions;
              UserProgress.correctCount :=
                if isCorrect then UserProgress.correctCount p + 1
                else UserProgress.correctCount p;
              UserProgress.incorrectCount :=
                if negb isCorrect then UserProgress.incorrectCount p + 1
                else UserProgress.incorrectCount p;
              UserProgress.lastReviewedAt := Some now;
              UserProgress.nextReviewAt := nextReviewAt;
              UserProgress.status := UserProgress.status r;
              UserProgress.createdAt := UserProgress.createdAt r;
              UserProgress.updatedAt := Some now |})
        (fun r => UserProgress.id r =? UserProgress.id p) ;;
      ret true
  | [] =>
      (* Create new progress *)
      let '(repetitions, interval, easeFactor) :=
        if isCorrect then (1, 1, 2500) else (0, 1, 1300) in
      let nextReviewAt := now + interval * 24 * 60 * 60 * 1000 in
      insert userProgress
        [ {| UserProgress.id := "progress_" ++ toString now ++ "_" ++ rnd;
             UserProgress.userId := userId;
             UserProgress.phraseId := phraseId;
             UserProgress.interval := interval;
             UserProgress.easeFactor := easeFactor;
             UserProgress.repetitions := repetitions;
             UserProgress.correctCount := if isCorrect then 1 else 0;
             UserProgress.incorrectCount := if negb isCorrect then 1 else 0;
             UserProgress.lastReviewedAt := Some now;
             UserProgress.nextReviewAt := nextReviewAt;
             UserProgress.status :=
               if isCorrect then Srs.learning else Srs.new;
             UserProgress.createdAt := Some now;
             UserProgress.updatedAt := Some now |} ] ;;
      ret true
  end.

(** The result of [learning.getStats]. *)
Record Stats : Type := mkStats {
  learned : Z;
  total : Z;
  accuracy : Z
}.

(** [learning.getStats], for the user of the request context. *)
Definition getStats (userId : string) : M Stats :=
  learnedRows <- select userProgress (fun p =>
                   (UserProgress.userId p =? userId)
                   && (0 <? UserProgress.correctCount p)%Z) ;;
  totalRows <- select userProgress (fun p => UserProgress.userId p =? userId) ;;
  let correctReviews :=
    fold_right (fun p sum => UserProgress.correctCount p + sum) 0 totalRows in
  let totalReviews :=
    fold_right (fun p sum =>
                  UserProgress.correctCount p + UserProgress.incorrectCount p
                  + sum) 0 totalRows in
  let accuracyRate :=
    if (0 <? totalReviews)%Z
    then Math_round (inject_Z correctReviews / inject_Z totalReviews * 100)%Q
    else 0 in
  ret {| learned := Z.of_nat (List.length learnedRows);
         total := Z.of_nat (List.length totalRows);
         accuracy := accuracyRate |}.

(** [learning.getNextPhrase], for the user of the request context; [rand]
    is the order that [ORDER BY RAND()] gives to the phrases. *)
Definition getNextPhrase (rand : list Phrase.t -> list Phrase.t) (now : Z)
    (userId : string) : M (option Phrase.t) :=
  fun db =>
    (* Get phrase due for review *)
    let duePhrase :=
      limit 1
        (orderBy (desc (fun r => UserProgress.nextReviewAt (fst r)))
           (filter (fun r => (UserProgress.userId (fst r) =? userId)
                             && (UserProgress.nextReviewAt (fst r) <? now)%Z)
                   (innerJoin (rows userProgress db) (rows phrases db)
                      (fun p ph => UserProgress.phraseId p =? Phrase.id ph)))) in
    match duePhrase with
    | r :: _ => (Some (snd r), db)
    | [] =>
        (* Otherwise get a new phrase *)
        let newPhrase := limit 1 (rand (rows phrases db)) in
        (match newPhrase with ph :: _ => Some ph | [] => None end, db)
    end.

End AppRouter.

(** ** server/learning/adaptiveEngine.ts *)

Module AdaptiveEngine.

Import Js Db.
Local Open Scope Z_scope.
Local Open Scope string_scope.
Local Open Scope db_scope.

(** [calculateOptimalDailyLoad(learningPace)] *)
Definition calculateOptimalDailyLoad (learningPace : LearningPace.t) : Z :=
  match learningPace with
  | LearningPace.slow => 10
  | LearningPace.normal => 20
  | LearningPace.fast => 30
  end.

(** [adjustLearningParameters(userId)].  It binds [getDb()] without
    [await], and has no [try]. *)
Definition adjustLearningParameters (now : Z) (userId : string)
  : M (exn + unit) :=
  let db := getDb in
  (* Get recent study sessions (last 7 days) *)
  let sevenDaysAgo := addDays now (-7) in
  (* Get user's current performance *)
  recent <-? call db "select"
               (select userProgress (fun p =>
                  (UserProgress.userId p =? userId)
                  && match UserProgress.lastReviewedAt p with
                     | Some at_ => (sevenDaysAgo <=? at_)%Z
                     | None => false
                     end)) ;;
  let totalReviews := Z.of_nat (List.length recent) in
  let correctReviews :=
    Z.of_nat (List.length
                (filter (fun p => (0 <? UserProgress.correctCount p)%Z) recent)) in
  let accuracy : Q :=
    if (0 <? totalReviews)%Z
    then (inject_Z correctReviews / inject_Z totalReviews * 100)%Q
    else 0%Q in
  (* Adjust learning pace based on accuracy *)
  let '(newLearningPace, newOptimalDailyLoad) :=
    if ltb 85 accuracy then (LearningPace.fast, 30)
    else if ltb accuracy 60 then (LearningPace.slow, 10)
    else (LearningPace.normal, 20) in
  (* Update learning analytics *)
  call db "update" (update learningAnalytics
    (fun a =>
       {| LearningAnalytics.id := LearningAnalytics.id a;
          LearningAnalytics.userId := LearningAnalytics.userId a;
          LearningAnalytics.avgPhrasesPerDay :=
            LearningAnalytics.avgPhrasesPerDay a;
          LearningAnalytics.bestStudyTime := LearningAnalytics.bestStudyTime a;
          LearningAnalytics.studyStreak := LearningAnalytics.studyStreak a;
          LearningAnalytics.longestStudyStreak :=
            LearningAnalytics.longestStudyStreak a;
          LearningAnalytics.optimalDailyLoad := newOptimalDailyLoad;
          LearningAnalytics.learningPace := newLearningPace;
          LearningAnalytics.avgRetention := Math_round accuracy;
          LearningAnalytics.weakCategories :=
            LearningAnalytics.weakCategories a;
          LearningAnalytics.strongCategories :=
            LearningAnalytics.strongCategories a;
          LearningAnalytics.lastAnalyzedAt := Some now;
          LearningAnalytics.createdAt := LearningAnalytics.createdAt a;
          LearningAnalytics.updatedAt := LearningAnalytics.updatedAt a |})
    (fun a => LearningAnalytics.userId a =? userId)).

End AdaptiveEngine.

(** ** Notions of the specification *)

Module Spec.

Import Js.

(** The SM-2 increment of the ease factor for an integer quality, as an
    integer number of thousandths. *)
Definition easeDeltaInt (quality : Z) : Z :=
  (100 - (5 - quality) * (80 + (5 - quality) * 20))%Z.

(** The ease factor after the increment and the floor at 1300. *)
Definition flooredEase (state : Srs.SRSState) (quality : Q) : Q :=
  Math_max 1300 (inject_Z (Srs.easeFactor state) + Srs.easeDelta quality)%Q.

(** The interval of a success after the second, in the words of the
    specification: [round(oldInterval * newEaseFactor / 1000)]. *)
Definition successInterval (state : Srs.SRSState) (quality : Q) : Z :=
  Math_round (inject_Z (Srs.interval state) * flooredEase state quality / 1000)%Q.

(** [masteryPercent(state)], in the words of the specification:
    [round(min(repetitions/10,1)*50 + min(max(easeFactor-1300,0)/1700,1)*50)]. *)
Definition masteryPercent (state : Srs.SRSState) : Z :=
  Math_round
    (Math_min (inject_Z (Srs.repetitions state) / 10) 1 * 50
     + Math_min
         (Math_max (inject_Z (Srs.easeFactor state) - 1300) 0 / 1700) 1 * 50)%Q.

(** The progress records of a phrase of a user. *)
Definition isProgressOf (userId phraseId : string) (p : UserProgress.t) : bool :=
(UserProgress.userId p =? userId)%string
&& (UserProgress.phraseId p =? phraseId)%string.

(** The key of a daily task: [(userId, phraseId, taskType)]. *)
Definition isTask (userId phraseId : string) (taskType : TaskType.t)
    (t : DailyTask.t) : bool :=
  (DailyTask.userId t =? userId)%string
  && (DailyTask.phraseId t =? phraseId)%string
  && TaskType.eqb (DailyTask.taskType t) taskType.

(** The number of daily tasks with a key. *)
Definition countTasks (userId phraseId : string) (taskType : TaskType.t)
    (db : Db.DB) : nat :=
  List.length (filter (isTask userId phraseId taskType) (Db.t_dailyTasks db)).

(** The checkpoint tasks. *)
Definition checkpoints : list TaskType.t :=
  [ TaskType.review_1; TaskType.review_3; TaskType.review_10;
    TaskType.review_21; TaskType.review_50 ].

Definition isCheckpoint (taskType : TaskType.t) : bool :=
  existsb (TaskType.eqb taskType) checkpoints.

(** The checkpoint tasks of an item of a user. *)
Definition checkpointTasks (userId phraseId : string) (db : Db.DB)
  : list DailyTask.t :=
  filter (fun t => (DailyTask.userId t =? userId)%string
                   && (DailyTask.phraseId t =? phraseId)%string
                   && isCheckpoint (DailyTask.taskType t))
         (Db.t_dailyTasks db).

(** A run of [completeDailyTask] calls with [isCorrect = true] for one
    item of one user; a call is [(now, taskId, timeSpentSeconds)]. *)
Fixpoint completeCorrectly (calls : list (Z * string * Z))
    (userId phraseId : string) (db : Db.DB) : Db.DB :=
  match calls with
  | [] => db
  | (now, taskId, timeSpentSeconds) :: calls' =>
      completeCorrectly calls' userId phraseId
        (snd (TaskScheduler.completeDailyTask now userId taskId phraseId
                true timeSpentSeconds db))
  end.

(** The study sessions of a user in the 30 days before [now]. *)
Definition sessionsInWindow (now : Z) (userId : string) (db : Db.DB)
  : list StudySession.t :=
  filter (fun s => (StudySession.userId s =? userId)%string
                   && (addDays now (-30) <=? StudySession.sessionDate s)%Z)
         (Db.t_studySessions db).

Definition totalPhrasesStudied (sessions : list StudySession.t) : Z :=
  fold_right (fun s total => (StudySession.phrasesStudied s + total)%Z)
             0%Z sessions.

(** The pace of a daily average. *)
Definition pace (avgPhrasesPerDay : Z) : LearningPace.t :=
  if (avgPhrasesPerDay <? 15)%Z then LearningPace.slow
  else if (30 <? avgPhrasesPerDay)%Z then LearningPace.fast
  else LearningPace.normal.

End Spec.

(** ** Sample data *)

Module Samples.

Local Open Scope Z_scope.
Local Open Scope string_scope.

Definition hallo : Phrase.t :=
  Phrase.mk "hallo" "Hallo" "Hello" "halo" Difficulty.easy "general" None.
Definition danke : Phrase.t :=
  Phrase.mk "danke" "Danke" "Thanks" "danke" Difficulty.easy "general" None.

(** Two records of user [u], due at times 100 and 200. *)
Definition progressHallo : UserProgress.t :=
  UserProgress.mk "p1" "u" "hallo" 3 2500 2 2 0 None 100 Srs.learning
                  None None.
Definition progressDanke : UserProgress.t :=
  UserProgress.mk "p2" "u" "danke" 1 2500 1 1 0 None 200 Srs.learning
                  None None.

(** One session of 440 phrases, studied at time 250. *)
Definition session : StudySession.t :=
  StudySession.mk "s1" "u" 250 250 (Some 250) 440 400 40 91 1 None.

Definition analytics : LearningAnalytics.t :=
  LearningAnalytics.mk "a1" "u" 0 None 0 0 20 LearningPace.normal 0
                       None None None None None.

(** The task of learning a phrase. *)
Definition taskHallo : DailyTask.t :=
  DailyTask.mk "t1" "u" "hallo" 0 TaskType.new 0 TaskStatus.pending
               None None None None None.

Definition db : Db.DB :=
  Db.mkDB [hallo; danke] [progressHallo; progressDanke] [taskHallo] [session]
          [analytics].

(** A time of the clock: 3 November 2025, 11:40 UTC. *)
Definition clock : Z := 1762170000000.

(** A state whose next interval, 25 * 2.3, is half-way between two
    integers, and a record of user [u] in that state. *)
Definition halfWay : Srs.SRSState := Srs.mkSRSState 25 2300 2 0.

Definition progressHalfWay : UserProgress.t :=
  UserProgress.mk "p3" "u" "hallo" 25 2300 2 2 0 None 100 Srs.learning
                  None None.

(** A record of user [u] one correct answer before such a state. *)
Definition progressNearHalfWay : UserProgress.t :=
  UserProgress.mk "p5" "u" "danke" 25 2270 2 2 0 None 100 Srs.learning
                  None None.

Definition dbHalfWay : Db.DB :=
  Db.mkDB [hallo; danke] [progressHalfWay; progressNearHalfWay] [taskHallo]
          [] [].

(** A user id as [generateUserId] of server/authService.ts makes them:
    the 64 hexadecimal digits of 32 random bytes. *)
Definition registered : string :=
  "9f86d081884c7d659a2feaa0c55ad015a3bf4f1b2b0b822cd15d6c15b0f00a08".

(** A record of that user, and a task of theirs. *)
Definition progressRegistered : UserProgress.t :=
  UserProgress.mk "p4" registered "hallo" 1 2500 1 1 0 None 100 Srs.learning
                  None None.

Definition taskRegistered : DailyTask.t :=
  DailyTask.mk "t4" registered "hallo" 0 TaskType.new 0 TaskStatus.pending
               None None None None None.

Definition dbRegistered : Db.DB :=
  Db.mkDB [hallo; danke] [progressRegistered] [taskRegistered] [] [].

(** A database without daily tasks. *)
Definition fresh : Db.DB := Db.mkDB [hallo; danke] [] [] [] [].

(** The database without daily tasks after user [v] has had daily tasks
    made twice, a second apart, one phrase each time. *)
Definition dbTwice : Db.DB :=
  snd (TaskScheduler.initializeDailyTasks (fun l => l) (clock + 1000) "v" 1
         (snd (TaskScheduler.initializeDailyTasks (fun l => l) clock "v" 1
                 fresh))).

End Samples.

(** ** Further notions *)

Module Notions.

Import Js.
Local Open Scope Z_scope.

(** The interval of a correct answer in the record-answer path. *)
Definition answerInterval (p : UserProgress.t) : Z :=
  if (UserProgress.repetitions p + 1 =? 1)%Z then 1%Z
  else if (UserProgress.repetitions p + 1 =? 2)%Z then 3%Z
  else F64.Math_round (F64.ofZ (UserProgress.interval p)
                       * (F64.ofZ (UserProgress.easeFactor p) / 1000))%float.

(** The checkpoint task that [scheduleNextReviews] creates for a
    [schedule] of its ladder. *)
Definition checkpointTask (now : Z) (userId phraseId : string)
    (schedule : Z * TaskType.t) : DailyTask.t :=
  {| DailyTask.id :=
       ("task_" ++ userId ++ "_" ++ phraseId ++ "_"
        ++ TaskType.toString (snd schedule) ++ "_" ++ toString now)%string;
     DailyTask.userId := userId;
     DailyTask.phraseId := phraseId;
     DailyTask.scheduledDate := startOfDay (addDays now (fst schedule));
     DailyTask.taskType := snd schedule;
     DailyTask.daysFromLearning := fst schedule;
     DailyTask.status := TaskStatus.pending;
     DailyTask.completedAt := None;
     DailyTask.isCorrect := None;
     DailyTask.timeSpentSeconds := None;
     DailyTask.createdAt := Some now;
     DailyTask.updatedAt := Some now |}.

(** The interval that [updateUserProgress] gives to a record. *)
Definition updatedInterval (isCorrect : bool) (p : UserProgress.t) : Z :=
  if (UserProgress.repetitions p =? 0)%Z then 1%Z
  else if (UserProgress.repetitions p =? 1)%Z then 3%Z
  else F64.Math_round
         (F64.ofZ (UserProgress.interval p)
          * (F64.ofZ (Z.max 1300 (UserProgress.easeFactor p
                                  + if isCorrect then 30 else -30))
             / 1000))%float.

(** An id that the key column takes. *)
Definition fits (id : string) : bool :=
  (String.length id <=? Db.idLength)%nat.

(** A time of the clock of the server: the times from 30 days before it,
    where the window of the analytics starts, to 50 days after it, the
    day of the last checkpoint, are times of a [timestamp] column. *)
Definition clock (now : Z) : Prop :=
  Db.timestampColumn (addDays now (-30))
  /\ Db.timestampColumn (addDays now 50).

(** A number with room: a value of an [int] column that is one still with
    200 more. *)
Definition room (n : Z) : Prop := Db.intColumn n /\ Db.intColumn (n + 200).

(** A progress record with room in its ease factor and in its counters. *)
Definition roomy (p : UserProgress.t) : Prop :=
  room (UserProgress.easeFactor p)
  /\ room (UserProgress.repetitions p)
  /\ room (UserProgress.correctCount p)
  /\ room (UserProgress.incorrectCount p).

(** The progress record that [completeDailyTask] creates. *)
Definition firstProgress (now : Z) (userId phraseId : string)
    (isCorrect : bool) : UserProgress.t :=
  {| UserProgress.id :=
       ("progress_" ++ userId ++ "_" ++ phraseId ++ "_" ++ toString now)%string;
     UserProgress.userId := userId;
     UserProgress.phraseId := phraseId;
     UserProgress.interval := 1;
     UserProgress.easeFactor := 2500;
     UserProgress.repetitions := 0;
     UserProgress.correctCount := if isCorrect then 1 else 0;
     UserProgress.incorrectCount := if isCorrect then 0 else 1;
     UserProgress.lastReviewedAt := None;
     UserProgress.nextReviewAt := now + 1 * 24 * 60 * 60 * 1000;
     UserProgress.status := Srs.learning;
     UserProgress.createdAt := Some now;
     UserProgress.updatedAt := Some now |}.

(** A progress record [r] once [completeDailyTask] has counted an answer
    on it, [p] being the record that the lookup found. *)
Definition countedProgress (now : Z) (isCorrect : bool)
    (p r : UserProgress.t) : UserProgress.t :=
  {| UserProgress.id := UserProgress.id r;
     UserProgress.userId := UserProgress.userId r;
     UserProgress.phraseId := UserProgress.phraseId r;
     UserProgress.interval := UserProgress.interval r;
     UserProgress.easeFactor := UserProgress.easeFactor r;
     UserProgress.repetitions := UserProgress.repetitions p + 1;
     UserProgress.correctCount :=
       UserProgress.correctCount p + (if isCorrect then 1 else 0);
     UserProgress.incorrectCount :=
       UserProgress.incorrectCount p + (if isCorrect then 0 else 1);
     UserProgress.lastReviewedAt := Some now;
     UserProgress.nextReviewAt := UserProgress.nextReviewAt r;
     UserProgress.status := UserProgress.status r;
     UserProgress.createdAt := UserProgress.createdAt r;
     UserProgress.updatedAt := Some now |}.

(** The ids that a correct completion at [now] may have to insert fit the
    key: the id of the progress record and those of the five checkpoint
    tasks. *)
Definition completionIdsFit (now : Z) (userId phraseId : string) : bool :=
  fits (UserProgress.id (firstProgress now userId phraseId true))
  && forallb (fun schedule =>
                fits (DailyTask.id
                        (checkpointTask now userId phraseId schedule)))
             TaskScheduler.reviewSchedules.

(** MySQL takes what a completion at [now] writes, the length of the ids
    apart: [now] is a time of the clock and the seconds are a value of an
    [int] column; the progress records of the item have room in their
    counters; the id of the progress record that may have to be created is
    no key of the table yet, nor are the ids of the five checkpoint
    tasks. *)
Definition completionAccepted (now : Z) (userId phraseId : string)
    (timeSpentSeconds : Z) (db : Db.DB) : Prop :=
  clock now
  /\ Db.intColumn timeSpentSeconds
  /\ (forall p, In p (Db.t_userProgress db) ->
                Spec.isProgressOf userId phraseId p = true -> roomy p)
  /\ ~ In (UserProgress.id (firstProgress now userId phraseId true))
          (map UserProgress.id (Db.t_userProgress db))
  /\ (forall schedule, In schedule TaskScheduler.reviewSchedules ->
        ~ In (DailyTask.id (checkpointTask now userId phraseId schedule))
             (map DailyTask.id (Db.t_dailyTasks db))).

(** MySQL takes what [recordStudySession] at [now] writes, the length of
    the ids apart: [now] is a time of the clock; of the phrases studied
    some, not more than all, were answered correctly, and the number of
    the other answers is a value of an [int] column; so it is in the
    sessions of the window, and the phrases of the window, with those of
    the session, are fewer than [2^31]; the ids of the session and of the
    analytics record that may have to be created are no keys yet. *)
Definition sessionAccepted (now : Z) (userId : string)
    (phrasesStudied correctAnswers incorrectAnswers : Z) (db : Db.DB) : Prop :=
  clock now
  /\ 0 <= correctAnswers <= phrasesStudied
  /\ Db.intColumn incorrectAnswers
  /\ (forall s, In s (Spec.sessionsInWindow now userId db) ->
        0 <= StudySession.correctAnswers s <= StudySession.phrasesStudied s)
  /\ Spec.totalPhrasesStudied (Spec.sessionsInWindow now userId db)
     + phrasesStudied < 2 ^ 31
  /\ ~ In ("session_" ++ userId ++ "_" ++ toString now)%string
          (map StudySession.id (Db.t_studySessions db))
  /\ ~ In ("analytics_" ++ userId ++ "_" ++ toString now)%string
          (map LearningAnalytics.id (Db.t_learningAnalytics db)).

(** The databases that calls of [initializeDailyTasks] and
    [completeDailyTask], for any users, phrases and outcomes, make of a
    database without daily tasks. *)
Inductive scheduled : Db.DB -> Prop :=
| scheduled_none (db : Db.DB) :
    Db.t_dailyTasks db = [] -> scheduled db
| scheduled_initialize (rand : list string -> list string) (now : Z)
    (userId : string) (dailyLoad : nat) (db : Db.DB) :
    scheduled db ->
    scheduled (snd (TaskScheduler.initializeDailyTasks rand now userId
                      dailyLoad db))
| scheduled_complete (now : Z) (userId taskId phraseId : string)
    (isCorrect : bool) (timeSpentSeconds : Z) (db : Db.DB) :
    scheduled db ->
    scheduled (snd (TaskScheduler.completeDailyTask now userId taskId phraseId
                      isCorrect timeSpentSeconds db)).

(** A task once [completeDailyTask] has marked it. *)
Definition completedTask (now : Z) (isCorrect : bool) (timeSpentSeconds : Z)
    (t : DailyTask.t) : DailyTask.t :=
  {| DailyTask.id := DailyTask.id t;
     DailyTask.userId := DailyTask.userId t;
     DailyTask.phraseId := DailyTask.phraseId t;
     DailyTask.scheduledDate := DailyTask.scheduledDate t;
     DailyTask.taskType := DailyTask.taskType t;
     DailyTask.daysFromLearning := DailyTask.daysFromLearning t;
     DailyTask.status := TaskStatus.completed;
     DailyTask.completedAt := Some now;
     DailyTask.isCorrect := Some (if isCorrect then 1 else 0)%Z;
     DailyTask.timeSpentSeconds := Some timeSpentSeconds;
     DailyTask.createdAt := DailyTask.createdAt t;
     DailyTask.updatedAt := Some now |}.

End Notions.

(* ================================================================== *)
(** * Part II: what the specification states of the program *)
(* ================================================================== *)

(** ** Numbers *)

Section Numbers.

Import Js.
Local Open Scope Q_scope.

Lemma ltb_lt (a b : Q) : ltb a b = true <-> a < b.
Proof.
  unfold ltb. rewrite negb_true_iff.
  split; intro H.
  - apply Qnot_le_lt. intro L. apply Qle_bool_iff in L. congruence.
  - destruct (Qle_bool b a) eqn:E; trivial.
    apply Qle_bool_iff in E. exfalso. exact (Qlt_not_le _ _ H E).
Qed.

Lemma ltb_ge (a b : Q) : ltb a b = false <-> b <= a.
Proof.
  unfold ltb. rewrite negb_false_iff. apply Qle_bool_iff.
Qed.

Lemma Math_round_comp (x y : Q) : x == y -> Math_round x = Math_round y.
Proof.
  intro E. unfold Math_round. apply Qfloor_comp. now rewrite E.
Qed.

Lemma Math_round_Z (z : Z) : Math_round (inject_Z z) = z.
Proof.
  unfold Math_round, Qfloor, inject_Z, Qplus. cbn.
  symmetry. apply (Z.div_unique _ 2 z 1); lia.
Qed.

Lemma Math_round_le (x y : Q) : x <= y -> (Math_round x <= Math_round y)%Z.
Proof.
  intro L. unfold Math_round. apply Qfloor_resp_le.
  now apply Qplus_le_l.
Qed.

Lemma Math_min_le_r (a b : Q) : Math_min a b <= b.
Proof.
  unfold Math_min. destruct (Qle_bool a b) eqn:E.
  - now apply Qle_bool_iff.
  - apply Qle_refl.
Qed.

Lemma Math_min_glb (a b c : Q) : c <= a -> c <= b -> c <= Math_min a b.
Proof.
  unfold Math_min. now destruct (Qle_bool a b).
Qed.

Lemma Math_max_ge_r (a b : Q) : b <= Math_max a b.
Proof.
  unfold Math_max. destruct (Qle_bool a b) eqn:E.
  - apply Qle_refl.
  - apply Qlt_le_weak, ltb_lt. unfold ltb. now rewrite E.
Qed.

End Numbers.

(** ** The SM-2 scheduling function *)

Section Sm2.

Import Js Srs.
Local Open Scope Q_scope.

(** For an integer quality the increment is an integer. *)
Lemma easeDelta_int (quality : Z) :
  easeDelta (inject_Z quality) == inject_Z (Spec.easeDeltaInt quality).
Proof.
  unfold easeDelta, Spec.easeDeltaInt, Z.sub.
  repeat (rewrite inject_Z_plus || rewrite inject_Z_mult
          || rewrite inject_Z_opp).
  change (inject_Z 100) with 100. change (inject_Z 5) with 5.
  change (inject_Z 80) with 80. change (inject_Z 20) with 20.
  field.
Qed.

Lemma flooredEase_code (state : SRSState) (quality : Q) :
  (if ltb (inject_Z (easeFactor state) + easeDelta quality) 1300
   then 1300 else inject_Z (easeFactor state) + easeDelta quality)
  = Spec.flooredEase state quality.
Proof.
  unfold Spec.flooredEase, Math_max, ltb.
  now destruct (Qle_bool 1300 (inject_Z (easeFactor state) + easeDelta quality)).
Qed.

Lemma flooredEase_ge (state : SRSState) (quality : Q) :
  1300 <= Spec.flooredEase state quality.
Proof.
  unfold Spec.flooredEase, Math_max.
  destruct (Qle_bool 1300 _) eqn:E.
  - now apply Qle_bool_iff.
  - apply Qle_refl.
Qed.

Lemma flooredEase_int (state : SRSState) (quality : Z) :
  Spec.flooredEase state (inject_Z quality)
  == inject_Z (Z.max 1300 (easeFactor state + Spec.easeDeltaInt quality)).
Proof.
  unfold Spec.flooredEase, Math_max.
  assert (E : inject_Z (easeFactor state) + easeDelta (inject_Z quality)
              == inject_Z (easeFactor state + Spec.easeDeltaInt quality))
    by (rewrite inject_Z_plus, easeDelta_int; reflexivity).
  destruct (Qle_bool 1300 _) eqn:L.
  - apply Qle_bool_iff in L. rewrite E in L.
    change 1300 with (inject_Z 1300) in L. rewrite <- Zle_Qle in L.
    rewrite Z.max_r by assumption. exact E.
  - assert (L' : ~ 1300 <= inject_Z (easeFactor state + Spec.easeDeltaInt quality)).
    { intro L'. rewrite <- E in L'. apply Qle_bool_iff in L'. congruence. }
    change 1300 with (inject_Z 1300) in L'. rewrite <- Zle_Qle in L'.
    rewrite Z.max_l by lia. reflexivity.
Qed.

(** The function on a quality in range, written out. *)
Lemma calculateNextReview_in_range (today : Z) (state : SRSState) (quality : Q) :
  0 <= quality -> quality <= 5 ->
  calculateNextReview today state quality
  = inr (let newInterval :=
           if ltb quality 3 then 1%Z
           else if (repetitions state + 1 =? 1)%Z then 1%Z
           else if (repetitions state + 1 =? 2)%Z then 3%Z
           else Math_round (inject_Z (interval state)
                            * (Spec.flooredEase state quality / 1000)) in
         {| interval := newInterval;
            easeFactor := Math_round (Spec.flooredEase state quality);
            repetitions := if ltb quality 3 then 0%Z
                           else (repetitions state + 1)%Z;
            nextReviewAt := addDays today newInterval |}).
Proof.
  intros L0 L5. unfold calculateNextReview.
  apply ltb_ge in L0, L5. rewrite L0, L5. cbn [orb].
  rewrite flooredEase_code.
  now destruct (ltb quality 3).
Qed.

Lemma calculateNextReview_out_of_range (today : Z) (state : SRSState) (quality : Q) :
  quality < 0 \/ 5 < quality ->
  calculateNextReview today state quality
  = inl (Error "Quality must be between 0 and 5").
Proof.
  intros [L | L]; apply ltb_lt in L; unfold calculateNextReview; rewrite L.
  - reflexivity.
  - now rewrite orb_true_r.
Qed.

End Sm2.

Section Sm2Claims.

Import Js Srs.
Local Open Scope Q_scope.

Lemma easeFactor_int (state : SRSState) (quality : Z) :
  Math_round (Spec.flooredEase state (inject_Z quality))
  = Z.max 1300 (easeFactor state + Spec.easeDeltaInt quality).
Proof.
  rewrite (Math_round_comp (flooredEase_int state quality)).
  apply Math_round_Z.
Qed.

(** C1.  On [{interval: 25, easeFactor: 2300, repetitions: 2}] and
    quality 4, a success after the second, the ease factor stays 2300 and
    [oldInterval * newEaseFactor / 1000] is 57.5, which rounds to 58.
    [calculateNextReview] returns interval 57: it multiplies the interval
    by the double [2300 / 1000], and the product is the double below 57.5.
    The repetitions, 3, and the ease factor, 2300, are those of the
    specification, and so is all of scenario B: from
    [{interval: 3, easeFactor: 2500, repetitions: 2}] and quality 5, the
    state with repetitions 3, ease factor 2600 and interval 8. *)
Theorem calculateNextReview_half_way :
  Srs64.calculateNextReview Samples.clock Samples.halfWay 4
  = inr {| interval := 57; easeFactor := 2300; repetitions := 3;
           nextReviewAt := addDays Samples.clock 57 |}
  /\ Spec.flooredEase Samples.halfWay 4 == 2300
  /\ inject_Z (interval Samples.halfWay) * Spec.flooredEase Samples.halfWay 4
     / 1000 == 115 # 2
  /\ Spec.successInterval Samples.halfWay 4 = 58%Z
  /\ Srs64.calculateNextReview Samples.clock
       {| interval := 3; easeFactor := 2500; repetitions := 2;
          nextReviewAt := 0 |} 5
     = inr {| interval := 8; easeFactor := 2600; repetitions := 3;
              nextReviewAt := addDays Samples.clock 8 |}.
Proof.
  repeat split; reflexivity.
Qed.

(** C2.  On a quality from 0 to 2, whatever the state, [calculateNextReview]
    returns repetitions 0 and interval 1, and an ease factor that is the
    old one plus [(0.1 - (5-q)*(0.08 + (5-q)*0.02))*1000], floored at 1300
    (and rounded, which changes nothing for an integer quality). *)
Theorem calculateNextReview_failure (today : Z) (state : SRSState) (quality : Q) :
  0 <= quality -> quality <= 2 ->
  exists next : SRSState,
    calculateNextReview today state quality = inr next
    /\ repetitions next = 0%Z
    /\ interval next = 1%Z
    /\ easeFactor next
       = Math_round (Math_max 1300 (inject_Z (easeFactor state)
                                    + easeDelta quality))
    /\ (forall q : Z, quality = inject_Z q ->
        inject_Z (easeFactor next)
        == Math_max 1300 (inject_Z (easeFactor state) + easeDelta quality)
        /\ easeFactor next
           = Z.max 1300 (easeFactor state + Spec.easeDeltaInt q)).
Proof.
  intros L0 L2.
  assert (L5 : quality <= 5) by lra.
  rewrite (calculateNextReview_in_range today state L0 L5).
  replace (ltb quality 3) with true by (symmetry; apply ltb_lt; lra).
  eexists. split; [reflexivity|]. cbn [repetitions easeFactor interval].
  repeat split.
  - subst quality. rewrite easeFactor_int. symmetry. apply flooredEase_int.
  - subst quality. apply easeFactor_int.
Qed.

Lemma calculateNextReview_failure_witness :
  0 <= 1 /\ 1 <= 2
  /\ exists next : SRSState,
       calculateNextReview 0 (mkSRSState 10 2100 4 0) 1 = inr next
       /\ repetitions next = 0%Z /\ interval next = 1%Z
       /\ easeFactor next = 1560%Z.
Proof.
  split; [discriminate|]. split; [discriminate|].
  destruct (@calculateNextReview_failure 0%Z (mkSRSState 10 2100 4 0) 1)
    as (next & E & R & I & F & _); [discriminate | discriminate |].
  exists next. repeat split; assumption.
Defined.

End Sm2Claims.

(** ** The mastery percentage *)

Section Mastery.

Import Js Srs.
Local Open Scope Q_scope.

(** C7.  On [{repetitions: 0, easeFactor: 1793}] the formula of the
    specification gives [round(0 + 493/1700 * 50) = round(14.5) = 15].
    [calculateMasteryPercentage] returns 14: the double [493 / 1700]
    times 50 is the double below 14.5.  On
    [{repetitions: 10, easeFactor: 3000}] it returns 100, as the
    specification says. *)
Theorem calculateMasteryPercentage_half_way :
  (forall days reviewAt : Z,
      Srs64.calculateMasteryPercentage
        {| interval := days; easeFactor := 1793; repetitions := 0;
           nextReviewAt := reviewAt |} = 14%Z)
  /\ (forall days reviewAt : Z,
         Spec.masteryPercent
           {| interval := days; easeFactor := 1793; repetitions := 0;
              nextReviewAt := reviewAt |} = 15%Z)
  /\ (forall days reviewAt : Z,
         Srs64.calculateMasteryPercentage
           {| interval := days; easeFactor := 3000; repetitions := 10;
              nextReviewAt := reviewAt |} = 100%Z).
Proof.
  repeat split; intros days reviewAt; reflexivity.
Qed.

End Mastery.

(** ** The statements of the query builder *)

Section Store.

Import Db.

Context {R : Type}.

Lemma limit_1_filter (cond : R -> bool) (l : list R) :
  limit 1 (filter cond l)
  = match find cond l with Some r => [r] | None => [] end.
Proof.
  induction l as [|x l IH]; [reflexivity|].
  cbn [filter find]. destruct (cond x); [reflexivity | exact IH].
Qed.

Lemma find_map_kept (cond : R -> bool) (g : R -> R) (l : list R) :
  (forall r, cond (g r) = cond r) ->
  find cond (map g l) = option_map g (find cond l).
Proof.
  intro K. induction l as [|x l IH]; [reflexivity|].
  cbn [map find]. rewrite K. destruct (cond x); [reflexivity | exact IH].
Qed.

Lemma find_snoc (cond : R -> bool) (l : list R) (x : R) :
  find cond l = None ->
  find cond (l ++ [x]) = if cond x then Some x else None.
Proof.
  induction l as [|y l IH]; [reflexivity|].
  cbn [app find]. destruct (cond y); [discriminate | exact IH].
Qed.

Lemma filter_map_kept (cond : R -> bool) (g : R -> R) (l : list R) :
  (forall r, cond (g r) = cond r) ->
  filter cond (map g l) = map g (filter cond l).
Proof.
  intro K. induction l as [|x l IH]; [reflexivity|].
  cbn [map filter]. rewrite K. destruct (cond x); cbn [map];
    now rewrite IH.
Qed.

End Store.

(** ** Invalid quality *)

Section InvalidQuality.

Import Js Db Srs LearningRouter.
Local Open Scope Q_scope.

Lemma submitReview_rejects (now : Z) (userId : string)
    (input : SubmitReviewInput) (db : DB) :
  quality input < 0 \/ 5 < quality input ->
  (exists e, fst (submitReview now userId input db) = inl e)
  /\ snd (submitReview now userId input db) = db.
Proof.
  intros _. split; [eexists|]; reflexivity.
Qed.

Lemma submitReviewInputOk_false (input : SubmitReviewInput) :
  quality input < 0 \/ 5 < quality input -> submitReviewInputOk input = false.
Proof.
  unfold submitReviewInputOk. intros [L | L]; apply ltb_lt in L;
    unfold ltb in L; apply negb_true_iff in L; rewrite L;
    [reflexivity | apply andb_false_r].
Qed.

(** C9.  [calculateNextReview] throws exactly when the quality is outside
    [0, 5].  [submitReview] on such a quality ends in an error and leaves
    the database as it was: the scheduling function runs before the
    update of the progress record, and the input check of the procedure
    before the mutation. *)
Theorem invalid_quality :
  (forall (today : Z) (state : SRSState) (quality : Q),
      (exists e, calculateNextReview today state quality = inl e)
      <-> (quality < 0 \/ 5 < quality))
  /\ (forall (now : Z) (userId : string) (input : SubmitReviewInput) (db : DB),
         quality input < 0 \/ 5 < quality input ->
         (exists e, fst (submitReview now userId input db) = inl e)
         /\ snd (submitReview now userId input db) = db
         /\ (exists e, fst (submitReviewProcedure now userId input db) = inl e)
         /\ snd (submitReviewProcedure now userId input db) = db).
Proof.
  split.
  - intros today state quality. split.
    + intros [e E].
      destruct (Qlt_le_dec quality 0) as [L0 | L0]; [now left|].
      destruct (Qlt_le_dec 5 quality) as [L5 | L5]; [now right|].
      rewrite (calculateNextReview_in_range today state L0 L5) in E.
      discriminate.
    + intro Out. eexists. now apply calculateNextReview_out_of_range.
  - intros now userId input db Out.
    destruct (submitReview_rejects now userId input db Out) as [E S].
    repeat split; try assumption.
    + unfold submitReviewProcedure.
      rewrite (submitReviewInputOk_false input Out). eexists; reflexivity.
    + unfold submitReviewProcedure.
      now rewrite (submitReviewInputOk_false input Out).
Qed.

Lemma invalid_quality_witness :
  (7 < 0 \/ 5 < 7)
  /\ snd (submitReview 300 "u" (mkSubmitReviewInput "p1" 7 None) Samples.db)
     = Samples.db.
Proof.
  split; [right; reflexivity|].
  apply (proj2 invalid_quality 300%Z "u"%string
               (mkSubmitReviewInput "p1" 7 None) Samples.db).
  right; reflexivity.
Defined.

End InvalidQuality.

(** ** The record-answer path *)

Section RecordAnswer.

Import Js Db AppRouter.
Local Open Scope Z_scope.

Variables (now : Z) (rnd userId phraseId : string) (isCorrect : bool).

(** The lookups by user and phrase are lookups of [Spec.isProgressOf]. *)
Lemma isProgressOf_fold :
  (fun p : UserProgress.t =>
     ((UserProgress.userId p =? userId)
      && (UserProgress.phraseId p =? phraseId))%string)
  = Spec.isProgressOf userId phraseId.
Proof. reflexivity. Qed.

Lemma getUserProgress_find (db : DB) :
  fst (ServerDb.getUserProgress userId phraseId db)
  = find (Spec.isProgressOf userId phraseId) (t_userProgress db).
Proof.
  unfold ServerDb.getUserProgress. cbn [fst rows userProgress].
  rewrite isProgressOf_fold.
  rewrite limit_1_filter.
  now destruct (find (Spec.isProgressOf userId phraseId) _).
Qed.

(** The row the path writes over an existing one. *)
Lemma recordAnswer_existing (db : DB) (p : UserProgress.t) :
  fst (ServerDb.getUserProgress userId phraseId db) = Some p ->
  exists set : UserProgress.t -> UserProgress.t,
    t_userProgress (snd (recordAnswer now rnd userId phraseId isCorrect db))
    = map (fun r => if (UserProgress.id r =? UserProgress.id p)%string
                    then set r else r) (t_userProgress db)
    /\ (forall r, UserProgress.userId (set r) = UserProgress.userId r
                  /\ UserProgress.phraseId (set r) = UserProgress.phraseId r
                  /\ UserProgress.easeFactor (set r)
                     = Z.max 1300 (UserProgress.easeFactor p
                                   + (if isCorrect then 200 else -100))).
Proof.
  rewrite getUserProgress_find. intro F. unfold recordAnswer, bind, select.
  cbn [rows userProgress]. rewrite isProgressOf_fold.
  rewrite limit_1_filter, F.
  destruct isCorrect; cbn; eexists; (split; [reflexivity|]);
    intro r; repeat split.
Qed.

(** The row the path creates. *)
Lemma recordAnswer_absent (db : DB) :
  fst (ServerDb.getUserProgress userId phraseId db) = None ->
  t_userProgress (snd (recordAnswer now rnd userId phraseId isCorrect db))
  = t_userProgress db
    ++ [ {| UserProgress.id := "progress_" ++ toString now ++ "_" ++ rnd;
            UserProgress.userId := userId;
            UserProgress.phraseId := phraseId;
            UserProgress.interval := 1;
            UserProgress.easeFactor := if isCorrect then 2500 else 1300;
            UserProgress.repetitions := if isCorrect then 1 else 0;
            UserProgress.correctCount := if isCorrect then 1 else 0;
            UserProgress.incorrectCount := if isCorrect then 0 else 1;
            UserProgress.lastReviewedAt := Some now;
            UserProgress.nextReviewAt := now + msPerDay;
            UserProgress.status :=
              if isCorrect then Srs.learning else Srs.new;
            UserProgress.createdAt := Some now;
            UserProgress.updatedAt := Some now |} ].
Proof.
  rewrite getUserProgress_find. intro F. unfold recordAnswer, bind, select.
  cbn [rows userProgress]. rewrite isProgressOf_fold.
  rewrite limit_1_filter, F.
  destruct isCorrect; reflexivity.
Qed.

(** The record of the user and phrase after the call, and its ease
    factor. *)
Lemma recordAnswer_floor (db : DB) :
  exists row : UserProgress.t,
    fst (ServerDb.getUserProgress userId phraseId
           (snd (recordAnswer now rnd userId phraseId isCorrect db)))
    = Some row
    /\ 1300 <= UserProgress.easeFactor row.
Proof.
  destruct (fst (ServerDb.getUserProgress userId phraseId db)) as [p|] eqn:F.
  - destruct (recordAnswer_existing db F) as (set & T & K).
    rewrite getUserProgress_find, T.
    rewrite getUserProgress_find in F.
    rewrite find_map_kept, F.
    + cbn [option_map]. rewrite String.eqb_refl.
      eexists. split; [reflexivity|].
      destruct (K p) as (_ & _ & ->). lia.
    + intro r. destruct (UserProgress.id r =? UserProgress.id p)%string;
        [|reflexivity].
      unfold Spec.isProgressOf. destruct (K r) as (-> & -> & _). reflexivity.
  - rewrite getUserProgress_find, (recordAnswer_absent db F).
    rewrite getUserProgress_find in F.
    rewrite (find_snoc _ _ _ F). unfold Spec.isProgressOf.
    cbn [UserProgress.userId UserProgress.phraseId].
    rewrite !String.eqb_refl. cbn [andb].
    eexists. split; [reflexivity|].
    cbn [UserProgress.easeFactor]. destruct isCorrect; lia.
Qed.

(** Every row of the table after the call was there before, or has an
    ease factor of 1300 or more. *)
Lemma recordAnswer_rows_floor (db : DB) (row : UserProgress.t) :
  In row (t_userProgress
            (snd (recordAnswer now rnd userId phraseId isCorrect db))) ->
  In row (t_userProgress db) \/ 1300 <= UserProgress.easeFactor row.
Proof.
  destruct (fst (ServerDb.getUserProgress userId phraseId db)) as [p|] eqn:F.
  - destruct (recordAnswer_existing db F) as (set & -> & K).
    intro I. apply in_map_iff in I. destruct I as (r & E & I).
    destruct (UserProgress.id r =? UserProgress.id p)%string.
    + right. subst row. destruct (K r) as (_ & _ & ->). lia.
    + left. now subst row.
  - rewrite (recordAnswer_absent db F). intro I.
    apply in_app_or in I. destruct I as [I | [<- | []]]; [now left|].
    right. cbn [UserProgress.easeFactor]. destruct isCorrect; lia.
Qed.

End RecordAnswer.

Section ReviewClaims.

Import Js Db Srs.

(** C3.  On every state and every quality in [0, 5], the state that
    [calculateNextReview] returns has an ease factor of at least 1300.
    So has the progress record that the record-answer path writes, on a
    correct and on an incorrect answer, over an existing record or as a
    new one; the other rows of the table are as they were. *)
Theorem easeFactor_floor :
  (forall (today : Z) (state : SRSState) (quality : Q),
      (0 <= quality)%Q -> (quality <= 5)%Q ->
      exists next : SRSState,
        calculateNextReview today state quality = inr next
        /\ (1300 <= easeFactor next)%Z)
  /\ (forall (now : Z) (rnd userId phraseId : string) (isCorrect : bool)
             (db : DB),
         (exists row : UserProgress.t,
             fst (ServerDb.getUserProgress userId phraseId
                    (snd (AppRouter.recordAnswer now rnd userId phraseId
                            isCorrect db)))
             = Some row
             /\ (1300 <= UserProgress.easeFactor row)%Z)
         /\ (forall row : UserProgress.t,
                In row (t_userProgress
                          (snd (AppRouter.recordAnswer now rnd userId
                                  phraseId isCorrect db))) ->
                In row (t_userProgress db)
                \/ (1300 <= UserProgress.easeFactor row)%Z)).
Proof.
  split.
  - intros today state quality L0 L5.
    rewrite (calculateNextReview_in_range today state L0 L5).
    eexists. split; [reflexivity|]. cbn [easeFactor].
    change 1300%Z with (Math_round 1300).
    apply Math_round_le, flooredEase_ge.
  - intros now rnd userId phraseId isCorrect db. split.
    + apply recordAnswer_floor.
    + apply recordAnswer_rows_floor.
Qed.

Lemma easeFactor_floor_witness :
  (0 <= 0)%Q /\ (0 <= 5)%Q
  /\ exists next : SRSState,
       calculateNextReview 0 (mkSRSState 1 1300 0 0) 0 = inr next
       /\ (1300 <= easeFactor next)%Z.
Proof.
  split; [discriminate|]. split; [discriminate|].
  apply (proj1 easeFactor_floor 0%Z (mkSRSState 1 1300 0 0) 0%Q);
    discriminate.
Defined.

(** C10.  When the user has no progress record for the phrase, the
    record-answer path appends one with interval 1 and a next review one
    day after now; with repetitions 1, ease factor 2500 and status
    learning on a correct answer; with repetitions 0, ease factor 1300
    and status new on an incorrect one. *)
Theorem recordAnswer_first_answer (now : Z) (rnd userId phraseId : string)
    (isCorrect : bool) (db : DB) :
  fst (ServerDb.getUserProgress userId phraseId db) = None ->
  exists row : UserProgress.t,
    t_userProgress (snd (AppRouter.recordAnswer now rnd userId phraseId
                           isCorrect db))
    = t_userProgress db ++ [row]
    /\ fst (ServerDb.getUserProgress userId phraseId
              (snd (AppRouter.recordAnswer now rnd userId phraseId
                      isCorrect db)))
       = Some row
    /\ UserProgress.interval row = 1%Z
    /\ UserProgress.nextReviewAt row = (now + 24 * 60 * 60 * 1000)%Z
    /\ UserProgress.repetitions row = (if isCorrect then 1 else 0)%Z
    /\ UserProgress.easeFactor row = (if isCorrect then 2500 else 1300)%Z
    /\ UserProgress.status row = (if isCorrect then learning else new).
Proof.
  intro F. eexists. split; [apply (recordAnswer_absent _ _ _ _ _ _ F)|].
  split; [|repeat split].
  rewrite getUserProgress_find, (recordAnswer_absent _ _ _ _ _ _ F).
  rewrite getUserProgress_find in F. rewrite (find_snoc _ _ _ F).
  unfold Spec.isProgressOf. cbn [UserProgress.userId UserProgress.phraseId].
  now rewrite !String.eqb_refl.
Qed.

Lemma recordAnswer_first_answer_witness :
  fst (ServerDb.getUserProgress "v" "hallo" Samples.db) = None
  /\ exists row : UserProgress.t,
       t_userProgress (snd (AppRouter.recordAnswer 300 "x7" "v" "hallo"
                              false Samples.db))
       = t_userProgress Samples.db ++ [row]
       /\ UserProgress.easeFactor row = 1300%Z.
Proof.
  split; [reflexivity|].
  destruct (@recordAnswer_first_answer 300%Z "x7"%string "v"%string
              "hallo"%string false Samples.db eq_refl)
    as (row & T & _ & _ & _ & _ & E & _).
  exists row. split; [exact T | exact E].
Defined.

End ReviewClaims.


(** ** Completing a daily task *)

Section TaskCompletion.

Import Js Db TaskScheduler.

Variables (userId phraseId : string).

Lemma TaskType_eqb_eq (a b : TaskType.t) : TaskType.eqb a b = true <-> a = b.
Proof.
  split; [|intros ->; now destruct b].
  destruct a, b; (reflexivity || discriminate).
Qed.

(** One round of the loop of [scheduleNextReviews].  When the item has a
    task of the type, nothing is done.  When it has none, the checkpoint
    task of the schedule is appended, unless its id does not fit the key:
    then the round throws. *)
Lemma scheduleReview_effect (now : Z) (schedule : Z * TaskType.t) (db : DB) :
  scheduleReview now userId phraseId schedule db
  = if (Spec.countTasks userId phraseId (snd schedule) db =? 0)%nat
    then
      if Notions.fits
           (DailyTask.id (Notions.checkpointTask now userId phraseId schedule))
      then (inr tt,
            setRows dailyTasks
              (t_dailyTasks db
               ++ [Notions.checkpointTask now userId phraseId schedule]) db)
      else (inl (Error "Data too long for column 'id'"), db)
    else (inr tt, db).
Proof.
  unfold scheduleReview, bind, select, insertKeyed, ret, Spec.countTasks,
    Notions.fits.
  cbn [rows dailyTasks].
  change (fun t : DailyTask.t =>
            ((DailyTask.userId t =? userId)%string
             && (DailyTask.phraseId t =? phraseId)%string
             && TaskType.eqb (DailyTask.taskType t) (snd schedule)))
    with (Spec.isTask userId phraseId (snd schedule)).
  destruct (filter _ (t_dailyTasks db)) as [|x l]; [|reflexivity].
  cbn [limit firstn List.length Nat.eqb forallb]. rewrite andb_true_r.
  reflexivity.
Qed.

(** The key of a checkpoint task. *)
Lemma checkpointTask_key (now : Z) (schedule : Z * TaskType.t)
    (taskType : TaskType.t) :
  Spec.isTask userId phraseId taskType
    (Notions.checkpointTask now userId phraseId schedule)
  = TaskType.eqb (snd schedule) taskType.
Proof.
  unfold Spec.isTask, Notions.checkpointTask.
  cbn [DailyTask.userId DailyTask.phraseId DailyTask.taskType].
  now rewrite !String.eqb_refl.
Qed.

Lemma countTasks_snoc (taskType : TaskType.t) (db : DB) (row : DailyTask.t) :
  Spec.countTasks userId phraseId taskType
    (setRows dailyTasks (t_dailyTasks db ++ [row]) db)
  = (Spec.countTasks userId phraseId taskType db
     + if Spec.isTask userId phraseId taskType row then 1 else 0)%nat.
Proof.
  unfold Spec.countTasks. cbn [setRows dailyTasks t_dailyTasks].
  rewrite filter_app, length_app. cbn [filter].
  now destruct (Spec.isTask userId phraseId taskType row).
Qed.

(** A round whose id fits does not throw, and leaves one task of the type
    of its schedule when there was none. *)
Lemma scheduleReview_count (now : Z) (schedule : Z * TaskType.t)
    (taskType : TaskType.t) (db : DB) :
  Notions.fits
    (DailyTask.id (Notions.checkpointTask now userId phraseId schedule))
  = true ->
  fst (scheduleReview now userId phraseId schedule db) = inr tt
  /\ Spec.countTasks userId phraseId taskType
       (snd (scheduleReview now userId phraseId schedule db))
     = if TaskType.eqb (snd schedule) taskType
       then Nat.max 1 (Spec.countTasks userId phraseId taskType db)
       else Spec.countTasks userId phraseId taskType db.
Proof.
  intro F. rewrite scheduleReview_effect, F.
  destruct (Spec.countTasks userId phraseId (snd schedule) db =? 0)%nat eqn:E;
    cbn [fst snd]; (split; [reflexivity|]).
  - rewrite countTasks_snoc, checkpointTask_key.
    destruct (TaskType.eqb (snd schedule) taskType) eqn:T; [|lia].
    apply TaskType_eqb_eq in T. subst taskType.
    apply Nat.eqb_eq in E. rewrite E. reflexivity.
  - destruct (TaskType.eqb (snd schedule) taskType) eqn:T; [|reflexivity].
    apply TaskType_eqb_eq in T. subst taskType.
    apply Nat.eqb_neq in E. lia.
Qed.

(** The loop over schedules whose ids fit. *)
Lemma forEach_count (now : Z) (schedules : list (Z * TaskType.t))
    (taskType : TaskType.t) (db : DB) :
  (forall s, In s schedules ->
     Notions.fits (DailyTask.id (Notions.checkpointTask now userId phraseId s))
     = true) ->
  Spec.countTasks userId phraseId taskType
    (snd (forEach schedules (scheduleReview now userId phraseId) db))
  = if existsb (fun s => TaskType.eqb (snd s) taskType) schedules
    then Nat.max 1 (Spec.countTasks userId phraseId taskType db)
    else Spec.countTasks userId phraseId taskType db.
Proof.
  revert db. induction schedules as [|s l IH]; intros db F; [reflexivity|].
  cbn [forEach existsb]. unfold bindE.
  destruct (@scheduleReview_count now s taskType db (F s (or_introl eq_refl)))
    as [R C].
  destruct (scheduleReview now userId phraseId s db) as [[e|[]] db1];
    cbn [fst snd] in R, C; [discriminate R|].
  rewrite IH by (intros s' I; apply F; now right). rewrite C.
  destruct (TaskType.eqb (snd s) taskType), (existsb _ l); cbn [orb]; lia.
Qed.

(** The loop appends checkpoint tasks of its schedules and writes nothing
    else; it appends all of them, in order, when the item has no task of
    their types and their ids fit. *)
Lemma forEach_appends (now : Z) (schedules : list (Z * TaskType.t)) (db : DB) :
  exists extra : list DailyTask.t,
    snd (forEach schedules (scheduleReview now userId phraseId) db)
    = setRows dailyTasks (t_dailyTasks db ++ extra) db
    /\ Forall (fun t => exists s, In s schedules
                 /\ t = Notions.checkpointTask now userId phraseId s) extra
    /\ (NoDup (map snd schedules) ->
        (forall s, In s schedules ->
           Spec.countTasks userId phraseId (snd s) db = 0%nat) ->
        (forall s, In s schedules ->
           Notions.fits
             (DailyTask.id (Notions.checkpointTask now userId phraseId s))
           = true) ->
        extra = map (Notions.checkpointTask now userId phraseId) schedules).
Proof.
  revert db. induction schedules as [|s l IH]; intro db.
  - exists []. cbn. rewrite app_nil_r. destruct db. repeat split. constructor.
  - cbn [forEach]. unfold bindE. rewrite scheduleReview_effect.
    destruct (Spec.countTasks userId phraseId (snd s) db =? 0)%nat eqn:C;
      [destruct (Notions.fits _) eqn:F|].
    + destruct (IH (setRows dailyTasks
                      (t_dailyTasks db
                       ++ [Notions.checkpointTask now userId phraseId s]) db))
        as (extra & T & A & O).
      exists (Notions.checkpointTask now userId phraseId s :: extra).
      split; [|split].
      * rewrite T. cbn [setRows dailyTasks t_dailyTasks t_phrases
                        t_userProgress t_studySessions t_learningAnalytics].
        now rewrite <- app_assoc.
      * constructor; [exists s; split; [now left | reflexivity]|].
        eapply Forall_impl; [|exact A].
        intros t (s' & I & ->). exists s'. split; [now right | reflexivity].
      * intros N Z0 Fs. cbn [map]. f_equal. apply O.
        -- now inversion N.
        -- intros s' I. rewrite countTasks_snoc, checkpointTask_key.
           rewrite (Z0 s' (or_intror I)).
           destruct (TaskType.eqb (snd s) (snd s')) eqn:Q; [|reflexivity].
           apply TaskType_eqb_eq in Q. inversion N as [|? ? NI _]; subst.
           exfalso. apply NI. rewrite Q. now apply in_map.
        -- intros s' I. apply Fs. now right.
    + exists []. cbn [snd]. rewrite app_nil_r. destruct db.
      split; [reflexivity|]. split; [constructor|].
      intros _ _ Fs. rewrite (Fs s (or_introl eq_refl)) in F. discriminate F.
    + destruct (IH db) as (extra & T & A & O).
      exists extra. split; [exact T|]. split.
      * eapply Forall_impl; [|exact A].
        intros t (s' & I & ->). exists s'. split; [now right | reflexivity].
      * intros _ Z0 _. pose proof (Z0 s (or_introl eq_refl)) as Z1.
        apply Nat.eqb_neq in C. contradiction.
Qed.

Lemma forEach_frame (now : Z) (schedules : list (Z * TaskType.t)) (db : DB) :
  t_userProgress (snd (forEach schedules (scheduleReview now userId phraseId) db))
  = t_userProgress db.
Proof.
  destruct (forEach_appends now schedules db) as (extra & -> & _).
  reflexivity.
Qed.

(** With a task of every type of the list in the table, the loop writes
    nothing. *)
Lemma forEach_idle (now : Z) (schedules : list (Z * TaskType.t)) (db : DB) :
  (forall s, In s schedules ->
             (1 <= Spec.countTasks userId phraseId (snd s) db)%nat) ->
  forEach schedules (scheduleReview now userId phraseId) db = (inr tt, db).
Proof.
  induction schedules as [|s l IH]; intro A; [reflexivity|].
  cbn [forEach]. unfold bindE. rewrite scheduleReview_effect.
  pose proof (A s (or_introl eq_refl)) as P.
  destruct (_ =? 0)%nat eqn:Z0; [apply Nat.eqb_eq in Z0; lia|].
  apply IH. intros s' I. apply A. now right.
Qed.

(** The steps of [completeDailyTask].  The task is marked.  The progress
    record of the item is counted on, or a first one is inserted; when its
    id does not fit the key the insert throws and the function ends there.
    Otherwise, on a correct answer, the reviews are scheduled. *)
Lemma completeDailyTask_steps (now : Z) (taskId : string) (isCorrect : bool)
    (timeSpentSeconds : Z) (db : DB) :
  let found := find (Spec.isProgressOf userId phraseId) (t_userProgress db) in
  let written :=
    match found with
    | None =>
        Notions.fits
          (UserProgress.id
             (Notions.firstProgress now userId phraseId isCorrect))
    | Some _ => true
    end in
  exists db1 : DB,
    t_dailyTasks db1
    = map (fun t => if (DailyTask.id t =? taskId)%string
                    then Notions.completedTask now isCorrect timeSpentSeconds t
                    else t)
          (t_dailyTasks db)
    /\ t_userProgress db1
       = match found with
         | None =>
             if written
             then t_userProgress db
                  ++ [Notions.firstProgress now userId phraseId isCorrect]
             else t_userProgress db
         | Some p =>
             map (fun r =>
                    if (UserProgress.id r =? UserProgress.id p)%string
                    then Notions.countedProgress now isCorrect p r
                    else r)
                 (t_userProgress db)
         end
    /\ snd (completeDailyTask now userId taskId phraseId isCorrect
              timeSpentSeconds db)
       = if isCorrect && written
         then snd (forEach reviewSchedules
                           (scheduleReview now userId phraseId) db1)
         else db1.
Proof.
  unfold completeDailyTask, scheduleNextReviews, tryCatch, bind, bindE, lift,
    update, select, insertKeyed, ret, Notions.fits.
  cbn [rows setRows dailyTasks userProgress t_dailyTasks t_userProgress].
  change (fun p : UserProgress.t =>
            ((UserProgress.userId p =? userId)
             && (UserProgress.phraseId p =? phraseId))%string)
    with (Spec.isProgressOf userId phraseId).
  rewrite limit_1_filter.
  destruct (find (Spec.isProgressOf userId phraseId) (t_userProgress db))
    as [p|].
  - destruct isCorrect; cbn [snd fst andb]; eexists;
      ((split; [|split]); [ | | reflexivity]); reflexivity.
  - cbn [forallb UserProgress.id Notions.firstProgress]. rewrite andb_true_r.
    destruct (String.length _ <=? idLength)%nat;
      destruct isCorrect; cbn [snd fst andb]; eexists;
      ((split; [|split]); [ | | reflexivity]); reflexivity.
Qed.

(** Marking tasks does not change their keys. *)
Lemma countTasks_marked (now : Z) (taskId : string) (isCorrect : bool)
    (timeSpentSeconds : Z) (taskType : TaskType.t) (db db1 : DB) :
  t_dailyTasks db1
  = map (fun t => if (DailyTask.id t =? taskId)%string
                  then Notions.completedTask now isCorrect timeSpentSeconds t
                  else t)
        (t_dailyTasks db) ->
  Spec.countTasks userId phraseId taskType db1
  = Spec.countTasks userId phraseId taskType db.
Proof.
  intro T. unfold Spec.countTasks. rewrite T.
  rewrite filter_map_kept; [apply length_map|].
  intro t. destruct (DailyTask.id t =? taskId)%string; reflexivity.
Qed.

Lemma reviewSchedules_checkpoints (taskType : TaskType.t) :
  existsb (fun s => TaskType.eqb (snd s) taskType) reviewSchedules
  = Spec.isCheckpoint taskType.
Proof. now destruct taskType. Qed.

Lemma completionIdsFit_schedules (now : Z) :
  Notions.completionIdsFit now userId phraseId = true ->
  Notions.fits
    (UserProgress.id (Notions.firstProgress now userId phraseId true)) = true
  /\ forall s, In s reviewSchedules ->
       Notions.fits
         (DailyTask.id (Notions.checkpointTask now userId phraseId s)) = true.
Proof.
  unfold Notions.completionIdsFit. intro F.
  apply andb_true_iff in F. destruct F as [F1 F2].
  split; [exact F1|]. now apply forallb_forall.
Qed.

(** A correct completion whose ids fit, and the number of tasks with a
    key: a checkpoint task is there afterwards, and none is added to one
    that was there. *)
Lemma completeDailyTask_count (now : Z) (taskId : string)
    (timeSpentSeconds : Z) (taskType : TaskType.t) (db : DB) :
  Notions.completionIdsFit now userId phraseId = true ->
  Spec.countTasks userId phraseId taskType
    (snd (completeDailyTask now userId taskId phraseId true
            timeSpentSeconds db))
  = if Spec.isCheckpoint taskType
    then Nat.max 1 (Spec.countTasks userId phraseId taskType db)
    else Spec.countTasks userId phraseId taskType db.
Proof.
  intro F. apply completionIdsFit_schedules in F. destruct F as [F1 F2].
  destruct (completeDailyTask_steps now taskId true timeSpentSeconds db)
    as (db1 & T & _ & ->).
  replace (match find (Spec.isProgressOf userId phraseId) (t_userProgress db)
           with
           | Some _ => true
           | None => Notions.fits
                       (UserProgress.id
                          (Notions.firstProgress now userId phraseId true))
           end) with true by (rewrite F1; now destruct (find _ _)).
  cbn [andb].
  rewrite (@forEach_count now reviewSchedules taskType db1 F2).
  rewrite reviewSchedules_checkpoints.
  now rewrite (@countTasks_marked _ _ _ _ taskType db db1 T).
Qed.

(** A correct completion on a table that has the five checkpoint tasks of
    the item adds no row, whatever its ids. *)
Lemma completeDailyTask_idle (now : Z) (taskId : string)
    (timeSpentSeconds : Z) (db : DB) :
  (forall taskType, In taskType Spec.checkpoints ->
      (1 <= Spec.countTasks userId phraseId taskType db)%nat) ->
  let db' := snd (completeDailyTask now userId taskId phraseId true
                    timeSpentSeconds db) in
  List.length (t_dailyTasks db') = List.length (t_dailyTasks db)
  /\ forall taskType,
       Spec.countTasks userId phraseId taskType db'
       = Spec.countTasks userId phraseId taskType db.
Proof.
  intros A db'.
  destruct (completeDailyTask_steps now taskId true timeSpentSeconds db)
    as (db1 & T & _ & E).
  assert (I : forEach reviewSchedules (scheduleReview now userId phraseId) db1
              = (inr tt, db1)).
  { apply forEach_idle. intros s I.
    rewrite (@countTasks_marked _ _ _ _ (snd s) db db1 T). apply A.
    unfold reviewSchedules in I. cbn in I. unfold Spec.checkpoints.
    repeat (destruct I as [<- | I]; [cbn; tauto|]). destruct I. }
  assert (E1 : db' = db1).
  { unfold db'. rewrite E, I. now destruct (_ && _). }
  rewrite E1. split.
  - rewrite T. apply length_map.
  - intro taskType. apply (@countTasks_marked _ _ _ _ taskType db db1 T).
Qed.

Lemma isCheckpoint_In (taskType : TaskType.t) :
  In taskType Spec.checkpoints <-> Spec.isCheckpoint taskType = true.
Proof.
  unfold Spec.isCheckpoint. rewrite existsb_exists. split.
  - intro I. exists taskType. split; [exact I | now apply TaskType_eqb_eq].
  - intros (t & I & E). apply TaskType_eqb_eq in E. now subst.
Qed.

(** A run of correct completions on a table that has the five checkpoint
    tasks of the item leaves the number of tasks of every key as it is. *)
Lemma completeCorrectly_idle (calls : list (Z * string * Z)) (db : DB) :
  (forall taskType, In taskType Spec.checkpoints ->
      (1 <= Spec.countTasks userId phraseId taskType db)%nat) ->
  forall taskType,
    Spec.countTasks userId phraseId taskType
      (Spec.completeCorrectly calls userId phraseId db)
    = Spec.countTasks userId phraseId taskType db.
Proof.
  revert db. induction calls as [|[[now taskId] seconds] calls IH];
    intros db A taskType; [reflexivity|].
  cbn [Spec.completeCorrectly].
  destruct (@completeDailyTask_idle now taskId seconds db A) as [_ C].
  rewrite IH; [apply C|].
  intros t I. rewrite C. now apply A.
Qed.

(** A run of correct completions, the ids of the first of which fit. *)
Lemma completeCorrectly_count (now : Z) (taskId : string)
    (timeSpentSeconds : Z) (calls : list (Z * string * Z))
    (taskType : TaskType.t) (db : DB) :
  Notions.completionIdsFit now userId phraseId = true ->
  Spec.countTasks userId phraseId taskType
    (Spec.completeCorrectly ((now, taskId, timeSpentSeconds) :: calls)
       userId phraseId db)
  = if Spec.isCheckpoint taskType
    then Nat.max 1 (Spec.countTasks userId phraseId taskType db)
    else Spec.countTasks userId phraseId taskType db.
Proof.
  intro F. cbn [Spec.completeCorrectly].
  rewrite completeCorrectly_idle; [now apply completeDailyTask_count|].
  intros t I. rewrite completeDailyTask_count by exact F.
  apply isCheckpoint_In in I. rewrite I. lia.
Qed.

(** The checkpoint tasks of the item are the tasks of its five checkpoint
    keys. *)
Lemma checkpointTasks_count (db : DB) :
  List.length (Spec.checkpointTasks userId phraseId db)
  = (Spec.countTasks userId phraseId TaskType.review_1 db
     + Spec.countTasks userId phraseId TaskType.review_3 db
     + Spec.countTasks userId phraseId TaskType.review_10 db
     + Spec.countTasks userId phraseId TaskType.review_21 db
     + Spec.countTasks userId phraseId TaskType.review_50 db)%nat.
Proof.
  unfold Spec.checkpointTasks, Spec.countTasks, Spec.isTask.
  induction (t_dailyTasks db) as [|t l IH]; [reflexivity|].
  cbn [filter].
  destruct (DailyTask.userId t =? userId)%string,
           (DailyTask.phraseId t =? phraseId)%string;
    cbn [andb]; try exact IH.
  destruct (DailyTask.taskType t); cbn in IH |- *; lia.
Qed.

End TaskCompletion.

(** ** The checkpoint keys *)

Section CheckpointKeys.

Import Js Db TaskScheduler.

Lemma mapIndexed_Forall {A B : Type} (P : B -> Prop) (f : A -> Z -> B)
    (index : Z) (l : list A) :
  (forall x k, P (f x k)) -> Forall P (mapIndexed f index l).
Proof.
  intro K. revert index.
  induction l as [|x l IH]; intro index; cbn; constructor; [apply K | apply IH].
Qed.

(** The tasks that [initializeDailyTasks] appends are of type [new],
    whatever the order of [RAND()]. *)
Lemma initializeDailyTasks_new (rand : list string -> list string) (now : Z)
    (userId : string) (dailyLoad : nat) (db : DB) :
  exists created : list DailyTask.t,
    t_dailyTasks (snd (initializeDailyTasks rand now userId dailyLoad db))
    = t_dailyTasks db ++ created
    /\ Forall (fun t => DailyTask.taskType t = TaskType.new) created.
Proof.
  unfold initializeDailyTasks.
  destruct (List.length _ =? 0)%nat;
    [exists []; cbn [snd]; rewrite app_nil_r; split; [reflexivity|constructor]|].
  unfold tryCatch, insertKeyed. cbn [rows setRows dailyTasks].
  destruct (forallb _ _);
    [|exists []; cbn [snd]; rewrite app_nil_r;
      split; [reflexivity|constructor]].
  eexists. split; [reflexivity|].
  apply mapIndexed_Forall. reflexivity.
Qed.

(** [initializeDailyTasks] leaves the number of tasks of a checkpoint key
    as it is. *)
Lemma initializeDailyTasks_checkpoints (rand : list string -> list string)
    (now : Z) (user : string) (dailyLoad : nat) (db : DB)
    (userId phraseId : string) (taskType : TaskType.t) :
  In taskType Spec.checkpoints ->
  Spec.countTasks userId phraseId taskType
    (snd (initializeDailyTasks rand now user dailyLoad db))
  = Spec.countTasks userId phraseId taskType db.
Proof.
  intro C.
  destruct (initializeDailyTasks_new rand now user dailyLoad db)
    as (created & T & N).
  unfold Spec.countTasks. rewrite T, filter_app, length_app.
  replace (filter (Spec.isTask userId phraseId taskType) created)
    with (@nil DailyTask.t); [cbn; lia|].
  symmetry. clear T. induction N as [|t l Q _ IHN]; [reflexivity|].
  cbn [filter]. unfold Spec.isTask at 1. rewrite Q.
  replace (TaskType.eqb TaskType.new taskType) with false.
  - rewrite andb_false_r. exact IHN.
  - cbn in C. repeat (destruct C as [<- | C]; [reflexivity|]). destruct C.
Qed.

(** A round of the loop of [scheduleNextReviews] for an item leaves at
    most one task with a key that had at most one, whosever key it is. *)
Lemma scheduleReview_keeps (now : Z) (userId phraseId : string)
    (schedule : Z * TaskType.t) (userId' phraseId' : string)
    (taskType : TaskType.t) (db : DB) :
  (Spec.countTasks userId' phraseId' taskType db <= 1)%nat ->
  (Spec.countTasks userId' phraseId' taskType
     (snd (scheduleReview now userId phraseId schedule db)) <= 1)%nat.
Proof.
  intro L. rewrite scheduleReview_effect.
  destruct (Spec.countTasks userId phraseId (snd schedule) db =? 0)%nat eqn:E;
    [|exact L].
  destruct (Notions.fits _); [|exact L]. cbn [snd].
  rewrite countTasks_snoc.
  destruct (Spec.isTask userId' phraseId' taskType
              (Notions.checkpointTask now userId phraseId schedule)) eqn:K;
    [|lia].
  unfold Spec.isTask, Notions.checkpointTask in K.
  cbn [DailyTask.userId DailyTask.phraseId DailyTask.taskType] in K.
  apply andb_true_iff in K. destruct K as [K T].
  apply andb_true_iff in K. destruct K as [U P].
  apply String.eqb_eq in U, P. apply TaskType_eqb_eq in T. subst.
  apply Nat.eqb_eq in E. rewrite E. reflexivity.
Qed.

Lemma forEach_keeps (now : Z) (userId phraseId : string)
    (schedules : list (Z * TaskType.t)) (userId' phraseId' : string)
    (taskType : TaskType.t) (db : DB) :
  (Spec.countTasks userId' phraseId' taskType db <= 1)%nat ->
  (Spec.countTasks userId' phraseId' taskType
     (snd (forEach schedules (scheduleReview now userId phraseId) db))
   <= 1)%nat.
Proof.
  revert db. induction schedules as [|s l IH]; intros db L; [exact L|].
  cbn [forEach]. unfold bindE.
  pose proof (@scheduleReview_keeps now userId phraseId s userId' phraseId'
                taskType db L) as K.
  destruct (scheduleReview now userId phraseId s db) as [[e|[]] db1];
    cbn [snd] in K |- *; [exact K | now apply IH].
Qed.

(** [completeDailyTask], for whatever item, leaves at most one task with a
    key that had at most one. *)
Lemma completeDailyTask_keeps (now : Z) (user taskId phrase : string)
    (isCorrect : bool) (timeSpentSeconds : Z) (db : DB)
    (userId phraseId : string) (taskType : TaskType.t) :
  (Spec.countTasks userId phraseId taskType db <= 1)%nat ->
  (Spec.countTasks userId phraseId taskType
     (snd (completeDailyTask now user taskId phrase isCorrect timeSpentSeconds
             db)) <= 1)%nat.
Proof.
  intro L.
  destruct (completeDailyTask_steps user phrase now taskId isCorrect
              timeSpentSeconds db) as (db1 & T & _ & ->).
  assert (L1 : (Spec.countTasks userId phraseId taskType db1 <= 1)%nat)
    by now rewrite (@countTasks_marked userId phraseId _ _ _ _ taskType db
                      db1 T).
  destruct (isCorrect && _); [now apply forEach_keeps | exact L1].
Qed.

(** The checkpoint keys are unique in every database that the task
    scheduler makes of one without daily tasks. *)
Lemma scheduled_keys (db : DB) :
  Notions.scheduled db ->
  forall (userId phraseId : string) (taskType : TaskType.t),
    In taskType Spec.checkpoints ->
    (Spec.countTasks userId phraseId taskType db <= 1)%nat.
Proof.
  induction 1 as [db E | rand now user dailyLoad db _ IH
                  | now user taskId phrase isCorrect seconds db _ IH];
    intros userId phraseId taskType C.
  - unfold Spec.countTasks. rewrite E. cbn. lia.
  - rewrite initializeDailyTasks_checkpoints by exact C. now apply IH.
  - apply completeDailyTask_keeps. now apply IH.
Qed.

End CheckpointKeys.

Section TaskClaims.

Import Js Db TaskScheduler.

(** C5, as the code has it.  Take a database that the task scheduler has
    made of one without daily tasks, an item of a user in it, and one or
    more [completeDailyTask] calls with [isCorrect = true] for the item,
    the first of which writes what MySQL takes: ids of at most the 64
    characters of the key that are no keys yet, a time of the clock,
    seconds and counters that are values of an [int] column.  After the
    calls there is exactly one row for each of the checkpoint keys
    [(userId, phraseId, review_N)] of the item, for [review_1],
    [review_3], [review_10], [review_21] and [review_50], five checkpoint
    tasks in all; the rows of the other task types are as many as before,
    two tasks of type [new] staying two; and one more such call, at any
    time, adds no row and leaves the number of rows of every key as it
    is. *)
Theorem completeDailyTask_idempotent (userId phraseId : string) (now : Z)
    (taskId : string) (timeSpentSeconds : Z) (calls : list (Z * string * Z))
    (db : DB) :
  Notions.scheduled db ->
  Notions.completionIdsFit now userId phraseId = true ->
  Notions.completionAccepted now userId phraseId timeSpentSeconds db ->
  let db' := Spec.completeCorrectly ((now, taskId, timeSpentSeconds) :: calls)
               userId phraseId db in
  (forall taskType, In taskType Spec.checkpoints ->
      Spec.countTasks userId phraseId taskType db' = 1%nat)
  /\ List.length (Spec.checkpointTasks userId phraseId db') = 5%nat
  /\ (forall taskType, ~ In taskType Spec.checkpoints ->
         Spec.countTasks userId phraseId taskType db'
         = Spec.countTasks userId phraseId taskType db)
  /\ (forall (now' : Z) (taskId' : string) (timeSpentSeconds' : Z),
         let db'' := snd (completeDailyTask now' userId taskId' phraseId true
                            timeSpentSeconds' db') in
         List.length (t_dailyTasks db'') = List.length (t_dailyTasks db')
         /\ forall taskType,
              Spec.countTasks userId phraseId taskType db''
              = Spec.countTasks userId phraseId taskType db').
Proof.
  intros S F _ db'.
  pose proof (scheduled_keys S userId phraseId) as U.
  assert (C : forall taskType, In taskType Spec.checkpoints ->
                Spec.countTasks userId phraseId taskType db' = 1%nat).
  { intros taskType I. unfold db'.
    rewrite (@completeCorrectly_count userId phraseId now taskId
               timeSpentSeconds calls taskType db F).
    pose proof (U taskType I). apply isCheckpoint_In in I. rewrite I. lia. }
  split; [exact C|]. split; [|split].
  - rewrite checkpointTasks_count.
    rewrite !C by (cbn; tauto). reflexivity.
  - intros taskType I. unfold db'.
    rewrite (@completeCorrectly_count userId phraseId now taskId
               timeSpentSeconds calls taskType db F).
    destruct (Spec.isCheckpoint taskType) eqn:E; [|reflexivity].
    apply isCheckpoint_In in E. contradiction.
  - intros now' taskId' timeSpentSeconds'.
    apply completeDailyTask_idle. intros taskType I. rewrite (C _ I). lia.
Qed.

Lemma completeDailyTask_idempotent_witness :
  Notions.scheduled Samples.dbTwice
  /\ Notions.completionIdsFit (Samples.clock + 60000)%Z "v" "hallo" = true
  /\ Notions.completionAccepted (Samples.clock + 60000)%Z "v" "hallo" 12
       Samples.dbTwice
  /\ List.length
       (Spec.checkpointTasks "v" "hallo"
          (Spec.completeCorrectly
             [((Samples.clock + 60000)%Z, "task_v_1762170000000_0"%string,
               12%Z);
              ((Samples.clock + 120000)%Z, "task_v_1762170001000_0"%string,
               9%Z)]
             "v" "hallo" Samples.dbTwice)) = 5%nat
  /\ Spec.countTasks "v" "hallo" TaskType.new
       (Spec.completeCorrectly
          [((Samples.clock + 60000)%Z, "task_v_1762170000000_0"%string,
            12%Z);
           ((Samples.clock + 120000)%Z, "task_v_1762170001000_0"%string,
            9%Z)]
          "v" "hallo" Samples.dbTwice) = 2%nat.
Proof.
  assert (S : Notions.scheduled Samples.dbTwice)
    by (apply Notions.scheduled_initialize, Notions.scheduled_initialize,
          Notions.scheduled_none; reflexivity).
  assert (F : Notions.completionIdsFit (Samples.clock + 60000)%Z "v" "hallo"
              = true) by reflexivity.
  assert (A : Notions.completionAccepted (Samples.clock + 60000)%Z "v" "hallo"
                12 Samples.dbTwice).
  { split; [split; split; vm_compute; discriminate|].
    split; [split; [vm_compute; discriminate | reflexivity]|].
    split; [|split].
    - intros p I. vm_compute in I. destruct I.
    - vm_compute. intros [].
    - intros schedule I. cbn in I.
      repeat (destruct I as [<- | I];
              [vm_compute; intros [E | [E | []]]; discriminate E|]).
      destruct I. }
  split; [exact S|]. split; [exact F|]. split; [exact A|].
  destruct (@completeDailyTask_idempotent "v"%string "hallo"%string
              (Samples.clock + 60000)%Z "task_v_1762170000000_0"%string 12
              [((Samples.clock + 120000)%Z, "task_v_1762170001000_0"%string,
                9%Z)]
              Samples.dbTwice S F A) as (_ & Five & New & _).
  split; [exact Five|].
  rewrite New; [reflexivity|].
  cbn. intuition discriminate.
Defined.

(** C5, as the specification has it, fails on the database that
    [initializeDailyTasks] makes when it runs twice for user [v], a second
    apart, before the user has learned anything: the phrase [hallo] then
    has two tasks of type [new] of that user, and a correct completion of
    one of them, a minute later, leaves both, two rows with the key
    [(v, hallo, new)], beside the five checkpoint tasks.  And for a user
    with an id of 64 characters a correct completion leaves the item
    without any checkpoint task: the id of the progress record, of 93
    characters, and those of the tasks, of 98 or more, are refused. *)
Lemma completeDailyTask_duplicate_key :
  Notions.scheduled Samples.dbTwice
  /\ Spec.countTasks "v" "hallo" TaskType.new Samples.dbTwice = 2%nat
  /\ Spec.countTasks "v" "hallo" TaskType.new
       (Spec.completeCorrectly
          [((Samples.clock + 60000)%Z, "task_v_1762170000000_0"%string, 7%Z)]
          "v" "hallo" Samples.dbTwice) = 2%nat
  /\ ~ (forall taskType,
          (Spec.countTasks "v" "hallo" taskType
             (Spec.completeCorrectly
                [((Samples.clock + 60000)%Z,
                  "task_v_1762170000000_0"%string, 7%Z)]
                "v" "hallo" Samples.dbTwice) <= 1)%nat)
  /\ List.length
       (Spec.checkpointTasks "v" "hallo"
          (Spec.completeCorrectly
             [((Samples.clock + 60000)%Z,
               "task_v_1762170000000_0"%string, 7%Z)]
             "v" "hallo" Samples.dbTwice)) = 5%nat
  /\ List.length
       (Spec.checkpointTasks Samples.registered "hallo"
          (Spec.completeCorrectly [(Samples.clock, "t4"%string, 7%Z)]
             Samples.registered "hallo" Samples.fresh)) = 0%nat.
Proof.
  split.
  { apply Notions.scheduled_initialize, Notions.scheduled_initialize,
      Notions.scheduled_none. reflexivity. }
  split; [reflexivity|]. split; [reflexivity|].
  split; [|split; reflexivity].
  intro A. specialize (A TaskType.new). vm_compute in A. lia.
Qed.

(** C6.  When the user has a progress record for the phrase,
    [completeDailyTask] adds one to its [correctCount] on a correct answer
    and to its [incorrectCount] on an incorrect one, leaving the other
    count; adds one to its [repetitions]; and sets its [lastReviewedAt] to
    now.  Its [interval], [easeFactor], [nextReviewAt] and [status] are as
    before, and no record is created. *)
Theorem completeDailyTask_counters (now : Z) (userId taskId phraseId : string)
    (isCorrect : bool) (timeSpentSeconds : Z) (db : DB) (p : UserProgress.t) :
  fst (ServerDb.getUserProgress userId phraseId db) = Some p ->
  let db' := snd (completeDailyTask now userId taskId phraseId isCorrect
                    timeSpentSeconds db) in
  exists p' : UserProgress.t,
    fst (ServerDb.getUserProgress userId phraseId db') = Some p'
    /\ UserProgress.id p' = UserProgress.id p
    /\ UserProgress.correctCount p'
       = (UserProgress.correctCount p + if isCorrect then 1 else 0)%Z
    /\ UserProgress.incorrectCount p'
       = (UserProgress.incorrectCount p + if isCorrect then 0 else 1)%Z
    /\ UserProgress.repetitions p' = (UserProgress.repetitions p + 1)%Z
    /\ UserProgress.lastReviewedAt p' = Some now
    /\ UserProgress.interval p' = UserProgress.interval p
    /\ UserProgress.easeFactor p' = UserProgress.easeFactor p
    /\ UserProgress.nextReviewAt p' = UserProgress.nextReviewAt p
    /\ UserProgress.status p' = UserProgress.status p
    /\ List.length (t_userProgress db') = List.length (t_userProgress db).
Proof.
  intros F db'.
  destruct (completeDailyTask_steps userId phraseId now taskId isCorrect
              timeSpentSeconds db) as (db1 & _ & P & E).
  rewrite getUserProgress_find in F. rewrite F in P, E.
  assert (T : t_userProgress db' = t_userProgress db1).
  { unfold db'. rewrite E. destruct isCorrect; [|reflexivity].
    apply forEach_frame. }
  rewrite getUserProgress_find, T, P.
  rewrite find_map_kept, F.
  - cbn [option_map]. rewrite String.eqb_refl.
    eexists. split; [reflexivity|]. cbn.
    repeat split. apply length_map.
  - intro r. destruct (UserProgress.id r =? UserProgress.id p)%string;
      reflexivity.
Qed.

Lemma completeDailyTask_counters_witness :
  fst (ServerDb.getUserProgress "u" "hallo" Samples.db)
  = Some Samples.progressHallo
  /\ exists p' : UserProgress.t,
       fst (ServerDb.getUserProgress "u" "hallo"
              (snd (completeDailyTask 300 "u" "t1" "hallo" false 12
                      Samples.db)))
       = Some p'
       /\ UserProgress.incorrectCount p' = 1%Z
       /\ UserProgress.easeFactor p' = 2500%Z.
Proof.
  split; [reflexivity|].
  destruct (@completeDailyTask_counters 300%Z "u"%string "t1"%string
              "hallo"%string false 12%Z Samples.db Samples.progressHallo
              eq_refl)
    as (p' & F & _ & _ & I & _ & _ & _ & E & _).
  exists p'. repeat split; assumption.
Defined.

End TaskClaims.

(** ** The learning analytics *)

Section Analytics.

Import Js Db TaskScheduler.
Local Open Scope Z_scope.

Variables (now : Z) (userId : string).

Lemma fold_left_phrases (sessions : list StudySession.t) (start : Z) :
  fold_left (fun sum s => sum + StudySession.phrasesStudied s) sessions start
  = start + Spec.totalPhrasesStudied sessions.
Proof.
  revert start. induction sessions as [|s l IH]; intro start; cbn.
  - lia.
  - rewrite IH. unfold Spec.totalPhrasesStudied. lia.
Qed.

Lemma pace_code (avgPhrasesPerDay : Z) :
  (let learningPace := LearningPace.normal in
   let learningPace :=
     if avgPhrasesPerDay <? 15 then LearningPace.slow else learningPace in
   let learningPace :=
     if 30 <? avgPhrasesPerDay then LearningPace.fast else learningPace in
   learningPace)
  = Spec.pace avgPhrasesPerDay.
Proof.
  unfold Spec.pace. cbv zeta.
  destruct (avgPhrasesPerDay <? 15) eqn:A, (30 <? avgPhrasesPerDay) eqn:B;
    try reflexivity.
  apply Z.ltb_lt in A, B. lia.
Qed.

Lemma div_nonzero (a : Q) (b : Z) :
  b <> 0 -> div a (inject_Z b) = Some (a / inject_Z b)%Q.
Proof.
  intro N. unfold div. destruct (Qeq_bool (inject_Z b) 0) eqn:E; [|reflexivity].
  apply Qeq_bool_iff in E. unfold Qeq in E. cbn in E. lia.
Qed.


(** With sessions in the window and phrases studied in them, the rows of
    the user are updated, or a first row is inserted. *)
Lemma updateLearningAnalytics_rows (db : DB) :
  Spec.sessionsInWindow now userId db <> [] ->
  Spec.totalPhrasesStudied (Spec.sessionsInWindow now userId db) <> 0 ->
  let avgPhrasesPerDay :=
    Math_round (inject_Z (Spec.totalPhrasesStudied
                            (Spec.sessionsInWindow now userId db)) / 30)%Q in
  exists avgAccuracy : Z,
    t_learningAnalytics (snd (updateLearningAnalytics now userId db))
    = match fst (getLearningAnalytics userId db) with
      | Some _ =>
          map (fun a =>
                 if (LearningAnalytics.userId a =? userId)%string then
                   {| LearningAnalytics.id := LearningAnalytics.id a;
                      LearningAnalytics.userId := LearningAnalytics.userId a;
                      LearningAnalytics.avgPhrasesPerDay := avgPhrasesPerDay;
                      LearningAnalytics.bestStudyTime :=
                        LearningAnalytics.bestStudyTime a;
                      LearningAnalytics.studyStreak :=
                        LearningAnalytics.studyStreak a;
                      LearningAnalytics.longestStudyStreak :=
                        LearningAnalytics.longestStudyStreak a;
                      LearningAnalytics.optimalDailyLoad :=
                        LearningAnalytics.optimalDailyLoad a;
                      LearningAnalytics.learningPace :=
                        Spec.pace avgPhrasesPerDay;
                      LearningAnalytics.avgRetention := avgAccuracy;
                      LearningAnalytics.weakCategories :=
                        LearningAnalytics.weakCategories a;
                      LearningAnalytics.strongCategories :=
                        LearningAnalytics.strongCategories a;
                      LearningAnalytics.lastAnalyzedAt := Some now;
                      LearningAnalytics.createdAt :=
                        LearningAnalytics.createdAt a;
                      LearningAnalytics.updatedAt := Some now |}
                 else a)
              (t_learningAnalytics db)
      | None =>
          t_learningAnalytics db
          ++ [ {| LearningAnalytics.id :=
                    "analytics_" ++ userId ++ "_" ++ toString now;
                  LearningAnalytics.userId := userId;
                  LearningAnalytics.avgPhrasesPerDay := avgPhrasesPerDay;
                  LearningAnalytics.bestStudyTime := None;
                  LearningAnalytics.studyStreak := 0;
                  LearningAnalytics.longestStudyStreak := 0;
                  LearningAnalytics.optimalDailyLoad := avgPhrasesPerDay;
                  LearningAnalytics.learningPace := Spec.pace avgPhrasesPerDay;
                  LearningAnalytics.avgRetention := avgAccuracy;
                  LearningAnalytics.weakCategories := None;
                  LearningAnalytics.strongCategories := None;
                  LearningAnalytics.lastAnalyzedAt := Some now;
                  LearningAnalytics.createdAt := Some now;
                  LearningAnalytics.updatedAt := Some now |} ]
      end.
Proof.
  unfold Spec.sessionsInWindow, updateLearningAnalytics, getLearningAnalytics,
    bind, select, ret.
  cbn [rows studySessions learningAnalytics fst snd].
  set (sessions := filter _ (t_studySessions db)).
  intros S T. cbv zeta.
  destruct sessions as [|s l] eqn:E; [congruence|]. rewrite <- E in *.
  replace (List.length sessions =? 0)%nat with false by now rewrite E.
  rewrite fold_left_phrases, Z.add_0_l, pace_code.
  rewrite (div_nonzero _ T). cbn [option_map].
  rewrite limit_1_filter.
  destruct (find _ (t_learningAnalytics db)); eexists; reflexivity.
Qed.

End Analytics.

Section AnalyticsClaims.

Import Js Db TaskScheduler.
Local Open Scope Z_scope.

Lemma getLearningAnalytics_find (userId : string) (db : DB) :
  fst (getLearningAnalytics userId db)
  = find (fun a => (LearningAnalytics.userId a =? userId)%string)
         (t_learningAnalytics db).
Proof.
  unfold getLearningAnalytics, bind, select, ret.
  cbn [rows learningAnalytics fst]. rewrite limit_1_filter.
  now destruct (find _ _).
Qed.




End AnalyticsClaims.

(** ** The review queue *)

Section Ordering.

Import Db.

Context {R : Type} (leb : R -> R -> bool).

Hypothesis leb_total : forall a b, leb a b = false -> leb b a = true.
Hypothesis leb_trans :
  forall a b c, leb a b = true -> leb b c = true -> leb a c = true.

Lemma insertBy_In (x y : R) (l : list R) :
  In y (insertBy leb x l) <-> y = x \/ In y l.
Proof.
  induction l as [|z l IH]; cbn.
  - intuition congruence.
  - destruct (leb x z); cbn; [intuition congruence|].
    rewrite IH. intuition congruence.
Qed.

Lemma orderBy_In (y : R) (l : list R) : In y (orderBy leb l) <-> In y l.
Proof.
  induction l as [|x l IH]; [reflexivity|].
  cbn [orderBy fold_right]. fold (orderBy leb l).
  rewrite insertBy_In, IH. cbn. intuition congruence.
Qed.

Lemma insertBy_sorted (x : R) (l : list R) :
  StronglySorted (fun a b => leb a b = true) l ->
  StronglySorted (fun a b => leb a b = true) (insertBy leb x l).
Proof.
  induction 1 as [|z l S IH F]; cbn.
  - constructor; constructor.
  - destruct (leb x z) eqn:E.
    + constructor; [now constructor|].
      constructor; [exact E|].
      eapply Forall_impl; [|exact F]. intros a Ha. now apply leb_trans with z.
    + constructor; [exact IH|].
      apply Forall_forall. intros a Ia. apply insertBy_In in Ia.
      destruct Ia as [-> | Ia]; [now apply leb_total|].
      rewrite Forall_forall in F. now apply F.
Qed.

Lemma orderBy_sorted (l : list R) :
  StronglySorted (fun a b => leb a b = true) (orderBy leb l).
Proof.
  induction l as [|x l IH]; [constructor|].
  cbn [orderBy fold_right]. now apply insertBy_sorted.
Qed.

End Ordering.

Lemma limit_In {R : Type} (n : nat) (l : list R) (x : R) :
  In x (Db.limit n l) -> In x l.
Proof.
  revert l. induction n as [|n IH]; intros [|y l]; cbn; try tauto.
  intros [-> | I]; [now left | right; now apply IH].
Qed.

Lemma limit_sorted {R : Type} (rel : R -> R -> Prop) (n : nat) (l : list R) :
  StronglySorted rel l -> StronglySorted rel (Db.limit n l).
Proof.
  revert l. induction n as [|n IH]; intros l S; [constructor|].
  destruct S as [|y l S F]; cbn; constructor.
  - now apply IH.
  - apply Forall_forall. intros x I. rewrite Forall_forall in F.
    apply F. now apply limit_In with n.
Qed.

Lemma map_sorted {A B : Type} (rel : A -> A -> Prop) (rel' : B -> B -> Prop)
    (f : A -> B) (l : list A) :
  (forall a b, rel a b -> rel' (f a) (f b)) ->
  StronglySorted rel l -> StronglySorted rel' (map f l).
Proof.
  intro K. induction 1 as [|x l S IH F]; cbn; constructor; [exact IH|].
  apply Forall_forall. intros y I. apply in_map_iff in I.
  destruct I as (a & <- & I). rewrite Forall_forall in F. now apply K, F.
Qed.

Section ReviewQueue.

Import Js Db LearningRouter.
Local Open Scope Z_scope.

(** The rows that the statement of [getWordsForReview] selects are rows of
    the user that are due. *)
Lemma wordsForReview_due (now : Z) (userId : string) (db : DB)
    (w : WordForReview) :
  In w (fst (wordsForReview now userId db)) ->
  nextReviewAt w <= now
  /\ exists p : UserProgress.t,
       In p (t_userProgress db)
       /\ UserProgress.userId p = userId
       /\ UserProgress.id p = id w
       /\ UserProgress.nextReviewAt p = nextReviewAt w.
Proof.
  unfold wordsForReview. cbn [fst rows userProgress phrases].
  intro I. apply in_map_iff in I. destruct I as ([p ph] & <- & I).
  apply limit_In, orderBy_In, filter_In in I. destruct I as [I C].
  cbn [fst snd] in *. apply andb_true_iff in C. destruct C as [U D].
  apply String.eqb_eq in U. apply Z.leb_le in D.
  split; [exact D|]. exists p. repeat split; try assumption.
  unfold innerJoin in I. apply in_flat_map in I.
  destruct I as (p0 & I0 & I). apply in_map_iff in I.
  destruct I as (ph0 & E & _). now inversion E; subst.
Qed.

(** It selects them with the latest [nextReviewAt] first. *)
Lemma wordsForReview_descending (now : Z) (userId : string) (db : DB) :
  StronglySorted (fun a b => nextReviewAt b <= nextReviewAt a)
                 (fst (wordsForReview now userId db)).
Proof.
  unfold wordsForReview. cbn [fst].
  eapply map_sorted; [|apply limit_sorted, orderBy_sorted].
  - intros a b L. cbn [nextReviewAt]. unfold desc in L. now apply Z.leb_le.
  - intros a b L. unfold desc in *. apply Z.leb_gt in L. apply Z.leb_le. lia.
  - intros a b c A B. unfold desc in *. apply Z.leb_le in A, B.
    apply Z.leb_le. lia.
Qed.

(** The rows of [getPhrasesForReview] come with the earliest
    [nextReviewAt] first. *)
Lemma getPhrasesForReview_ascending (now : Z) (userId : string) (limit : nat)
    (db : DB) :
  StronglySorted
    (fun a b => UserProgress.nextReviewAt (fst a)
                <= UserProgress.nextReviewAt (fst b))
    (fst (ServerDb.getPhrasesForReview now userId limit db)).
Proof.
  unfold ServerDb.getPhrasesForReview. cbn [fst].
  apply limit_sorted.
  rewrite <- map_id.
  eapply map_sorted; [|apply orderBy_sorted].
  - intros a b L. unfold asc in L. now apply Z.leb_le.
  - intros a b L. unfold asc in *. apply Z.leb_gt in L. apply Z.leb_le. lia.
  - intros a b c A B. unfold asc in *. apply Z.leb_le in A, B.
    apply Z.leb_le. lia.
Qed.

(** C4.  [getWordsForReview] returns no list: for every user, time and
    database it throws [TypeError: db.select is not a function] and leaves
    the database as it is, because [db] is the Promise that [getDb()] is.
    So it does on the sample database, where user [u] has two records due,
    one since time 100 and one since time 200.  The statement that it
    does not get to send would select the two with the one due since 200
    first; [getPhrasesForReview], the query of server/db.ts that awaits
    the handle, returns them with the one due since 100 first. *)
Theorem getWordsForReview_throws :
  (forall (now : Z) (userId : string) (db : DB),
      getWordsForReview now userId db
      = (inl (TypeError "db.select is not a function"), db))
  /\ fst (getWordsForReview Samples.clock "u" Samples.db)
     = inl (TypeError "db.select is not a function")
  /\ map nextReviewAt (fst (wordsForReview Samples.clock "u" Samples.db))
     = [200; 100]
  /\ map (fun r => UserProgress.nextReviewAt (fst r))
         (fst (ServerDb.getPhrasesForReview Samples.clock "u" 20 Samples.db))
     = [100; 200].
Proof.
  split; [intros now userId db; reflexivity|].
  repeat split; reflexivity.
Qed.

End ReviewQueue.

(* ================================================================== *)
(** * Part III: further properties of the program *)
(* ================================================================== *)

(** ** The scheduling function, continued *)

Section Sm2More.

Import Js Srs.
Local Open Scope Q_scope.

Lemma Math_max_mono (a b c : Q) : b <= c -> Math_max a b <= Math_max a c.
Proof.
  intro L. unfold Math_max.
  destruct (Qle_bool a b) eqn:B, (Qle_bool a c) eqn:C.
  - exact L.
  - apply Qle_bool_iff in B.
    assert (C' : a <= c) by lra. apply Qle_bool_iff in C'. congruence.
  - apply Qle_bool_iff in C. exact C.
  - apply Qle_refl.
Qed.

(** The SM-2 increment grows with the quality, up to quality 5. *)
Lemma easeDelta_mono (q1 q2 : Q) :
  q1 <= q2 -> q2 <= 5 -> easeDelta q1 <= easeDelta q2.
Proof.
  intros L1 L2. unfold easeDelta.
  assert (E : ((1 # 10) - (5 - q2) * ((8 # 100) + (5 - q2) * (2 # 100))) * 1000
              - ((1 # 10) - (5 - q1) * ((8 # 100) + (5 - q1) * (2 # 100))) * 1000
              == (q2 - q1) * (80 + 20 * ((5 - q1) + (5 - q2)))) by ring.
  assert (P : 0 <= (q2 - q1) * (80 + 20 * ((5 - q1) + (5 - q2))))
    by (apply Qmult_le_0_compat; lra).
  lra.
Qed.

(** X1.  With the state fixed, the ease factor that [calculateNextReview]
    returns does not decrease when the quality increases. *)
Theorem easeFactor_monotone (today : Z) (state : SRSState) (q1 q2 : Q) :
  0 <= q1 -> q1 <= q2 -> q2 <= 5 ->
  exists next1 next2 : SRSState,
    calculateNextReview today state q1 = inr next1
    /\ calculateNextReview today state q2 = inr next2
    /\ (easeFactor next1 <= easeFactor next2)%Z.
Proof.
  intros L0 L12 L5.
  rewrite (@calculateNextReview_in_range today state q1) by lra.
  rewrite (@calculateNextReview_in_range today state q2) by lra.
  eexists. eexists. split; [reflexivity|]. split; [reflexivity|].
  cbn [easeFactor]. apply Math_round_le. unfold Spec.flooredEase.
  apply Math_max_mono.
  pose proof (easeDelta_mono L12 L5). lra.
Qed.

Lemma easeFactor_monotone_witness :
  0 <= 1 /\ 1 <= 4 /\ 4 <= 5
  /\ exists next1 next2 : SRSState,
       calculateNextReview 0 (mkSRSState 3 2500 2 0) 1 = inr next1
       /\ calculateNextReview 0 (mkSRSState 3 2500 2 0) 4 = inr next2
       /\ (easeFactor next1 <= easeFactor next2)%Z.
Proof.
  split; [discriminate|]. split; [discriminate|]. split; [discriminate|].
  apply (@easeFactor_monotone 0%Z (mkSRSState 3 2500 2 0) 1 4); discriminate.
Defined.

Lemma Math_min_mono (a b c : Q) : a <= b -> Math_min a c <= Math_min b c.
Proof.
  intro L. unfold Math_min.
  destruct (Qle_bool a c) eqn:A, (Qle_bool b c) eqn:B.
  - exact L.
  - apply Qle_bool_iff in A. exact A.
  - apply Qle_bool_iff in B.
    assert (A' : a <= c) by lra. apply Qle_bool_iff in A'. congruence.
  - apply Qle_refl.
Qed.

(** X2.  [calculateMasteryPercentage] never exceeds 100, and does not
    decrease when the repetitions or the ease factor increase. *)
Theorem calculateMasteryPercentage_monotone :
  (forall state : SRSState, (calculateMasteryPercentage state <= 100)%Z)
  /\ (forall state1 state2 : SRSState,
         (repetitions state1 <= repetitions state2)%Z ->
         (easeFactor state1 <= easeFactor state2)%Z ->
         (calculateMasteryPercentage state1
          <= calculateMasteryPercentage state2)%Z).
Proof.
  split.
  - intro state. unfold calculateMasteryPercentage.
    change 100%Z with (Math_round 100). apply Math_round_le.
    pose proof (Math_min_le_r (inject_Z (repetitions state) / 10) 1).
    pose proof (Math_min_le_r ((inject_Z (easeFactor state) - 1300) / 1700) 1).
    lra.
  - intros state1 state2 R E. unfold calculateMasteryPercentage.
    apply Math_round_le.
    rewrite Zle_Qle in R, E.
    assert (A : Math_min (inject_Z (repetitions state1) / 10) 1
                <= Math_min (inject_Z (repetitions state2) / 10) 1).
    { apply Math_min_mono. apply Qmult_le_compat_r; [exact R | discriminate]. }
    assert (B : Math_min ((inject_Z (easeFactor state1) - 1300) / 1700) 1
                <= Math_min ((inject_Z (easeFactor state2) - 1300) / 1700) 1).
    { apply Math_min_mono. apply Qmult_le_compat_r; [lra | discriminate]. }
    lra.
Qed.

Lemma calculateMasteryPercentage_monotone_witness :
  (2 <= 7)%Z /\ (1500 <= 2600)%Z
  /\ (calculateMasteryPercentage (mkSRSState 1 1500 2 0)
      <= calculateMasteryPercentage (mkSRSState 9 2600 7 0))%Z.
Proof.
  split; [lia|]. split; [lia|].
  apply (proj2 calculateMasteryPercentage_monotone
               (mkSRSState 1 1500 2 0) (mkSRSState 9 2600 7 0));
    simpl; lia.
Defined.

(** X3.  The status of a word after a review: a quality below 3 makes it
    [new] again; a quality of 3 or more on a state with [repetitions >= 0]
    makes it [learning] or [mastered], and [mastered] exactly when the new
    repetitions are at least 5 and the new ease factor at least 2000. *)
Theorem getWordStatus_after_review (today : Z) (state : SRSState) (quality : Q) :
  0 <= quality -> quality <= 5 ->
  exists next : SRSState,
    calculateNextReview today state quality = inr next
    /\ (quality < 3 -> getWordStatus next = new)
    /\ (3 <= quality -> (0 <= repetitions state)%Z ->
        getWordStatus next <> new
        /\ (getWordStatus next = mastered
            <-> (5 <= repetitions next)%Z /\ (2000 <= easeFactor next)%Z)).
Proof.
  intros L0 L5.
  rewrite (calculateNextReview_in_range today state L0 L5).
  eexists. split; [reflexivity|]. split.
  - intro L. apply ltb_lt in L. rewrite L. reflexivity.
  - intros L R. apply ltb_ge in L. rewrite L.
    unfold getWordStatus. cbn [repetitions easeFactor].
    replace (repetitions state + 1 =? 0)%Z with false
      by (symmetry; apply Z.eqb_neq; lia).
    destruct (Z.ltb_spec (repetitions state + 1) 5) as [A | A];
      destruct (Z.ltb_spec (Math_round (Spec.flooredEase state quality)) 2000)
        as [B | B];
      cbn [orb]; (split; [discriminate|]);
      (split; [intro M; try discriminate M; lia
              | intros [? ?]; try reflexivity; exfalso; lia]).
Qed.

Lemma getWordStatus_after_review_witness :
  0 <= 5 /\ 5 <= 5
  /\ exists next : SRSState,
       calculateNextReview 0 (mkSRSState 20 2400 4 0) 5 = inr next
       /\ getWordStatus next = mastered.
Proof.
  split; [discriminate|]. split; [discriminate|].
  destruct (@getWordStatus_after_review 0%Z (mkSRSState 20 2400 4 0) 5)
    as (next & E & _ & S); [discriminate | discriminate |].
  exists next. split; [exact E|].
  destruct S as [_ M]; [discriminate | simpl; lia |].
  apply M. vm_compute in E. injection E as <-. simpl. lia.
Defined.

End Sm2More.

(** ** Days *)

Section Days.

Import Js Srs.
Local Open Scope Z_scope.

Lemma msPerDay_pos : 0 < msPerDay.
Proof. reflexivity. Qed.

Lemma startOfDay_div (d : Z) : startOfDay d = msPerDay * (d / msPerDay).
Proof.
  unfold startOfDay. pose proof (Z.div_mod d msPerDay). 
  assert (msPerDay <> 0) by (pose proof msPerDay_pos; lia). lia.
Qed.

(** Midnight of the day [n] days later is [n] days after midnight. *)
Lemma startOfDay_addDays (d n : Z) :
  startOfDay (addDays d n) = addDays (startOfDay d) n.
Proof.
  unfold startOfDay, addDays. rewrite Z_mod_plus_full. lia.
Qed.

Lemma Math_ceil_days (k : Z) :
  Math_ceil (inject_Z (msPerDay * k) / inject_Z (1000 * 60 * 60 * 24)) = k.
Proof.
  unfold Math_ceil.
  assert (E : (inject_Z (msPerDay * k) / inject_Z (1000 * 60 * 60 * 24)
               == inject_Z k)%Q).
  { rewrite inject_Z_mult. change (1000 * 60 * 60 * 24) with msPerDay.
    field. discriminate. }
  rewrite (Qceiling_comp _ _ E). apply Qceiling_Z.
Qed.

(** The days until a review are the whole days between the two midnights. *)
Lemma daysUntilReview_days (now reviewAt : Z) :
  daysUntilReview now reviewAt = reviewAt / msPerDay - now / msPerDay.
Proof.
  unfold daysUntilReview. cbv zeta. rewrite !startOfDay_div.
  replace (msPerDay * (reviewAt / msPerDay) - msPerDay * (now / msPerDay))
    with (msPerDay * (reviewAt / msPerDay - now / msPerDay)) by lia.
  apply Math_ceil_days.
Qed.

(** X4.  [shouldReviewToday] says yes exactly when [daysUntilReview] is
    zero or negative, and a date [n] days after now is [n] days away. *)
Theorem shouldReviewToday_daysUntilReview :
  (forall now reviewAt : Z,
      shouldReviewToday now reviewAt = true
      <-> daysUntilReview now reviewAt <= 0)
  /\ (forall now n : Z, daysUntilReview now (addDays now n) = n).
Proof.
  split.
  - intros now reviewAt. rewrite daysUntilReview_days.
    unfold shouldReviewToday. cbv zeta. rewrite !startOfDay_div, Z.leb_le.
    pose proof msPerDay_pos. nia.
  - intros now n. rewrite daysUntilReview_days. unfold addDays.
    rewrite Z.div_add by discriminate. lia.
Qed.

(** X5.  The review that [calculateNextReview] schedules is, by
    [daysUntilReview], exactly [interval] days away, and is not to be
    reviewed today when that interval is at least 1: this as long as now
    and the date of the review, with their midnights, are times of a
    [Date], and in a zone without clock changes, a day being 86400000 ms.
    From a state with [interval >= 1] the new interval is at least 1 too;
    and on a quality of 3 or more after two or more repetitions the
    interval does not get shorter. *)
Theorem calculateNextReview_days (today : Z) (state : SRSState) (quality : Q) :
  (0 <= quality)%Q -> (quality <= 5)%Q ->
  exists next : SRSState,
    calculateNextReview today state quality = inr next
    /\ (validDate today -> validDate (nextReviewAt next) ->
        daysUntilReview today (nextReviewAt next) = interval next
        /\ (1 <= interval next ->
            shouldReviewToday today (nextReviewAt next) = false))
    /\ (1 <= interval state -> 1 <= interval next)
    /\ ((3 <= quality)%Q -> 2 <= repetitions state -> 0 <= interval state ->
        interval state <= interval next).
Proof.
  intros L0 L5.
  rewrite (calculateNextReview_in_range today state L0 L5).
  eexists. split; [reflexivity|]. cbn [nextReviewAt interval].
  pose proof (flooredEase_ge state quality) as F.
  split.
  { intros _ _. split.
    - rewrite daysUntilReview_days. unfold addDays.
      rewrite Z.div_add by discriminate. lia.
    - intro I. unfold shouldReviewToday. cbv zeta.
      rewrite startOfDay_addDays.
      apply Z.leb_gt. unfold addDays, msPerDay. lia. }
  assert (G : forall i : Z, 0 <= i ->
                i <= Math_round (inject_Z i
                                 * (Spec.flooredEase state quality / 1000))).
  { intros i Li. rewrite <- (Math_round_Z i) at 1. apply Math_round_le.
    rewrite Zle_Qle in Li. change (inject_Z 0) with 0%Q in Li.
    assert (D : (1 <= Spec.flooredEase state quality / 1000)%Q)
      by (apply Qle_shift_div_l; [reflexivity | lra]).
    revert D. generalize (Spec.flooredEase state quality / 1000)%Q.
    intros x D.
    assert (P : (0 <= inject_Z i * (x - 1))%Q)
      by (apply Qmult_le_0_compat; lra).
    lra. }
  split.
  - intro I.
    destruct (ltb quality 3); [lia|].
    destruct (repetitions state + 1 =? 1); [lia|].
    destruct (repetitions state + 1 =? 2); [lia|].
    pose proof (G (interval state)). lia.
  - intros L3 R I. apply ltb_ge in L3. rewrite L3.
    replace (repetitions state + 1 =? 1) with false
      by (symmetry; apply Z.eqb_neq; lia).
    replace (repetitions state + 1 =? 2) with false
      by (symmetry; apply Z.eqb_neq; lia).
    now apply G.
Qed.

Lemma calculateNextReview_days_witness :
  (0 <= 4)%Q /\ (4 <= 5)%Q
  /\ validDate Samples.clock
  /\ exists next : SRSState,
       calculateNextReview Samples.clock (mkSRSState 6 2500 3 0) 4 = inr next
       /\ validDate (nextReviewAt next)
       /\ daysUntilReview Samples.clock (nextReviewAt next) = interval next.
Proof.
  assert (V : validDate Samples.clock)
    by (repeat split; vm_compute; discriminate).
  split; [discriminate|]. split; [discriminate|]. split; [exact V|].
  destruct (@calculateNextReview_days Samples.clock (mkSRSState 6 2500 3 0)
              4%Q)
    as (next & E & D & _); [discriminate | discriminate |].
  exists next. split; [exact E|].
  assert (V' : validDate (nextReviewAt next)).
  { vm_compute in E. injection E as <-.
    repeat split; vm_compute; discriminate. }
  split; [exact V'|]. apply D; assumption.
Defined.

(** X6.  [batchProcessReviews] returns one state for each review, each the
    result of [calculateNextReview], when every quality is in [0, 5]; a
    single quality outside makes the whole batch throw. *)
Theorem batchProcessReviews_all_or_nothing (today : Z)
    (reviews : list (SRSState * Q)) :
  (Forall (fun r => 0 <= snd r /\ snd r <= 5)%Q reviews ->
   exists nexts : list SRSState,
     batchProcessReviews today reviews = inr nexts
     /\ Forall2 (fun r next =>
                   calculateNextReview today (fst r) (snd r) = inr next)
                reviews nexts)
  /\ (Exists (fun r => snd r < 0 \/ 5 < snd r)%Q reviews ->
      batchProcessReviews today reviews
      = inl (Error "Quality must be between 0 and 5")).
Proof.
  split.
  - induction 1 as [|[state quality] l [L0 L5] A (nexts & E & F)].
    + exists []. split; [reflexivity | constructor].
    + cbn [batchProcessReviews fst snd] in *.
      destruct (calculateNextReview today state quality) as [e|next] eqn:C.
      * rewrite (calculateNextReview_in_range today state L0 L5) in C.
        discriminate.
      * rewrite E. exists (next :: nexts). split; [reflexivity|].
        constructor; assumption.
  - induction reviews as [|[state quality] l IH]; intro X.
    + inversion X.
    + cbn [batchProcessReviews].
      destruct (Qlt_le_dec quality 0) as [O | L0].
      { now rewrite (@calculateNextReview_out_of_range today state quality)
          by (now left). }
      destruct (Qlt_le_dec 5 quality) as [O | L5].
      { now rewrite (@calculateNextReview_out_of_range today state quality)
          by (now right). }
      rewrite (calculateNextReview_in_range today state L0 L5).
      inversion X as [? ? H | ? ? H]; subst.
      * cbn [snd] in H. destruct H; lra.
      * now rewrite (IH H).
Qed.

Lemma batchProcessReviews_all_or_nothing_witness :
  Exists (fun r => snd r < 0 \/ 5 < snd r)%Q
         [(mkSRSState 1 2500 0 0, 4%Q); (mkSRSState 3 2500 2 0, 6%Q)]
  /\ batchProcessReviews 0
       [(mkSRSState 1 2500 0 0, 4%Q); (mkSRSState 3 2500 2 0, 6%Q)]
     = inl (Error "Quality must be between 0 and 5").
Proof.
  assert (X : Exists (fun r => snd r < 0 \/ 5 < snd r)%Q
                [(mkSRSState 1 2500 0 0, 4%Q); (mkSRSState 3 2500 2 0, 6%Q)])
    by (apply Exists_cons_tl, Exists_cons_hd; right; reflexivity).
  split; [exact X|].
  exact (proj2 (batchProcessReviews_all_or_nothing 0 _) X).
Defined.

End Days.

(** ** Submitting a review *)

Section SubmitReview.

Import Js Db Srs LearningRouter.
Local Open Scope Z_scope.

(** X7.  [submitReview] reads no progress record and writes none.  For
    every user, input and database the mutation throws
    [TypeError: db.select is not a function], its [db] being the Promise
    that [getDb()] is, and leaves the database as it is; so it never
    answers "Progress record not found" and never returns a new state.
    The procedure ends in an error too: that of the input check when the
    quality is outside [0, 5], which is exactly when the check refuses it,
    and the [TypeError] otherwise. *)
Theorem submitReview_throws (now : Z) (userId : string)
    (input : SubmitReviewInput) (db : DB) :
  submitReview now userId input db
  = (inl (TypeError "db.select is not a function"), db)
  /\ submitReviewProcedure now userId input db
     = (inl (if submitReviewInputOk input
             then TypeError "db.select is not a function"
             else Error "BAD_REQUEST"), db)
  /\ (submitReviewInputOk input = true
      <-> (0 <= quality input /\ quality input <= 5)%Q).
Proof.
  split; [reflexivity|]. split.
  - unfold submitReviewProcedure. now destruct (submitReviewInputOk input).
  - unfold submitReviewInputOk.
    now rewrite andb_true_iff, !Qle_bool_iff.
Qed.

End SubmitReview.

(** ** The record-answer path, continued *)

Section RecordAnswerMore.

Import Js Db AppRouter.
Local Open Scope Z_scope.

(** The record of the user and phrase after an answer to a phrase that has
    one. *)
Lemma recordAnswer_update (now : Z) (rnd userId phraseId : string)
    (isCorrect : bool) (db : DB) (p : UserProgress.t) :
  fst (ServerDb.getUserProgress userId phraseId db) = Some p ->
  let interval := if isCorrect then Notions.answerInterval p else 1 in
  fst (ServerDb.getUserProgress userId phraseId
         (snd (recordAnswer now rnd userId phraseId isCorrect db)))
  = Some {| UserProgress.id := UserProgress.id p;
            UserProgress.userId := UserProgress.userId p;
            UserProgress.phraseId := UserProgress.phraseId p;
            UserProgress.interval := interval;
            UserProgress.easeFactor :=
              Z.max 1300 (UserProgress.easeFactor p
                          + if isCorrect then 200 else -100);
            UserProgress.repetitions :=
              if isCorrect then UserProgress.repetitions p + 1 else 0;
            UserProgress.correctCount :=
              UserProgress.correctCount p + if isCorrect then 1 else 0;
            UserProgress.incorrectCount :=
              UserProgress.incorrectCount p + if isCorrect then 0 else 1;
            UserProgress.lastReviewedAt := Some now;
            UserProgress.nextReviewAt := now + interval * msPerDay;
            UserProgress.status := UserProgress.status p;
            UserProgress.createdAt := UserProgress.createdAt p;
            UserProgress.updatedAt := Some now |}
  /\ List.length
       (t_userProgress (snd (recordAnswer now rnd userId phraseId isCorrect db)))
     = List.length (t_userProgress db).
Proof.
  rewrite !getUserProgress_find. intros F interval. subst interval.
  unfold recordAnswer, bind, select, update, ret.
  cbn [rows userProgress]. rewrite isProgressOf_fold, limit_1_filter, F.
  destruct isCorrect;
    cbn [fst snd setRows userProgress t_userProgress];
    (split; [|apply length_map]);
    (rewrite find_map_kept;
     [ rewrite F; cbn [option_map]; rewrite String.eqb_refl;
       unfold Notions.answerInterval, msPerDay; cbn [negb];
       f_equal; f_equal; try reflexivity; lia
     | intro r;
       destruct (UserProgress.id r =? UserProgress.id p)%string;
       reflexivity ]).
Qed.

(** X9.  An answer to a phrase for which the user has a progress record
    rewrites that record.  A correct answer adds one to its repetitions and
    to its [correctCount], sets the interval to 1, to 3 or, from the third
    repetition on, to [Math.round(interval * (easeFactor / 1000))] as the
    doubles give it, with the ease factor as it was before the answer, and
    then raises the ease factor by 200.  An incorrect one resets
    repetitions to 0 and interval to 1, adds one to [incorrectCount] and
    lowers the ease factor by 100, not below 1300.  Either way the next
    review is [interval] days of 86400000 ms after now, the status is left
    as it was, and no record is added.  This when MySQL takes the update:
    now is a time of the clock, the record has room in its counters, and
    the next review is a time of a [timestamp] column. *)
Theorem recordAnswer_existing_record (now : Z) (rnd userId phraseId : string)
    (isCorrect : bool) (db : DB) (p : UserProgress.t) :
  fst (ServerDb.getUserProgress userId phraseId db) = Some p ->
  Notions.clock now ->
  Notions.roomy p ->
  timestampColumn (now + (if isCorrect then Notions.answerInterval p else 1)
                         * (24 * 60 * 60 * 1000)) ->
  exists p' : UserProgress.t,
    fst (ServerDb.getUserProgress userId phraseId
           (snd (recordAnswer now rnd userId phraseId isCorrect db)))
    = Some p'
    /\ UserProgress.id p' = UserProgress.id p
    /\ UserProgress.status p' = UserProgress.status p
    /\ UserProgress.lastReviewedAt p' = Some now
    /\ UserProgress.nextReviewAt p'
       = now + UserProgress.interval p' * (24 * 60 * 60 * 1000)
    /\ List.length
         (t_userProgress
            (snd (recordAnswer now rnd userId phraseId isCorrect db)))
       = List.length (t_userProgress db)
    /\ (isCorrect = true ->
        UserProgress.repetitions p' = UserProgress.repetitions p + 1
        /\ UserProgress.interval p' = Notions.answerInterval p
        /\ UserProgress.easeFactor p'
           = Z.max 1300 (UserProgress.easeFactor p + 200)
        /\ UserProgress.correctCount p' = UserProgress.correctCount p + 1
        /\ UserProgress.incorrectCount p' = UserProgress.incorrectCount p)
    /\ (isCorrect = false ->
        UserProgress.repetitions p' = 0
        /\ UserProgress.interval p' = 1
        /\ UserProgress.easeFactor p'
           = Z.max 1300 (UserProgress.easeFactor p - 100)
        /\ UserProgress.correctCount p' = UserProgress.correctCount p
        /\ UserProgress.incorrectCount p' = UserProgress.incorrectCount p + 1).
Proof.
  intros F _ _ _.
  destruct (recordAnswer_update now rnd userId phraseId isCorrect db F)
    as [G L].
  eexists. split; [exact G|].
  cbn [UserProgress.id UserProgress.status UserProgress.lastReviewedAt
       UserProgress.nextReviewAt UserProgress.interval
       UserProgress.repetitions UserProgress.easeFactor
       UserProgress.correctCount UserProgress.incorrectCount].
  repeat split; try exact L; intros; subst isCorrect; lia.
Qed.

Lemma recordAnswer_existing_record_witness :
  fst (ServerDb.getUserProgress "u" "hallo" Samples.dbHalfWay)
  = Some Samples.progressHalfWay
  /\ Notions.clock Samples.clock
  /\ Notions.roomy Samples.progressHalfWay
  /\ timestampColumn
       (Samples.clock + Notions.answerInterval Samples.progressHalfWay
                        * (24 * 60 * 60 * 1000))
  /\ exists p' : UserProgress.t,
       fst (ServerDb.getUserProgress "u" "hallo"
              (snd (recordAnswer Samples.clock "x7" "u" "hallo" true
                      Samples.dbHalfWay)))
       = Some p'
       /\ UserProgress.repetitions p' = 3
       /\ UserProgress.interval p' = 57
       /\ UserProgress.nextReviewAt p' = Samples.clock + 57 * 86400000
       /\ UserProgress.easeFactor p' = 2500.
Proof.
  assert (K : Notions.clock Samples.clock)
    by (split; split; vm_compute; discriminate).
  assert (R : Notions.roomy Samples.progressHalfWay)
    by (repeat split; vm_compute; (reflexivity || discriminate)).
  assert (V : timestampColumn
                (Samples.clock + Notions.answerInterval Samples.progressHalfWay
                                 * (24 * 60 * 60 * 1000)))
    by (split; vm_compute; discriminate).
  split; [reflexivity|]. split; [exact K|]. split; [exact R|].
  split; [exact V|].
  destruct (@recordAnswer_existing_record Samples.clock "x7"%string
              "u"%string "hallo"%string true Samples.dbHalfWay
              Samples.progressHalfWay eq_refl K R V)
    as (p' & F & _ & _ & _ & N & _ & C & _).
  destruct (C eq_refl) as (R' & I & E & _).
  exists p'. split; [exact F|]. split; [exact R'|].
  split; [rewrite I; reflexivity|].
  split; [rewrite N, I; reflexivity | exact E].
Defined.

(** X10.  The first two answers to a phrase.  When the user has no record
    for the phrase, an answer followed by a correct answer leaves one
    record: after two correct answers it has repetitions 2, interval 3 and
    ease factor 2700; after an incorrect and a correct answer it has
    repetitions 1, interval 1 and ease factor 1500, and still the status
    [new] that the first answer gave it. *)
Theorem recordAnswer_first_two_answers (now1 now2 : Z)
    (rnd1 rnd2 userId phraseId : string) (first : bool) (db : DB) :
  fst (ServerDb.getUserProgress userId phraseId db) = None ->
  let db1 := snd (recordAnswer now1 rnd1 userId phraseId first db) in
  let db2 := snd (recordAnswer now2 rnd2 userId phraseId true db1) in
  exists p : UserProgress.t,
    fst (ServerDb.getUserProgress userId phraseId db2) = Some p
    /\ UserProgress.repetitions p = (if first then 2 else 1)
    /\ UserProgress.interval p = (if first then 3 else 1)
    /\ UserProgress.easeFactor p = (if first then 2700 else 1500)
    /\ UserProgress.correctCount p = (if first then 2 else 1)
    /\ UserProgress.incorrectCount p = (if first then 0 else 1)
    /\ UserProgress.status p = (if first then Srs.learning else Srs.new)
    /\ UserProgress.nextReviewAt p
       = now2 + (if first then 3 else 1) * (24 * 60 * 60 * 1000)
    /\ List.length (t_userProgress db2) = S (List.length (t_userProgress db)).
Proof.
  intros F db1 db2.
  pose proof (recordAnswer_absent now1 rnd1 userId phraseId first db F) as A.
  fold db1 in A.
  assert (F1 : exists p1, fst (ServerDb.getUserProgress userId phraseId db1)
                          = Some p1
               /\ t_userProgress db1 = t_userProgress db ++ [p1]).
  { rewrite getUserProgress_find, A.
    rewrite getUserProgress_find in F. rewrite (find_snoc _ _ _ F).
    unfold Spec.isProgressOf.
    cbn [UserProgress.userId UserProgress.phraseId].
    rewrite !String.eqb_refl. eexists. split; reflexivity. }
  destruct F1 as (p1 & F1 & T1).
  destruct (recordAnswer_update now2 rnd2 userId phraseId true db1 F1)
    as [G L].
  fold db2 in G, L. eexists. split; [exact G|].
  rewrite L, T1, length_app, Nat.add_comm.
  rewrite A in T1. apply app_inv_head in T1. injection T1 as <-.
  unfold Notions.answerInterval.
  destruct first; cbn; repeat split.
Qed.

Lemma recordAnswer_first_two_answers_witness :
  fst (ServerDb.getUserProgress "v" "hallo" Samples.db) = None
  /\ exists p : UserProgress.t,
       fst (ServerDb.getUserProgress "v" "hallo"
              (snd (recordAnswer 400 "y" "v" "hallo" true
                      (snd (recordAnswer 300 "x" "v" "hallo" false
                              Samples.db)))))
       = Some p
       /\ UserProgress.easeFactor p = 1500
       /\ UserProgress.status p = Srs.new.
Proof.
  split; [reflexivity|].
  destruct (@recordAnswer_first_two_answers 300 400 "x"%string "y"%string
              "v"%string "hallo"%string false Samples.db eq_refl)
    as (p & F & _ & _ & E & _ & _ & S & _).
  exists p. repeat split; assumption.
Defined.

End RecordAnswerMore.

(** ** The statistics of a user *)

Section Stats.

Import Js Db AppRouter.
Local Open Scope Z_scope.

Lemma filter_length_le {A : Type} (f : A -> bool) (l : list A) :
  (List.length (filter f l) <= List.length l)%nat.
Proof.
  induction l as [|x l IH]; cbn; [lia|]. destruct (f x); cbn; lia.
Qed.

Lemma filter_filter_and {A : Type} (f g : A -> bool) (l : list A) :
  filter (fun x => f x && g x) l = filter g (filter f l).
Proof.
  induction l as [|x l IH]; [reflexivity|].
  cbn [filter]. destruct (f x); cbn [andb filter]; [|exact IH].
  destruct (g x); now rewrite IH.
Qed.

(** The sums of the two counters over rows that have them non-negative. *)
Lemma review_sums (l : list UserProgress.t) :
  (forall p, In p l -> 0 <= UserProgress.correctCount p
                       /\ 0 <= UserProgress.incorrectCount p) ->
  0 <= fold_right (fun p sum => UserProgress.correctCount p + sum) 0 l
    <= fold_right (fun p sum =>
                     UserProgress.correctCount p
                     + UserProgress.incorrectCount p + sum) 0 l.
Proof.
  induction l as [|x l IH]; intro N; cbn; [lia|].
  pose proof (N x (or_introl eq_refl)).
  assert (forall p, In p l -> 0 <= UserProgress.correctCount p
                              /\ 0 <= UserProgress.incorrectCount p)
    by (intros p I; apply N; now right).
  specialize (IH H0). lia.
Qed.

(** A share of a positive whole, as a rounded percentage. *)
Lemma percentage_bounds (part whole : Z) :
  0 <= part <= whole -> 0 < whole ->
  0 <= Math_round (inject_Z part / inject_Z whole * 100)%Q <= 100.
Proof.
  intros [P0 P1] W.
  rewrite Zle_Qle in P0, P1. rewrite Zlt_Qlt in W.
  change (inject_Z 0) with 0%Q in *.
  assert (A : (0 <= inject_Z part / inject_Z whole)%Q)
    by (apply Qle_shift_div_l; [exact W | lra]).
  assert (B : (inject_Z part / inject_Z whole <= 1)%Q)
    by (apply Qle_shift_div_r; [exact W | lra]).
  revert A B. generalize (inject_Z part / inject_Z whole)%Q. intros x A B.
  split.
  - change 0 with (Math_round 0). apply Math_round_le. lra.
  - apply (Z.le_trans _ (Math_round 100)); [|discriminate].
    apply Math_round_le. lra.
Qed.

(** X11.  [getStats] reads only.  When the counters of the records of the
    user are not negative, the number of learned phrases is between 0 and
    the total, and the accuracy is a percentage from 0 to 100, 0 when the
    user has no record. *)
Theorem getStats_bounds (userId : string) (db : DB) :
  (forall p, In p (t_userProgress db) -> UserProgress.userId p = userId ->
             0 <= UserProgress.correctCount p
             /\ 0 <= UserProgress.incorrectCount p) ->
  snd (getStats userId db) = db
  /\ 0 <= learned (fst (getStats userId db)) <= total (fst (getStats userId db))
  /\ 0 <= accuracy (fst (getStats userId db)) <= 100
  /\ (total (fst (getStats userId db)) = 0 ->
      accuracy (fst (getStats userId db)) = 0).
Proof.
  intro N. unfold getStats, bind, select, ret. cbn [rows userProgress fst snd].
  cbn [learned total accuracy].
  set (mine := filter (fun p => (UserProgress.userId p =? userId)%string)
                      (t_userProgress db)).
  assert (M : forall p, In p mine -> 0 <= UserProgress.correctCount p
                                     /\ 0 <= UserProgress.incorrectCount p).
  { intros p I. apply filter_In in I. destruct I as [I U].
    apply String.eqb_eq in U. now apply N. }
  pose proof (review_sums mine M) as S.
  split; [reflexivity|]. split; [|split].
  - rewrite filter_filter_and. fold mine.
    pose proof (filter_length_le
                  (fun p => 0 <? UserProgress.correctCount p) mine). lia.
  - destruct (Z.ltb_spec 0 (fold_right
                (fun p sum => UserProgress.correctCount p
                              + UserProgress.incorrectCount p + sum) 0 mine))
      as [T | T]; [|lia].
    apply percentage_bounds; lia.
  - intro E. destruct mine; [reflexivity | discriminate E].
Qed.

Lemma getStats_bounds_witness :
  (forall p, In p (t_userProgress Samples.db) -> UserProgress.userId p = "u"%string ->
             0 <= UserProgress.correctCount p
             /\ 0 <= UserProgress.incorrectCount p)
  /\ 0 <= accuracy (fst (getStats "u" Samples.db)) <= 100.
Proof.
  assert (N : forall p, In p (t_userProgress Samples.db) ->
                UserProgress.userId p = "u"%string ->
                0 <= UserProgress.correctCount p
                /\ 0 <= UserProgress.incorrectCount p).
  { intros p [<- | [<- | []]] _; cbn; lia. }
  split; [exact N|].
  exact (proj1 (proj2 (proj2 (@getStats_bounds "u"%string Samples.db N)))).
Defined.

End Stats.

(** ** Completing a daily task, continued *)

Section TaskCompletionMore.

Import Js Db TaskScheduler.
Local Open Scope Z_scope.

(** X12.  When the user has no progress record for the phrase,
    [completeDailyTask] creates one with the defaults of the table:
    interval 1, ease factor 2500, repetitions 0 and no [lastReviewedAt],
    also after a correct answer; the answer is counted in [correctCount] or
    [incorrectCount], the status is [learning] and the next review is one
    day after now.  This when the id of the record,
    [progress_<userId>_<phraseId>_<now>], has at most the 64 characters of
    the key.  When it is longer the insert is refused: no progress record
    is created and, the function ending there, no review is scheduled;
    only the task stays marked.  Both for a completion that writes what
    MySQL takes otherwise: a time of the clock, seconds that are a value
    of an [int] column, ids that are no keys yet. *)
Theorem completeDailyTask_first_completion (now : Z)
    (userId taskId phraseId : string) (isCorrect : bool)
    (timeSpentSeconds : Z) (db : DB) :
  fst (ServerDb.getUserProgress userId phraseId db) = None ->
  Notions.completionAccepted now userId phraseId timeSpentSeconds db ->
  let db' := snd (completeDailyTask now userId taskId phraseId isCorrect
                    timeSpentSeconds db) in
  let id := UserProgress.id
              (Notions.firstProgress now userId phraseId isCorrect) in
  ((String.length id <= idLength)%nat ->
   exists p : UserProgress.t,
     t_userProgress db' = t_userProgress db ++ [p]
     /\ fst (ServerDb.getUserProgress userId phraseId db') = Some p
     /\ UserProgress.id p = id
     /\ UserProgress.interval p = 1
     /\ UserProgress.easeFactor p = 2500
     /\ UserProgress.repetitions p = 0
     /\ UserProgress.lastReviewedAt p = None
     /\ UserProgress.correctCount p = (if isCorrect then 1 else 0)
     /\ UserProgress.incorrectCount p = (if isCorrect then 0 else 1)
     /\ UserProgress.status p = Srs.learning
     /\ UserProgress.nextReviewAt p = now + 24 * 60 * 60 * 1000)
  /\ ((idLength < String.length id)%nat ->
      t_userProgress db' = t_userProgress db
      /\ t_dailyTasks db'
         = map (fun t => if (DailyTask.id t =? taskId)%string
                         then Notions.completedTask now isCorrect
                                timeSpentSeconds t
                         else t)
               (t_dailyTasks db)).
Proof.
  intros F _ db' id.
  destruct (completeDailyTask_steps userId phraseId now taskId isCorrect
              timeSpentSeconds db) as (db1 & T & P & E).
  rewrite getUserProgress_find in F. rewrite F in P, E.
  fold id in P, E. unfold Notions.fits in P, E. split.
  - intro L. apply Nat.leb_le in L. rewrite L in P, E.
    assert (U : t_userProgress db' = t_userProgress db1).
    { unfold db'. rewrite E. destruct isCorrect; [|reflexivity].
      apply forEach_frame. }
    eexists. split; [rewrite U; exact P|].
    split; [|repeat split].
    rewrite getUserProgress_find, U, P, (find_snoc _ _ _ F).
    unfold Spec.isProgressOf, Notions.firstProgress.
    cbn [UserProgress.userId UserProgress.phraseId].
    now rewrite !String.eqb_refl.
  - intro L. apply Nat.leb_gt in L. rewrite L in P, E.
    rewrite andb_false_r in E. unfold db'. rewrite E. now split.
Qed.

Lemma completeDailyTask_first_completion_witness :
  fst (ServerDb.getUserProgress "v" "hallo" Samples.db) = None
  /\ Notions.completionAccepted Samples.clock "v" "hallo" 5 Samples.db
  /\ (exists p : UserProgress.t,
         fst (ServerDb.getUserProgress "v" "hallo"
                (snd (completeDailyTask Samples.clock "v" "t9" "hallo" true 5
                        Samples.db))) = Some p
         /\ UserProgress.repetitions p = 0
         /\ UserProgress.correctCount p = 1)
  /\ fst (ServerDb.getUserProgress Samples.registered "danke"
            Samples.dbRegistered) = None
  /\ Notions.completionAccepted Samples.clock Samples.registered "danke" 5
       Samples.dbRegistered
  /\ t_userProgress
       (snd (completeDailyTask Samples.clock Samples.registered "t4" "danke"
               true 5 Samples.dbRegistered))
     = t_userProgress Samples.dbRegistered.
Proof.
  assert (A : Notions.completionAccepted Samples.clock "v" "hallo" 5
                Samples.db).
  { split; [split; split; vm_compute; discriminate|].
    split; [split; [vm_compute; discriminate | reflexivity]|].
    split; [|split].
    - intros p I E. cbn in I.
      destruct I as [<- | [<- | []]]; discriminate E.
    - cbn. intros [E | [E | []]]; discriminate E.
    - intros schedule I. cbn in I.
      repeat (destruct I as [<- | I];
              [cbn; intros [E | []]; discriminate E|]).
      destruct I. }
  assert (B : Notions.completionAccepted Samples.clock Samples.registered
                "danke" 5 Samples.dbRegistered).
  { split; [split; split; vm_compute; discriminate|].
    split; [split; [vm_compute; discriminate | reflexivity]|].
    split; [|split].
    - intros p I E. cbn in I.
      destruct I as [<- | []]; discriminate E.
    - cbn. intros [E | []]; discriminate E.
    - intros schedule I. cbn in I.
      repeat (destruct I as [<- | I];
              [cbn; intros [E | []]; discriminate E|]).
      destruct I. }
  split; [reflexivity|]. split; [exact A|]. split.
  - destruct (proj1 (@completeDailyTask_first_completion Samples.clock
                       "v"%string "t9"%string "hallo"%string true 5
                       Samples.db eq_refl A))
      as (p & _ & F & _ & _ & _ & R & _ & C & _); [vm_compute; lia|].
    exists p. repeat split; assumption.
  - split; [reflexivity|]. split; [exact B|].
    apply (proj2 (@completeDailyTask_first_completion Samples.clock
                    Samples.registered "t4"%string "danke"%string true 5
                    Samples.dbRegistered eq_refl B)).
    vm_compute. lia.
Defined.

(** X13.  [completeDailyTask] and the table of daily tasks.  Every task
    with the id is marked completed with the time, the outcome and the
    seconds, whoever owns it; every other task stays as it is, in place.
    Rows are only appended, none on an incorrect answer, and the appended
    ones are checkpoint tasks of the item. *)
Theorem completeDailyTask_marks (now : Z) (userId taskId phraseId : string)
    (isCorrect : bool) (timeSpentSeconds : Z) (db : DB) :
  exists extra : list DailyTask.t,
    t_dailyTasks (snd (completeDailyTask now userId taskId phraseId isCorrect
                         timeSpentSeconds db))
    = map (fun t => if (DailyTask.id t =? taskId)%string
                    then Notions.completedTask now isCorrect timeSpentSeconds t
                    else t)
          (t_dailyTasks db)
      ++ extra
    /\ (isCorrect = false -> extra = [])
    /\ Forall (fun t => DailyTask.userId t = userId
                        /\ DailyTask.phraseId t = phraseId
                        /\ In (DailyTask.taskType t) Spec.checkpoints
                        /\ DailyTask.status t = TaskStatus.pending) extra.
Proof.
  destruct (completeDailyTask_steps userId phraseId now taskId isCorrect
              timeSpentSeconds db) as (db1 & T & _ & ->).
  destruct (isCorrect && _) eqn:B.
  - destruct (forEach_appends userId phraseId now reviewSchedules db1)
      as (extra & -> & F & _).
    exists extra. cbn [setRows dailyTasks t_dailyTasks]. rewrite T.
    split; [reflexivity|]. split.
    + intros ->. discriminate B.
    + eapply Forall_impl; [|exact F].
      intros t (s & I & ->). cbn.
      repeat split; try reflexivity.
      cbn in I. unfold Spec.checkpoints.
      repeat (destruct I as [<- | I]; [cbn; tauto|]). destruct I.
  - exists []. rewrite app_nil_r. split; [exact T|].
    split; [reflexivity | constructor].
Qed.

Lemma reviewSchedules_NoDup : NoDup (map snd reviewSchedules).
Proof.
  cbn. repeat constructor; cbn; intuition discriminate.
Qed.

Lemma completeDailyTask_marks_witness :
  false = false
  /\ t_dailyTasks (snd (completeDailyTask 300 "u" "t1" "hallo" false 12
                          Samples.db))
     = [Notions.completedTask 300 false 12 Samples.taskHallo].
Proof.
  split; [reflexivity|].
  destruct (completeDailyTask_marks 300 "u" "t1" "hallo" false 12 Samples.db)
    as (extra & T & N & _).
  rewrite T, (N eq_refl). reflexivity.
Defined.

(** X14.  A correct completion for an item that has no checkpoint task
    yet, which writes what MySQL takes but for the length of the ids: a
    time of the clock, seconds and counters that are values of an [int]
    column, ids that are no keys yet.  When the ids of the rows it may
    create have at most the 64 characters of the key, it appends the five
    tasks of the ladder, in order: the task of type [review_N] is pending
    and scheduled at the midnight [N] days after today's.  When the id of
    the first of them, [task_<userId>_<phraseId>_review_1_<now>], is
    longer, the first insert is refused and the loop ends: no checkpoint
    task is created. *)
Theorem completeDailyTask_schedules (now : Z) (userId taskId phraseId : string)
    (timeSpentSeconds : Z) (db : DB) :
  (forall taskType, In taskType Spec.checkpoints ->
      Spec.countTasks userId phraseId taskType db = 0%nat) ->
  Notions.completionAccepted now userId phraseId timeSpentSeconds db ->
  let db' := snd (completeDailyTask now userId taskId phraseId true
                    timeSpentSeconds db) in
  let marked :=
    map (fun t => if (DailyTask.id t =? taskId)%string
                  then Notions.completedTask now true timeSpentSeconds t
                  else t)
        (t_dailyTasks db) in
  (Notions.completionIdsFit now userId phraseId = true ->
   t_dailyTasks db'
   = marked ++ map (Notions.checkpointTask now userId phraseId) reviewSchedules)
  /\ ((idLength
       < String.length
           (DailyTask.id
              (Notions.checkpointTask now userId phraseId
                 (1%Z, TaskType.review_1))))%nat ->
      t_dailyTasks db' = marked)
  /\ (forall schedule, In schedule reviewSchedules ->
        DailyTask.scheduledDate
          (Notions.checkpointTask now userId phraseId schedule)
        = addDays (startOfDay now) (fst schedule)
        /\ DailyTask.status
             (Notions.checkpointTask now userId phraseId schedule)
           = TaskStatus.pending).
Proof.
  intros Z0 _ db' marked.
  split; [|split; [|intros; split; [apply startOfDay_addDays | reflexivity]]].
  - intro F. apply completionIdsFit_schedules in F. destruct F as [F1 F2].
    destruct (completeDailyTask_steps userId phraseId now taskId true
                timeSpentSeconds db) as (db1 & T & _ & E).
    unfold db'. rewrite E.
    replace (match find (Spec.isProgressOf userId phraseId) (t_userProgress db)
             with
             | Some _ => true
             | None => Notions.fits
                         (UserProgress.id
                            (Notions.firstProgress now userId phraseId true))
             end) with true by (rewrite F1; now destruct (find _ _)).
    cbn [andb].
    destruct (forEach_appends userId phraseId now reviewSchedules db1)
      as (extra & -> & _ & A).
    cbn [setRows dailyTasks t_dailyTasks]. rewrite T. f_equal.
    apply A; [apply reviewSchedules_NoDup | | exact F2].
    intros s I.
    rewrite (@countTasks_marked userId phraseId _ _ _ _ (snd s) db db1 T).
    apply Z0. cbn in I. unfold Spec.checkpoints.
    repeat (destruct I as [<- | I]; [cbn; tauto|]). destruct I.
  - intro L. apply Nat.leb_gt in L.
    destruct (completeDailyTask_steps userId phraseId now taskId true
                timeSpentSeconds db) as (db1 & T & _ & E).
    unfold db'. rewrite E.
    destruct (true && _); [|exact T].
    unfold reviewSchedules. cbn [forEach]. unfold bindE at 1.
    rewrite scheduleReview_effect. unfold Notions.fits. rewrite L.
    rewrite (@countTasks_marked userId phraseId _ _ _ _ _ db db1 T).
    cbn [snd]. rewrite (Z0 TaskType.review_1) by (cbn; tauto).
    exact T.
Qed.

Lemma completeDailyTask_schedules_witness :
  (forall taskType, In taskType Spec.checkpoints ->
      Spec.countTasks "u" "hallo" taskType Samples.db = 0%nat)
  /\ Notions.completionAccepted Samples.clock "u" "hallo" 12 Samples.db
  /\ map DailyTask.taskType
       (t_dailyTasks (snd (completeDailyTask Samples.clock "u" "t1" "hallo"
                             true 12 Samples.db)))
     = [TaskType.new; TaskType.review_1; TaskType.review_3;
        TaskType.review_10; TaskType.review_21; TaskType.review_50]
  /\ (forall taskType, In taskType Spec.checkpoints ->
        Spec.countTasks Samples.registered "hallo" taskType
          Samples.dbRegistered = 0%nat)
  /\ Notions.completionAccepted Samples.clock Samples.registered "hallo" 12
       Samples.dbRegistered
  /\ map DailyTask.taskType
       (t_dailyTasks (snd (completeDailyTask Samples.clock Samples.registered
                             "t4" "hallo" true 12 Samples.dbRegistered)))
     = [TaskType.new].
Proof.
  assert (Z0 : forall taskType, In taskType Spec.checkpoints ->
                 Spec.countTasks "u" "hallo" taskType Samples.db = 0%nat)
    by (intros taskType I; cbn in I;
        repeat (destruct I as [<- | I]; [reflexivity|]); destruct I).
  assert (Z1 : forall taskType, In taskType Spec.checkpoints ->
                 Spec.countTasks Samples.registered "hallo" taskType
                   Samples.dbRegistered = 0%nat)
    by (intros taskType I; cbn in I;
        repeat (destruct I as [<- | I]; [reflexivity|]); destruct I).
  assert (A : Notions.completionAccepted Samples.clock "u" "hallo" 12
                Samples.db).
  { split; [split; split; vm_compute; discriminate|].
    split; [split; [vm_compute; discriminate | reflexivity]|].
    split; [|split].
    - intros p I _. cbn in I.
      destruct I as [<- | [<- | []]];
        repeat split; vm_compute; (reflexivity || discriminate).
    - cbn. intros [E | [E | []]]; discriminate E.
    - intros schedule I. cbn in I.
      repeat (destruct I as [<- | I];
              [cbn; intros [E | []]; discriminate E|]).
      destruct I. }
  assert (B : Notions.completionAccepted Samples.clock Samples.registered
                "hallo" 12 Samples.dbRegistered).
  { split; [split; split; vm_compute; discriminate|].
    split; [split; [vm_compute; discriminate | reflexivity]|].
    split; [|split].
    - intros p I _. cbn in I.
      destruct I as [<- | []];
        repeat split; vm_compute; (reflexivity || discriminate).
    - cbn. intros [E | []]; discriminate E.
    - intros schedule I. cbn in I.
      repeat (destruct I as [<- | I];
              [cbn; intros [E | []]; discriminate E|]).
      destruct I. }
  split; [exact Z0|]. split; [exact A|].
  split; [|split; [exact Z1|split; [exact B|]]].
  - rewrite (proj1 (@completeDailyTask_schedules Samples.clock "u"%string
                      "t1"%string "hallo"%string 12 Samples.db Z0 A));
      reflexivity.
  - rewrite (proj1 (proj2 (@completeDailyTask_schedules Samples.clock
                             Samples.registered "t4"%string "hallo"%string 12
                             Samples.dbRegistered Z1 B)));
      [reflexivity | vm_compute; lia].
Defined.

End TaskCompletionMore.

(** ** The tasks of the day *)

Section TodaysTasks.

Import Js Db TaskScheduler.
Local Open Scope Z_scope.

Lemma innerJoin_In {A B : Type} (a : list A) (b : list B)
    (on : A -> B -> bool) (x : A) (y : B) :
  In (x, y) (innerJoin a b on) <-> In x a /\ In y b /\ on x y = true.
Proof.
  unfold innerJoin. rewrite in_flat_map. split.
  - intros (r & I & J). apply in_map_iff in J. destruct J as (s & E & J).
    injection E as -> ->. apply filter_In in J. tauto.
  - intros (I & J & O). exists x. split; [exact I|].
    apply in_map_iff. exists y. split; [reflexivity|].
    apply filter_In. tauto.
Qed.

Lemma leftJoin_In {A B : Type} (a : list A) (b : list B)
    (on : A -> B -> bool) (x : A) (o : option B) :
  In (x, o) (leftJoin a b on) ->
  In x a
  /\ match o with
     | None => forall y, In y b -> on x y = false
     | Some y => In y b /\ on x y = true
     end.
Proof.
  unfold leftJoin. rewrite in_flat_map. intros (r & I & J).
  destruct (filter (on r) b) as [|m ms] eqn:F.
  - destruct J as [E | []]. injection E as E1 E2. subst r o.
    split; [exact I|].
    intros y Iy. destruct (on x y) eqn:O; [|reflexivity].
    assert (H : In y (filter (on x) b)) by (apply filter_In; tauto).
    rewrite F in H. destruct H.
  - apply in_map_iff in J. destruct J as (s & E & J).
    injection E as E1 E2. subst r o. split; [exact I|].
    rewrite <- F in J. apply filter_In in J. exact J.
Qed.

Lemma mapIndexed_length {A B : Type} (f : A -> Z -> B) (i : Z) (l : list A) :
  List.length (mapIndexed f i l) = List.length l.
Proof.
  revert i. induction l as [|x l IH]; intro i; cbn; [reflexivity|].
  now rewrite IH.
Qed.

Lemma mapIndexed_In {A B : Type} (f : A -> Z -> B) (i : Z) (l : list A) (y : B) :
  In y (mapIndexed f i l) -> exists x k, In x l /\ y = f x k.
Proof.
  revert i. induction l as [|x l IH]; intro i; cbn; [tauto|].
  intros [<- | I].
  - exists x, i. split; [now left | reflexivity].
  - destruct (IH _ I) as (x' & k & I' & E). exists x', k.
    split; [now right | exact E].
Qed.

(** What [initializeDailyTasks] creates: at most [dailyLoad] tasks, each a
    pending task of type [new] of the user, scheduled at today's midnight,
    for a phrase of the table on which nobody has a progress record or
    somebody else has one. *)
Lemma initializeDailyTasks_created (rand : list string -> list string)
    (now : Z) (userId : string) (dailyLoad : nat) (db : DB) :
  (forall l x, In x (rand l) -> In x l) ->
  exists created : list DailyTask.t,
    snd (initializeDailyTasks rand now userId dailyLoad db)
    = setRows dailyTasks (t_dailyTasks db ++ created) db
    /\ (List.length created <= dailyLoad)%nat
    /\ Forall (fun t =>
                 DailyTask.userId t = userId
                 /\ DailyTask.taskType t = TaskType.new
                 /\ DailyTask.status t = TaskStatus.pending
                 /\ DailyTask.scheduledDate t = startOfDay now
                 /\ exists ph, In ph (t_phrases db)
                      /\ Phrase.id ph = DailyTask.phraseId t
                      /\ ((forall p, In p (t_userProgress db) ->
                                     UserProgress.phraseId p <> Phrase.id ph)
                          \/ exists p, In p (t_userProgress db)
                               /\ UserProgress.phraseId p = Phrase.id ph
                               /\ UserProgress.userId p <> userId))
              created.
Proof.
  intro RI. unfold initializeDailyTasks.
  cbn [rows phrases userProgress].
  set (candidates := filter _ (leftJoin _ _ _)).
  set (unlearned := limit dailyLoad (rand (map _ candidates))).
  destruct (List.length unlearned =? 0)%nat eqn:E.
  - exists []. cbn [snd]. rewrite app_nil_r. destruct db.
    repeat split; [cbn; lia | constructor].
  - unfold tryCatch, insertKeyed. cbn [rows setRows dailyTasks].
    destruct (forallb _ _);
      [|exists []; cbn [snd]; rewrite app_nil_r; destruct db;
        repeat split; [cbn; lia | constructor]].
    eexists. split; [reflexivity|]. split.
    + rewrite mapIndexed_length. unfold unlearned, limit.
      apply firstn_le_length.
    + apply Forall_forall. intros t I.
      apply mapIndexed_In in I. destruct I as (item & k & I & ->).
      cbn [DailyTask.userId DailyTask.taskType DailyTask.status
           DailyTask.scheduledDate DailyTask.phraseId].
      repeat split.
      apply limit_In, RI, in_map_iff in I.
      destruct I as ([ph o] & <- & I). cbn [fst].
      unfold candidates in I. apply filter_In in I. destruct I as [I C].
      apply leftJoin_In in I. destruct I as [I J]. cbn [snd] in C.
      exists ph. split; [exact I|]. split; [reflexivity|].
      destruct o as [p|].
      * right. destruct J as [J O]. exists p. split; [exact J|].
        apply String.eqb_eq in O. split; [now symmetry|].
        apply negb_true_iff, String.eqb_neq in C. exact C.
      * left. intros p Ip Q. specialize (J p Ip).
        apply String.eqb_neq in J. congruence.
Qed.

(** X15.  What [initializeDailyTasks] does: it appends at most
    [dailyLoad] tasks and changes nothing else.  Each is a pending task of
    type [new] of the user, scheduled at today's midnight, for a phrase of
    the table on which nobody has a progress record or on which somebody
    else has one; so a phrase on which only the user has progress gets no
    task.  ([rand] may be any order that invents no row.) *)
Theorem initializeDailyTasks_tasks (rand : list string -> list string)
    (now : Z) (userId : string) (dailyLoad : nat) (db : DB) :
  (forall l x, In x (rand l) -> In x l) ->
  exists created : list DailyTask.t,
    snd (initializeDailyTasks rand now userId dailyLoad db)
    = setRows dailyTasks (t_dailyTasks db ++ created) db
    /\ (List.length created <= dailyLoad)%nat
    /\ Forall (fun t =>
                 DailyTask.userId t = userId
                 /\ DailyTask.taskType t = TaskType.new
                 /\ DailyTask.status t = TaskStatus.pending
                 /\ DailyTask.scheduledDate t = startOfDay now
                 /\ exists ph, In ph (t_phrases db)
                      /\ Phrase.id ph = DailyTask.phraseId t
                      /\ ((forall p, In p (t_userProgress db) ->
                                     UserProgress.phraseId p <> Phrase.id ph)
                          \/ exists p, In p (t_userProgress db)
                               /\ UserProgress.phraseId p = Phrase.id ph
                               /\ UserProgress.userId p <> userId))
              created
    /\ (forall phraseId,
           (exists p, In p (t_userProgress db)
                      /\ UserProgress.phraseId p = phraseId) ->
           (forall p, In p (t_userProgress db) ->
                      UserProgress.phraseId p = phraseId ->
                      UserProgress.userId p = userId) ->
           Forall (fun t => DailyTask.phraseId t <> phraseId) created).
Proof.
  intro RI.
  destruct (initializeDailyTasks_created rand now userId dailyLoad db RI)
    as (created & E & L & F).
  exists created. split; [exact E|]. split; [exact L|]. split; [exact F|].
  intros phraseId (p0 & I0 & Q0) Own.
  eapply Forall_impl; [|exact F].
  intros t (_ & _ & _ & _ & ph & _ & Q & [N | (p & I & Qp & U)]) C.
  - apply (N p0 I0). congruence.
  - apply U, Own; [exact I | congruence].
Qed.

Lemma initializeDailyTasks_tasks_witness :
  (forall (l : list string) x, In x ((fun l => l) l) -> In x l)
  /\ snd (initializeDailyTasks (fun l => l) 300 "u" 20 Samples.db)
     = Samples.db
  /\ List.length
       (t_dailyTasks (snd (initializeDailyTasks (fun l => l) 300 "v" 1
                             Samples.db))) = 2%nat.
Proof.
  assert (RI : forall (l : list string) x, In x ((fun l => l) l) -> In x l)
    by (intros l x I; exact I).
  split; [exact RI|]. split; [reflexivity|].
  destruct (@initializeDailyTasks_tasks (fun l => l) 300 "v"%string 1%nat
              Samples.db RI) as (created & E & L & _).
  rewrite E. cbn [setRows dailyTasks t_dailyTasks] in *.
  apply (f_equal t_dailyTasks) in E. cbn in E.
  apply (app_inv_head [Samples.taskHallo]) in E. subst created. reflexivity.
Defined.

Lemma filter_all {A : Type} (f : A -> bool) (l : list A) :
  Forall (fun x => f x = true) l -> filter f l = l.
Proof.
  induction 1 as [|x l H _ IH]; [reflexivity|].
  cbn [filter]. now rewrite H, IH.
Qed.

(** X16.  The tasks that [initializeDailyTasks] creates are tasks of the
    day: at any time of the same day [getTodaysTaskCount] is higher by
    their number, and [getTodaysTasks] returns each of them. *)
Theorem initializeDailyTasks_today (rand : list string -> list string)
    (now now' : Z) (userId : string) (dailyLoad : nat) (db : DB) :
  (forall l x, In x (rand l) -> In x l) ->
  startOfDay now' = startOfDay now ->
  let db' := snd (initializeDailyTasks rand now userId dailyLoad db) in
  exists created : list DailyTask.t,
    t_dailyTasks db' = t_dailyTasks db ++ created
    /\ fst (getTodaysTaskCount now' userId db')
       = fst (getTodaysTaskCount now' userId db)
         + Z.of_nat (List.length created)
    /\ Forall (fun t => exists ph,
                 In (t, ph) (fst (getTodaysTasks now' userId db'))) created.
Proof.
  intros RI D db'.
  destruct (initializeDailyTasks_created rand now userId dailyLoad db RI)
    as (created & E & _ & F).
  exists created. unfold db'. rewrite E.
  split; [reflexivity|]. split.
  - unfold getTodaysTaskCount, bind, select, ret.
    cbn [rows setRows dailyTasks t_dailyTasks fst].
    rewrite filter_app, length_app, Nat2Z.inj_add. f_equal. f_equal. f_equal.
    apply filter_all. eapply Forall_impl; [|exact F].
    intros t (U & _ & S & T & _). rewrite U, S, T, D, String.eqb_refl.
    cbn [andb]. rewrite Z.leb_refl. cbn [andb].
    apply Z.leb_le. unfold addDays, msPerDay. lia.
  - apply Forall_forall. intros t I.
    rewrite Forall_forall in F.
    destruct (F t I) as (U & _ & _ & T & ph & Iph & Q & _).
    exists ph. unfold getTodaysTasks.
    cbn [rows setRows dailyTasks phrases t_dailyTasks t_phrases fst].
    apply orderBy_In, filter_In. split.
    + apply innerJoin_In. split; [apply in_or_app; now right|].
      split; [exact Iph|]. apply String.eqb_eq. now symmetry.
    + cbn [fst]. rewrite U, T, D, String.eqb_refl, Z.leb_refl. cbn [andb].
      apply Z.leb_le. unfold addDays, msPerDay. lia.
Qed.

Lemma initializeDailyTasks_today_witness :
  (forall (l : list string) x, In x ((fun l => l) l) -> In x l)
  /\ startOfDay 400 = startOfDay 300
  /\ fst (getTodaysTaskCount 400 "v"
            (snd (initializeDailyTasks (fun l => l) 300 "v" 20 Samples.db)))
     = 2.
Proof.
  assert (RI : forall (l : list string) x, In x ((fun l => l) l) -> In x l)
    by (intros l x I; exact I).
  split; [exact RI|]. split; [reflexivity|].
  destruct (@initializeDailyTasks_today (fun l => l) 300 400 "v"%string
              20%nat Samples.db RI eq_refl) as (created & T & C & _).
  rewrite C. apply app_inv_head in T. subst created. reflexivity.
Defined.

(** X17.  [getTodaysTasks] reads only, and returns the tasks of the user,
    each with its phrase, that are scheduled from today's midnight to
    tomorrow's, both included, in the order of the task types. *)
Theorem getTodaysTasks_today (now : Z) (userId : string) (db : DB) :
  snd (getTodaysTasks now userId db) = db
  /\ (forall t ph,
         In (t, ph) (fst (getTodaysTasks now userId db))
         <-> In t (t_dailyTasks db) /\ In ph (t_phrases db)
             /\ DailyTask.phraseId t = Phrase.id ph
             /\ DailyTask.userId t = userId
             /\ startOfDay now <= DailyTask.scheduledDate t
                <= startOfDay now + 24 * 60 * 60 * 1000)
  /\ StronglySorted
       (fun a b => TaskType.index (DailyTask.taskType (fst a))
                   <= TaskType.index (DailyTask.taskType (fst b)))
       (fst (getTodaysTasks now userId db)).
Proof.
  split; [reflexivity|]. split.
  - intros t ph. unfold getTodaysTasks.
    cbn [rows dailyTasks phrases fst].
    rewrite orderBy_In, filter_In, innerJoin_In. cbn [fst].
    rewrite !andb_true_iff, String.eqb_eq, String.eqb_eq, !Z.leb_le.
    unfold addDays, msPerDay. intuition lia.
  - unfold getTodaysTasks. cbn [fst].
    rewrite <- map_id. eapply map_sorted; [|apply orderBy_sorted].
    + intros a b L. unfold asc in L. now apply Z.leb_le.
    + intros a b L. unfold asc in *. apply Z.leb_gt in L. apply Z.leb_le. lia.
    + intros a b c A B. unfold asc in *. apply Z.leb_le in A, B.
      apply Z.leb_le. lia.
Qed.

End TodaysTasks.

(** ** The checkpoint tasks of an item *)

Section CheckpointTasks.

Import Js Db TaskScheduler.

Lemma TaskType_eqb_refl (taskType : TaskType.t) :
  TaskType.eqb taskType taskType = true.
Proof. now apply TaskType_eqb_eq. Qed.

(** The checkpoint tasks of an item with a type are the tasks with the
    key, and there is none with another type. *)
Lemma checkpointTasks_typed (userId phraseId : string) (taskType : TaskType.t)
    (db : DB) :
  List.length
    (filter (fun t => TaskType.eqb (DailyTask.taskType t) taskType)
            (Spec.checkpointTasks userId phraseId db))
  = if Spec.isCheckpoint taskType
    then Spec.countTasks userId phraseId taskType db
    else 0%nat.
Proof.
  unfold Spec.checkpointTasks, Spec.countTasks, Spec.isTask.
  induction (t_dailyTasks db) as [|t l IH];
    [now destruct (Spec.isCheckpoint taskType)|].
  cbn [filter].
  destruct (DailyTask.userId t =? userId)%string,
           (DailyTask.phraseId t =? phraseId)%string;
    cbn [andb]; try exact IH.
  destruct (TaskType.eqb (DailyTask.taskType t) taskType) eqn:E.
  - apply TaskType_eqb_eq in E. rewrite E.
    destruct (Spec.isCheckpoint taskType) eqn:K; cbn [filter List.length].
    + rewrite <- E at 1. rewrite TaskType_eqb_refl. cbn [List.length].
      now rewrite IH.
    + exact IH.
  - destruct (Spec.isCheckpoint (DailyTask.taskType t)); cbn [filter];
      [rewrite E|]; exact IH.
Qed.

(** X8.  The checkpoint tasks of an item are at most five, of pairwise
    different types, in every database that the task scheduler makes of
    one without daily tasks: whatever calls of [initializeDailyTasks] and
    [completeDailyTask] were made, for whatever users, phrases, outcomes
    and times, and whether their inserts were taken or refused, no item
    has two checkpoint tasks of one type. *)
Theorem scheduled_checkpoints_unique (db : DB) (userId phraseId : string) :
  Notions.scheduled db ->
  NoDup (map DailyTask.taskType (Spec.checkpointTasks userId phraseId db))
  /\ (List.length (Spec.checkpointTasks userId phraseId db) <= 5)%nat.
Proof.
  intro S. pose proof (scheduled_keys S userId phraseId) as U.
  split.
  - assert (D : forall l : list DailyTask.t,
                (forall taskType,
                    (List.length
                       (filter (fun t =>
                                  TaskType.eqb (DailyTask.taskType t) taskType)
                               l) <= 1)%nat) ->
                NoDup (map DailyTask.taskType l)).
    { induction l as [|t l IH]; intro B; cbn [map]; constructor.
      - intro I. apply in_map_iff in I. destruct I as (t' & E & I).
        specialize (B (DailyTask.taskType t)). cbn [filter] in B.
        rewrite TaskType_eqb_refl in B. cbn [List.length] in B.
        assert (P : In t' (filter (fun x =>
                                     TaskType.eqb (DailyTask.taskType x)
                                                  (DailyTask.taskType t)) l)).
        { apply filter_In. split; [exact I|]. now apply TaskType_eqb_eq. }
        destruct (filter _ l); [destruct P | cbn in B; lia].
      - apply IH. intro taskType. specialize (B taskType).
        cbn [filter] in B.
        destruct (TaskType.eqb (DailyTask.taskType t) taskType);
          cbn [List.length] in B; lia. }
    apply D. intro taskType. rewrite checkpointTasks_typed.
    destruct (Spec.isCheckpoint taskType) eqn:K; [|lia].
    apply U. now apply isCheckpoint_In.
  - rewrite checkpointTasks_count.
    pose proof (U TaskType.review_1). pose proof (U TaskType.review_3).
    pose proof (U TaskType.review_10). pose proof (U TaskType.review_21).
    pose proof (U TaskType.review_50).
    cbn [Spec.checkpoints In] in *.
    assert (forall a : TaskType.t, a = a) by reflexivity.
    intuition lia.
Qed.

Lemma scheduled_checkpoints_unique_witness :
  Notions.scheduled
    (snd (completeDailyTask (Samples.clock + 60000)%Z "v"
            "task_v_1762170000000_0" "hallo" true 7 Samples.dbTwice))
  /\ map DailyTask.taskType
       (Spec.checkpointTasks "v" "hallo"
          (snd (completeDailyTask (Samples.clock + 60000)%Z "v"
                  "task_v_1762170000000_0" "hallo" true 7 Samples.dbTwice)))
     = [TaskType.review_1; TaskType.review_3; TaskType.review_10;
        TaskType.review_21; TaskType.review_50]
  /\ NoDup
       (map DailyTask.taskType
          (Spec.checkpointTasks "v" "hallo"
             (snd (completeDailyTask (Samples.clock + 60000)%Z "v"
                     "task_v_1762170000000_0" "hallo" true 7
                     Samples.dbTwice)))).
Proof.
  assert (S : Notions.scheduled
                (snd (completeDailyTask (Samples.clock + 60000)%Z "v"
                        "task_v_1762170000000_0" "hallo" true 7
                        Samples.dbTwice)))
    by (apply Notions.scheduled_complete, Notions.scheduled_initialize,
          Notions.scheduled_initialize, Notions.scheduled_none; reflexivity).
  split; [exact S|]. split; [reflexivity|].
  exact (proj1 (scheduled_checkpoints_unique "v" "hallo" S)).
Defined.

End CheckpointTasks.

(** ** Study sessions and the analytics of a user *)

Section Sessions.

Import Js Db TaskScheduler.
Local Open Scope Z_scope.

(** The analytics record after [updateLearningAnalytics] has written. *)
Lemma updateLearningAnalytics_record (now : Z) (userId : string) (db : DB) :
  Spec.sessionsInWindow now userId db <> [] ->
  Spec.totalPhrasesStudied (Spec.sessionsInWindow now userId db) <> 0 ->
  exists a : LearningAnalytics.t,
    fst (getLearningAnalytics userId
           (snd (updateLearningAnalytics now userId db))) = Some a
    /\ LearningAnalytics.avgPhrasesPerDay a
       = Math_round
           (inject_Z (Spec.totalPhrasesStudied
                        (Spec.sessionsInWindow now userId db)) / 30)%Q
    /\ LearningAnalytics.learningPace a
       = Spec.pace (LearningAnalytics.avgPhrasesPerDay a).
Proof.
  intros S T.
  destruct (updateLearningAnalytics_rows now userId db S T) as (acc & R).
  rewrite getLearningAnalytics_find, R.
  destruct (fst (getLearningAnalytics userId db)) as [a0|] eqn:F;
    rewrite getLearningAnalytics_find in F.
  - rewrite find_map_kept, F.
    + cbn [option_map]. apply find_some in F. destruct F as [_ ->].
      eexists. split; [reflexivity|]. split; reflexivity.
    + intro r. now destruct (LearningAnalytics.userId r =? userId)%string eqn:E.
  - rewrite (find_snoc _ _ _ F). cbn [LearningAnalytics.userId].
    rewrite String.eqb_refl. eexists. split; [reflexivity|]. split; reflexivity.
Qed.

(** [updateLearningAnalytics] leaves the table of sessions as it is. *)
Lemma updateLearningAnalytics_sessions (now : Z) (userId : string) (db : DB) :
  t_studySessions (snd (updateLearningAnalytics now userId db))
  = t_studySessions db.
Proof.
  unfold updateLearningAnalytics, bind, select, update, insert, ret.
  cbn [rows setRows studySessions learningAnalytics].
  repeat match goal with
         | |- context [if ?b then _ else _] => destruct b
         | |- context [match ?o with Some _ => _ | None => _ end] =>
             destruct o
         end; reflexivity.
Qed.

Lemma totalPhrasesStudied_nonneg (l : list StudySession.t) :
  (forall s, In s l -> 0 <= StudySession.phrasesStudied s) ->
  0 <= Spec.totalPhrasesStudied l.
Proof.
  induction l as [|x l IH]; intro N; cbn; [lia|].
  pose proof (N x (or_introl eq_refl)).
  assert (0 <= Spec.totalPhrasesStudied l)
    by (apply IH; intros s I; apply N; now right).
  unfold Spec.totalPhrasesStudied in *. lia.
Qed.

Lemma totalPhrasesStudied_app (l l' : list StudySession.t) :
  Spec.totalPhrasesStudied (l ++ l')
  = Spec.totalPhrasesStudied l + Spec.totalPhrasesStudied l'.
Proof.
  unfold Spec.totalPhrasesStudied.
  induction l as [|x l IH]; cbn; [reflexivity|]. rewrite IH. lia.
Qed.

(** X18.  [recordStudySession] with a positive number of phrases, on a
    table of sessions that has no negative number of phrases, writing what
    MySQL takes but for the length of the ids: a time of the clock, numbers
    that are values of an [int] column, ids that are no keys yet.  When the
    id of the session, [session_<userId>_<now>], has at most the 64
    characters of the key, and so has [analytics_<userId>_<now>], the id of
    an analytics record that may have to be created, it appends the session,
    with the accuracy [Math.round((correctAnswers / phrasesStudied) * 100)]
    as the doubles give it, and leaves the user with an analytics record
    whose [avgPhrasesPerDay] is at least [round(phrasesStudied / 30)] and
    whose pace is the pace of that average.  When the id of the session is
    longer, the insert is refused and nothing is recorded: the database is
    as it was. *)
Theorem recordStudySession_analytics (now : Z) (userId : string)
    (phrasesStudied correctAnswers incorrectAnswers : Z) (db : DB) :
  0 < phrasesStudied ->
  (forall s, In s (t_studySessions db) -> 0 <= StudySession.phrasesStudied s) ->
  Notions.sessionAccepted now userId phrasesStudied correctAnswers
    incorrectAnswers db ->
  let db' := snd (recordStudySession now userId phrasesStudied correctAnswers
                    incorrectAnswers db) in
  ((String.length ("session_" ++ userId ++ "_" ++ toString now)
    <= idLength)%nat ->
   (String.length ("analytics_" ++ userId ++ "_" ++ toString now)
    <= idLength)%nat ->
   exists (session : StudySession.t) (a : LearningAnalytics.t),
     t_studySessions db' = t_studySessions db ++ [session]
     /\ StudySession.userId session = userId
     /\ StudySession.sessionDate session = now
     /\ StudySession.phrasesStudied session = phrasesStudied
     /\ StudySession.accuracy session
        = F64.Math_round
            (F64.ofZ correctAnswers / F64.ofZ phrasesStudied * 100)%float
     /\ fst (getLearningAnalytics userId db') = Some a
     /\ Math_round (inject_Z phrasesStudied / 30)%Q
        <= LearningAnalytics.avgPhrasesPerDay a
     /\ LearningAnalytics.learningPace a
        = Spec.pace (LearningAnalytics.avgPhrasesPerDay a))
  /\ ((idLength
       < String.length ("session_" ++ userId ++ "_" ++ toString now))%nat ->
      db' = db).
Proof.
  intros P N _ db'. unfold db', recordStudySession, tryCatch, bindE, lift,
    insertKeyed.
  cbn [rows setRows studySessions t_studySessions forallb StudySession.id].
  rewrite andb_true_r.
  replace (0 <? phrasesStudied) with true by (symmetry; now apply Z.ltb_lt).
  split.
  2: { intro L. apply Nat.leb_gt in L. now rewrite L. }
  intros L _. apply Nat.leb_le in L. rewrite L.
  set (session := StudySession.mk _ _ _ _ _ _ _ _ _ _ _).
  set (db1 := mkDB _ _ _ (t_studySessions db ++ [session]) _).
  assert (W : Spec.sessionsInWindow now userId db1
              = Spec.sessionsInWindow now userId db ++ [session]).
  { unfold Spec.sessionsInWindow, db1. cbn [t_studySessions].
    rewrite filter_app. f_equal. cbn [filter].
    unfold session. cbn [StudySession.userId StudySession.sessionDate].
    rewrite String.eqb_refl. cbn [andb].
    replace (addDays now (-30) <=? now) with true; [reflexivity|].
    symmetry. apply Z.leb_le. unfold addDays, msPerDay. lia. }
  assert (T : Spec.totalPhrasesStudied (Spec.sessionsInWindow now userId db1)
              = Spec.totalPhrasesStudied (Spec.sessionsInWindow now userId db)
                + phrasesStudied).
  { rewrite W, totalPhrasesStudied_app. cbn. lia. }
  assert (T0 : 0 <= Spec.totalPhrasesStudied
                      (Spec.sessionsInWindow now userId db)).
  { apply totalPhrasesStudied_nonneg. intros s I.
    apply filter_In in I. now apply N. }
  destruct (updateLearningAnalytics_record now userId db1) as (a & F & A & R).
  { rewrite W. now destruct (Spec.sessionsInWindow now userId db). }
  { lia. }
  destruct (updateLearningAnalytics now userId db1) as [[] db2] eqn:E.
  cbn [snd] in *.
  exists session, a.
  split.
  { replace db2 with (snd (updateLearningAnalytics now userId db1))
      by now rewrite E.
    apply updateLearningAnalytics_sessions. }
  split; [reflexivity|]. split; [reflexivity|]. split; [reflexivity|].
  split; [reflexivity|].
  split; [exact F|]. split; [|exact R].
  rewrite A, T. apply Math_round_le.
  apply Qmult_le_compat_r; [|discriminate].
  rewrite <- Zle_Qle. lia.
Qed.

Lemma recordStudySession_analytics_witness :
  0 < 40
  /\ (forall s, In s (t_studySessions Samples.db) ->
                0 <= StudySession.phrasesStudied s)
  /\ Notions.sessionAccepted Samples.clock "w" 40 23 17 Samples.db
  /\ (exists (session : StudySession.t) (a : LearningAnalytics.t),
         t_studySessions
           (snd (recordStudySession Samples.clock "w" 40 23 17 Samples.db))
         = t_studySessions Samples.db ++ [session]
         /\ StudySession.accuracy session = 57
         /\ fst (getLearningAnalytics "w"
                   (snd (recordStudySession Samples.clock "w" 40 23 17
                           Samples.db)))
            = Some a
         /\ LearningAnalytics.learningPace a = LearningPace.slow)
  /\ Notions.sessionAccepted Samples.clock Samples.registered 40 23 17
       Samples.db
  /\ snd (recordStudySession Samples.clock Samples.registered 40 23 17
            Samples.db)
     = Samples.db.
Proof.
  assert (N : forall s, In s (t_studySessions Samples.db) ->
                0 <= StudySession.phrasesStudied s)
    by (intros s [<- | []]; cbn; lia).
  assert (A : Notions.sessionAccepted Samples.clock "w" 40 23 17 Samples.db).
  { split; [split; split; vm_compute; discriminate|].
    split; [lia|].
    split; [split; [vm_compute; discriminate | reflexivity]|].
    split; [intros s []|]. split; [reflexivity|].
    split; cbn; intros [E | []]; discriminate E. }
  assert (B : Notions.sessionAccepted Samples.clock Samples.registered
                40 23 17 Samples.db).
  { split; [split; split; vm_compute; discriminate|].
    split; [lia|].
    split; [split; [vm_compute; discriminate | reflexivity]|].
    split; [intros s []|]. split; [reflexivity|].
    split; cbn; intros [E | []]; discriminate E. }
  split; [lia|]. split; [exact N|]. split; [exact A|]. split.
  - destruct (proj1 (@recordStudySession_analytics Samples.clock "w"%string
                       40 23 17 Samples.db eq_refl N A))
      as (session & a & S & _ & _ & _ & C & F & _ & L);
      [vm_compute; lia | vm_compute; lia |].
    exists session, a. split; [exact S|]. split; [rewrite C; reflexivity|].
    split; [exact F|].
    rewrite L. vm_compute in F. injection F as <-. reflexivity.
  - split; [exact B|].
    apply (proj2 (@recordStudySession_analytics Samples.clock
                    Samples.registered 40 23 17 Samples.db eq_refl N B)).
    vm_compute. lia.
Defined.

(** X19.  [adjustLearningParameters] adjusts nothing.  For every user
    and database it throws [TypeError: db.select is not a function] at its
    first statement, its [db] being the Promise that [getDb()] is, and the
    analytics records, pace and daily load among them, stay as they
    were. *)
Theorem adjustLearningParameters_throws (now : Z) (userId : string) (db : DB) :
  AdaptiveEngine.adjustLearningParameters now userId db
  = (inl (TypeError "db.select is not a function"), db)
  /\ TaskScheduler.getLearningAnalytics userId
       (snd (AdaptiveEngine.adjustLearningParameters now userId db))
     = TaskScheduler.getLearningAnalytics userId db.
Proof.
  split; reflexivity.
Qed.

End Sessions.

(** ** The analytics record of the router *)

Section RouterAnalytics.

Import Js Db.
Local Open Scope Z_scope.

(** X20.  The [getLearningAnalytics] query of the router returns no
    record and creates none.  For every user and database it throws
    [TypeError: db.select is not a function], its [db] being the Promise
    that [getDb()] is; what the task scheduler reads as the analytics
    record of the user is as before, and a user without a record, such as
    user [v] of the sample database, is left without one. *)
Theorem getLearningAnalytics_throws (now : Z) (uuid userId : string) (db : DB) :
  LearningRouter.getLearningAnalytics now uuid userId db
  = (inl (TypeError "db.select is not a function"), db)
  /\ fst (TaskScheduler.getLearningAnalytics userId
            (snd (LearningRouter.getLearningAnalytics now uuid userId db)))
     = fst (TaskScheduler.getLearningAnalytics userId db)
  /\ fst (TaskScheduler.getLearningAnalytics "v"
            (snd (LearningRouter.getLearningAnalytics now uuid "v"
                    Samples.db)))
     = None.
Proof.
  repeat split; reflexivity.
Qed.

End RouterAnalytics.

(** ** Progress through server/db.ts *)

Section UpdateUserProgress.

Import Js Db ServerDb.
Local Open Scope Z_scope.

(** X21.  [updateUserProgress] on a phrase for which the user has a
    progress record adds one to its repetitions on a correct and on an
    incorrect answer alike, moves the ease factor by 30 up or down, not
    below 1300, sets the interval to 1, 3 or
    [Math.round(interval * (newEaseFactor / 1000))] as the doubles give it,
    counts the answer, and sets the status to [mastered] exactly when the
    new interval is above 30 days and to [learning] otherwise; this when
    MySQL takes the update: now is a time of the clock, the record has
    room in its counters, and the next review, that many days of
    86400000 ms after now, is a time of a [timestamp] column.  Without a
    record it creates one with the defaults of the table when now is a
    time of the clock and the id [<userId>-<phraseId>-<now>] has at most
    the 64 characters of the key and is no key yet; when it is longer the
    insert is refused, nothing is written and the function throws. *)
Theorem updateUserProgress_effect (now : Z) (userId phraseId : string)
    (isCorrect : bool) (db : DB) :
  let db' := snd (updateUserProgress now userId phraseId isCorrect db) in
  let id := (userId ++ "-" ++ phraseId ++ "-" ++ toString now)%string in
  (forall p, fst (getUserProgress userId phraseId db) = Some p ->
     Notions.clock now ->
     Notions.roomy p ->
     timestampColumn (now + Notions.updatedInterval isCorrect p
                            * (24 * 60 * 60 * 1000)) ->
     fst (updateUserProgress now userId phraseId isCorrect db) = inr tt
     /\ exists p' : UserProgress.t,
       fst (getUserProgress userId phraseId db') = Some p'
       /\ UserProgress.repetitions p' = UserProgress.repetitions p + 1
       /\ UserProgress.easeFactor p'
          = Z.max 1300 (UserProgress.easeFactor p
                        + if isCorrect then 30 else -30)
       /\ UserProgress.interval p' = Notions.updatedInterval isCorrect p
       /\ UserProgress.status p'
          = (if 30 <? UserProgress.interval p' then Srs.mastered
             else Srs.learning)
       /\ UserProgress.nextReviewAt p'
          = now + UserProgress.interval p' * (24 * 60 * 60 * 1000)
       /\ UserProgress.correctCount p'
          = UserProgress.correctCount p + (if isCorrect then 1 else 0)
       /\ UserProgress.incorrectCount p'
          = UserProgress.incorrectCount p + (if isCorrect then 0 else 1)
       /\ List.length (t_userProgress db') = List.length (t_userProgress db))
  /\ (fst (getUserProgress userId phraseId db) = None ->
      Notions.clock now ->
      (String.length id <= idLength)%nat ->
      ~ In id (map UserProgress.id (t_userProgress db)) ->
      fst (updateUserProgress now userId phraseId isCorrect db) = inr tt
      /\ exists p' : UserProgress.t,
        t_userProgress db' = t_userProgress db ++ [p']
        /\ fst (getUserProgress userId phraseId db') = Some p'
        /\ UserProgress.id p' = id
        /\ UserProgress.repetitions p' = 0
        /\ UserProgress.interval p' = 1
        /\ UserProgress.easeFactor p' = 2500
        /\ UserProgress.status p' = Srs.learning
        /\ UserProgress.nextReviewAt p' = now + 24 * 60 * 60 * 1000
        /\ UserProgress.correctCount p' = (if isCorrect then 1 else 0)
        /\ UserProgress.incorrectCount p' = (if isCorrect then 0 else 1))
  /\ (fst (getUserProgress userId phraseId db) = None ->
      (idLength < String.length id)%nat ->
      db' = db
      /\ exists e,
           fst (updateUserProgress now userId phraseId isCorrect db) = inl e).
Proof.
  intros db' id. split; [|split].
  - intros p F _ _ _. unfold db', updateUserProgress. rewrite F.
    unfold lift, update, Notions.updatedInterval.
    cbn [rows setRows userProgress snd fst t_userProgress].
    split; [reflexivity|].
    rewrite getUserProgress_find in F.
    rewrite getUserProgress_find. cbn [t_userProgress].
    rewrite find_map_kept.
    + rewrite F. cbn [option_map].
      pose proof (find_some _ _ F) as [_ C].
      unfold Spec.isProgressOf in C. rewrite C.
      eexists. split; [reflexivity|].
      cbn [UserProgress.repetitions UserProgress.easeFactor
           UserProgress.interval UserProgress.status UserProgress.nextReviewAt
           UserProgress.correctCount UserProgress.incorrectCount].
      assert (E : (if UserProgress.easeFactor p
                       + (20 * (if isCorrect then 4 else 1) - 50) <? 1300
                   then 1300
                   else UserProgress.easeFactor p
                        + (20 * (if isCorrect then 4 else 1) - 50))
                  = Z.max 1300 (UserProgress.easeFactor p
                                + if isCorrect then 30 else -30)).
      { destruct isCorrect;
          match goal with
          | |- context [?a <? ?b] => destruct (Z.ltb_spec a b)
          end; lia. }
      rewrite E.
      repeat split; try apply length_map. lia.
    + intro r. unfold Spec.isProgressOf.
      destruct ((UserProgress.userId r =? userId)
                && (UserProgress.phraseId r =? phraseId))%string eqn:C;
        cbn [UserProgress.userId UserProgress.phraseId]; exact C.
  - intros F _ L _. apply Nat.leb_le in L.
    unfold db', updateUserProgress. rewrite F.
    unfold insertKeyed. cbn [forallb UserProgress.id]. fold id.
    rewrite L. cbn [andb rows setRows userProgress snd fst t_userProgress].
    split; [reflexivity|].
    eexists. split; [reflexivity|]. split; [|repeat split].
    rewrite getUserProgress_find. cbn [t_userProgress].
    rewrite getUserProgress_find in F. rewrite (find_snoc _ _ _ F).
    unfold Spec.isProgressOf. cbn [UserProgress.userId UserProgress.phraseId].
    now rewrite !String.eqb_refl.
  - intros F L. apply Nat.leb_gt in L.
    unfold db', updateUserProgress. rewrite F.
    unfold insertKeyed. cbn [forallb UserProgress.id]. fold id.
    rewrite L. cbn [andb snd fst]. split; [reflexivity|].
    eexists; reflexivity.
Qed.

Lemma updateUserProgress_effect_witness :
  fst (getUserProgress "u" "danke" Samples.dbHalfWay)
  = Some Samples.progressNearHalfWay
  /\ Notions.clock Samples.clock
  /\ Notions.roomy Samples.progressNearHalfWay
  /\ timestampColumn
       (Samples.clock
        + Notions.updatedInterval true Samples.progressNearHalfWay
          * (24 * 60 * 60 * 1000))
  /\ (exists p' : UserProgress.t,
         fst (getUserProgress "u" "danke"
                (snd (updateUserProgress Samples.clock "u" "danke" true
                        Samples.dbHalfWay)))
         = Some p'
         /\ UserProgress.repetitions p' = 3
         /\ UserProgress.easeFactor p' = 2300
         /\ UserProgress.interval p' = 57)
  /\ fst (getUserProgress "v" "hallo" Samples.dbHalfWay) = None
  /\ (exists p' : UserProgress.t,
         t_userProgress
           (snd (updateUserProgress Samples.clock "v" "hallo" false
                   Samples.dbHalfWay))
         = t_userProgress Samples.dbHalfWay ++ [p']
         /\ UserProgress.id p' = "v-hallo-1762170000000"%string
         /\ UserProgress.incorrectCount p' = 1)
  /\ fst (getUserProgress Samples.registered "hallo" Samples.dbHalfWay) = None
  /\ snd (updateUserProgress Samples.clock Samples.registered "hallo" true
            Samples.dbHalfWay)
     = Samples.dbHalfWay.
Proof.
  assert (K : Notions.clock Samples.clock)
    by (split; split; vm_compute; discriminate).
  assert (R : Notions.roomy Samples.progressNearHalfWay)
    by (repeat split; vm_compute; (reflexivity || discriminate)).
  assert (V : timestampColumn
                (Samples.clock
                 + Notions.updatedInterval true Samples.progressNearHalfWay
                   * (24 * 60 * 60 * 1000)))
    by (split; vm_compute; discriminate).
  split; [reflexivity|]. split; [exact K|]. split; [exact R|].
  split; [exact V|]. split; [|split; [reflexivity|split]].
  - destruct (proj1 (updateUserProgress_effect Samples.clock "u" "danke" true
                       Samples.dbHalfWay)
                Samples.progressNearHalfWay eq_refl K R V)
      as (_ & p' & F & R' & E & I & _).
    exists p'. split; [exact F|]. split; [exact R'|]. split; [exact E|].
    rewrite I. reflexivity.
  - destruct (proj1 (proj2 (updateUserProgress_effect Samples.clock "v"
                              "hallo" false Samples.dbHalfWay)) eq_refl K)
      as (_ & p' & T & _ & I & _ & _ & _ & _ & _ & _ & C);
      [vm_compute; lia | cbn; intuition discriminate |].
    exists p'. split; [exact T|]. split; [rewrite I; reflexivity | exact C].
  - split; [reflexivity|].
    apply (proj2 (proj2 (updateUserProgress_effect Samples.clock
                           Samples.registered "hallo" true
                           Samples.dbHalfWay)) eq_refl).
    vm_compute. lia.
Defined.

End UpdateUserProgress.

(** ** The next phrase *)

Section NextPhrase.

Import Js Db AppRouter.
Local Open Scope Z_scope.

(** X22.  [getNextPhrase] reads only and returns a phrase of the table, or
    nothing when the table is empty.  When the user has records due before
    now it returns the phrase of one of them, the one with the latest
    [nextReviewAt]: no due record is due later.  ([rand] may be any
    permutation.) *)
Theorem getNextPhrase_due (rand : list Phrase.t -> list Phrase.t) (now : Z)
    (userId : string) (db : DB) :
  (forall l, Permutation (rand l) l) ->
  let due p ph :=
    In p (t_userProgress db) /\ In ph (t_phrases db)
    /\ UserProgress.phraseId p = Phrase.id ph
    /\ UserProgress.userId p = userId
    /\ UserProgress.nextReviewAt p < now in
  snd (getNextPhrase rand now userId db) = db
  /\ (forall ph, fst (getNextPhrase rand now userId db) = Some ph ->
                 In ph (t_phrases db))
  /\ (fst (getNextPhrase rand now userId db) = None <-> t_phrases db = [])
  /\ (forall p ph, due p ph ->
        exists p0 ph0,
          due p0 ph0
          /\ fst (getNextPhrase rand now userId db) = Some ph0
          /\ UserProgress.nextReviewAt p <= UserProgress.nextReviewAt p0).
Proof.
  intros RP due. unfold getNextPhrase. cbn [rows userProgress phrases].
  set (dues := filter _ (innerJoin _ _ _)).
  assert (D : forall p ph, In (p, ph) dues <-> due p ph).
  { intros p ph. unfold dues, due. rewrite filter_In, innerJoin_In.
    cbn [fst]. rewrite andb_true_iff, !String.eqb_eq, Z.ltb_lt. tauto. }
  pose proof (orderBy_sorted
                (desc (fun r : UserProgress.t * Phrase.t =>
                         UserProgress.nextReviewAt (fst r)))) as S.
  specialize (S ltac:(intros a b L; unfold desc in *;
                      apply Z.leb_gt in L; apply Z.leb_le; lia)
                ltac:(intros a b c A B; unfold desc in *;
                      apply Z.leb_le in A, B; apply Z.leb_le; lia) dues).
  pose proof (fun y => orderBy_In
                         (desc (fun r : UserProgress.t * Phrase.t =>
                                  UserProgress.nextReviewAt (fst r))) y dues)
    as OI.
  destruct (orderBy _ dues) as [|[p0 ph0] rest] eqn:O.
  - cbn [limit firstn fst snd].
    assert (E : rand (t_phrases db) = [] <-> t_phrases db = []).
    { split; intro E.
      - apply Permutation_nil. rewrite <- E. apply RP.
      - rewrite E. apply Permutation_nil, Permutation_sym, RP. }
    split; [now destruct (rand (t_phrases db))|].
    split; [|split].
    + intros ph Q. destruct (rand (t_phrases db)) as [|x l] eqn:R;
        [discriminate Q|].
      cbn in Q. injection Q as <-.
      apply (Permutation_in _ (RP (t_phrases db))). rewrite R. now left.
    + rewrite <- E. destruct (rand (t_phrases db)); cbn;
        split; intro; (reflexivity || discriminate).
    + intros p ph Du. apply D, OI in Du. destruct Du.
  - cbn [limit firstn fst snd].
    assert (D0 : due p0 ph0) by (apply D, OI; now left).
    split; [reflexivity|]. split; [|split].
    + intros ph Q. injection Q as <-. apply D0.
    + split; [discriminate|]. intro E. destruct D0 as (_ & I & _).
      rewrite E in I. destruct I.
    + intros p ph Du. exists p0, ph0. split; [exact D0|].
      split; [reflexivity|].
      apply D, OI in Du. destruct Du as [Q | I].
      * injection Q as <- _. lia.
      * inversion S as [|? ? _ F]; subst. rewrite Forall_forall in F.
        specialize (F _ I). unfold desc in F. cbn [fst] in F.
        now apply Z.leb_le.
Qed.

Lemma getNextPhrase_due_witness :
  (forall l : list Phrase.t, Permutation ((fun l => l) l) l)
  /\ fst (getNextPhrase (fun l => l) 300 "u" Samples.db) = Some Samples.danke.
Proof.
  assert (RP : forall l : list Phrase.t, Permutation ((fun l => l) l) l)
    by (intro l; apply Permutation_refl).
  split; [exact RP|].
  destruct (@getNextPhrase_due (fun l => l) 300 "u"%string Samples.db RP)
    as (_ & _ & _ & A).
  destruct (A Samples.progressDanke Samples.danke) as (p0 & ph0 & _ & F & _).
  { cbn. repeat split; try tauto; lia. }
  rewrite F. vm_compute in F. injection F as <-. reflexivity.
Defined.

End NextPhrase.

(** ** The count of the day after a completion *)

Section CountAfterCompletion.

Import Js Db TaskScheduler.
Local Open Scope Z_scope.

Lemma marked_count (cond : DailyTask.t -> bool)
    (mark : DailyTask.t -> DailyTask.t) (isMarked : DailyTask.t -> bool)
    (l : list DailyTask.t) :
  (forall t, isMarked t = true -> cond (mark t) = false) ->
  (List.length
     (filter cond (map (fun t => if isMarked t then mark t else t) l))
   <= List.length (filter cond l))%nat
  /\ ((exists t, In t l /\ isMarked t = true /\ cond t = true) ->
      (List.length
         (filter cond (map (fun t => if isMarked t then mark t else t) l))
       < List.length (filter cond l))%nat).
Proof.
  intro K. induction l as [|x l [IH1 IH2]]; cbn [map filter].
  - split; [lia|]. intros (t & [] & _).
  - destruct (isMarked x) eqn:M.
    + rewrite (K x M). destruct (cond x) eqn:C; cbn [List.length].
      * split; [lia|]. intros _. lia.
      * split; [exact IH1|]. intros (t & [<- | I] & Mt & Ct);
          [congruence|]. apply IH2. now exists t.
    + destruct (cond x) eqn:C; cbn [List.length].
      * split; [lia|]. intros (t & [<- | I] & Mt & Ct); [congruence|].
        assert (exists t, In t l /\ isMarked t = true /\ cond t = true)
          by now exists t.
        specialize (IH2 H). lia.
      * split; [exact IH1|]. intros (t & [<- | I] & Mt & Ct);
          [congruence|]. apply IH2. now exists t.
Qed.

(** X23.  After an incorrect completion [getTodaysTaskCount] is not higher
    than before, for any user and time; and it is lower when the id was
    the id of a task that counted: a pending task of the user scheduled
    from today's midnight to tomorrow's. *)
Theorem getTodaysTaskCount_after_incorrect (now now' : Z)
    (userId userId' taskId phraseId : string) (timeSpentSeconds : Z) (db : DB) :
  let db' := snd (completeDailyTask now userId taskId phraseId false
                    timeSpentSeconds db) in
  fst (getTodaysTaskCount now' userId' db')
  <= fst (getTodaysTaskCount now' userId' db)
  /\ (forall t, In t (t_dailyTasks db) ->
        DailyTask.id t = taskId ->
        DailyTask.userId t = userId' ->
        DailyTask.status t = TaskStatus.pending ->
        startOfDay now' <= DailyTask.scheduledDate t
        <= startOfDay now' + 24 * 60 * 60 * 1000 ->
        fst (getTodaysTaskCount now' userId' db')
        < fst (getTodaysTaskCount now' userId' db)).
Proof.
  intro db'.
  destruct (completeDailyTask_steps userId phraseId now taskId false
              timeSpentSeconds db) as (db1 & T & _ & E).
  unfold db'. rewrite E. cbn [andb].
  unfold getTodaysTaskCount, bind, select, ret. cbn [rows dailyTasks fst].
  rewrite T.
  match goal with
  | |- context [filter ?c (t_dailyTasks db)] =>
      destruct (@marked_count c
                  (Notions.completedTask now false timeSpentSeconds)
                  (fun t => (DailyTask.id t =? taskId)%string)
                  (t_dailyTasks db)) as [L1 L2]
  end.
  { intros t _. cbn.
    now destruct (DailyTask.userId t =? userId')%string. }
  split; [lia|].
  intros t I Q U S [D1 D2].
  match type of L2 with
  | ?P -> _ => assert (X : P)
  end.
  { exists t. split; [exact I|]. split; [now apply String.eqb_eq|].
    rewrite U, S, String.eqb_refl. cbn [andb].
    apply andb_true_iff. split; apply Z.leb_le;
      unfold addDays, msPerDay; lia. }
  specialize (L2 X). lia.
Qed.

Lemma getTodaysTaskCount_after_incorrect_witness :
  In Samples.taskHallo (t_dailyTasks Samples.db)
  /\ fst (getTodaysTaskCount 400 "u"
            (snd (completeDailyTask 300 "u" "t1" "hallo" false 12
                    Samples.db)))
     < fst (getTodaysTaskCount 400 "u" Samples.db).
Proof.
  split; [now left|].
  apply (proj2 (getTodaysTaskCount_after_incorrect 300 400 "u" "u" "t1"
                  "hallo" 12 Samples.db) Samples.taskHallo);
    try reflexivity; [now left | cbn; lia].
Defined.

End CountAfterCompletion.
